(** * Workspace GUI test toolkit: client, modal guard and input simulator

    A shallow embedding of the Python sources under [Tools/uitest/python]
    ([uitest.py], [modal_handler.py], [user_input.py]) together with the
    properties of these functions that the specification states.

    Conventions of the embedding.
    - Python [str] values are [string]s whose characters are the code
      points below 256 (Latin-1); [str.lower], [str.isspace] and [str.strip]
      are Python's on these code points.
    - [exn] holds the exceptions that derive from [Exception], which
      [except Exception] catches; [base_exn] holds those that do not.
    - A Python call that may raise returns a [result]; [try]/[except] blocks
      are written as a [match] on that result, one branch per handler in the
      order of the source.
    - External programs (the [uitest] bridge, [xdotool], [xprop]) and the
      library functions [json.loads] and [math.sqrt] are not part of the
      repository: they are [Variable]s of the sections that use them, so
      every theorem holds for all behaviours of these programs.
    - A parsed number is an [int] or a [float]; the floats the input
      simulator computes with are modelled by rationals, as said there. *)

From Stdlib Require Import String Ascii List ZArith QArith Qminmax Bool Lia.
From Stdlib Require Import DecimalString.
Import ListNotations.

Set Warnings "-register-all".
Set Implicit Arguments.

Open Scope string_scope.
Open Scope Z_scope.

(* ================================================================= *)
(** ** Python runtime fragments *)

Module Py.

(** [str.lower] on one code point below 256: the letters [A] to [Z], and
    the letters U+00C0 to U+00DE apart from the multiplication sign U+00D7,
    move up by 32; every other code point stays. *)
Definition lower_char (c : ascii) : ascii :=
  let n := nat_of_ascii c in
  if (Nat.leb 65 n && Nat.leb n 90)
     || (Nat.leb 192 n && Nat.leb n 222 && negb (Nat.eqb n 215))
  then ascii_of_nat (n + 32) else c.

Fixpoint lower (s : string) : string :=
  match s with
  | EmptyString => EmptyString
  | String c r => String (lower_char c) (lower r)
  end.

(** [needle in hay] for two strings. *)
Fixpoint contains (needle hay : string) : bool :=
  if String.prefix needle hay then true
  else match hay with
       | EmptyString => false
       | String _ r => contains needle r
       end.

(** [s.startswith(p)]. *)
Definition startswith (s p : string) : bool := String.prefix p s.

(** Code points for which [str.isspace] holds, below 256. *)
Definition is_space (c : ascii) : bool :=
  let n := nat_of_ascii c in
  orb (andb (Nat.leb 9 n) (Nat.leb n 13))
      (orb (andb (Nat.leb 28 n) (Nat.leb n 32))
           (orb (Nat.eqb n 133) (Nat.eqb n 160))).

Fixpoint lstrip (s : string) : string :=
  match s with
  | EmptyString => EmptyString
  | String c r => if is_space c then lstrip r else s
  end.

Fixpoint rstrip (s : string) : string :=
  match s with
  | EmptyString => EmptyString
  | String c r =>
      let r' := rstrip r in
      if andb (is_space c) (String.eqb r' EmptyString) then EmptyString
      else String c r'
  end.

Definition strip (s : string) : string := rstrip (lstrip s).

Definition newline : ascii := ascii_of_nat 10.
Definition nl : string := String newline EmptyString.

(** [s.split(sep)] for a one-character separator: never empty, the empty
    string gives one empty field. *)
Fixpoint split (sep : ascii) (s : string) : list string :=
  match s with
  | EmptyString => [EmptyString]
  | String c r =>
      if Ascii.eqb c sep then EmptyString :: split sep r
      else match split sep r with
           | [] => [String c EmptyString]
           | h :: t => String c h :: t
           end
  end.

Definition split_nl (s : string) : list string := split newline s.

(** ['\n'.join(lines)]. *)
Definition join_nl (lines : list string) : string := String.concat nl lines.

(** [s[:n]]. *)
Definition take (n : nat) (s : string) : string := String.substring 0 n s.

(** The exception classes that occur; all of them derive from
    [Exception].  [JSONDecodeError] is [json.JSONDecodeError];
    [BuiltinError] stands for the interpreter's own classes
    ([AttributeError], [TypeError], [ValueError], [RecursionError],
    [OSError], ...), named by [cls]. *)
Inductive exn : Type :=
| UITestException (msg : string)
| WorkspaceNotRunningError (msg : string)
| CommandFailedError (msg : string)
| AssertionFailedError (msg : string)
| UserInputError (msg : string)
| TimeoutExpired (msg : string)
| JSONDecodeError (msg : string)
| BuiltinError (cls msg : string).

(** [str(e)]. *)
Definition str_exn (e : exn) : string :=
  match e with
  | UITestException m | WorkspaceNotRunningError m | CommandFailedError m
  | AssertionFailedError m | UserInputError m | TimeoutExpired m
  | JSONDecodeError m | BuiltinError _ m => m
  end.

(** [type(e).__name__]. *)
Definition class_name (e : exn) : string :=
  match e with
  | UITestException _ => "UITestException"
  | WorkspaceNotRunningError _ => "WorkspaceNotRunningError"
  | CommandFailedError _ => "CommandFailedError"
  | AssertionFailedError _ => "AssertionFailedError"
  | UserInputError _ => "UserInputError"
  | TimeoutExpired _ => "TimeoutExpired"
  | JSONDecodeError _ => "JSONDecodeError"
  | BuiltinError c _ => c
  end.

Definition AttributeError := BuiltinError "AttributeError".
Definition TypeError := BuiltinError "TypeError".
Definition ZeroDivisionError := BuiltinError "ZeroDivisionError".

(** Outcome of a call: a value, or a raised exception. *)
Inductive result (A : Type) : Type :=
| Ok (a : A)
| Raise (e : exn).
Arguments Ok {A} a.
Arguments Raise {A} e.

Definition bind {A B} (r : result A) (k : A -> result B) : result B :=
  match r with
  | Ok a => k a
  | Raise e => Raise e
  end.

(** [for x in xs: if f(x): return True] followed by [return False]; an
    exception raised by [f] leaves the loop. *)
Definition for_any {A} (f : A -> result bool) : list A -> result bool :=
  fix go (xs : list A) : result bool :=
    match xs with
    | [] => Ok false
    | x :: r =>
        match f x with
        | Raise e => Raise e
        | Ok true => Ok true
        | Ok false => go r
        end
    end.

(** [str(n)] for an integer. *)
Definition str_int (n : Z) : string := NilZero.string_of_int (Z.to_int n).

Definition ValueError := BuiltinError "ValueError".
Definition KeyError := BuiltinError "KeyError".
Definition OverflowError := BuiltinError "OverflowError".

(** The exceptions that derive from [BaseException] but not from
    [Exception]: no [except Exception] handler catches them. *)
Inductive base_exn : Type :=
| SystemExit (code : Z)
| KeyboardInterrupt
| GeneratorExit.

(** How a call that runs foreign callables ends: it returns, or one of
    these exceptions passes through it. *)
Inductive ending (A : Type) : Type :=
| Finished (a : A)
| Propagated (b : base_exn).
Arguments Finished {A} a.
Arguments Propagated {A} b.

(** [msg or default]: the empty string is false. *)
Definition str_or (msg default : string) : string :=
  match msg with
  | EmptyString => default
  | _ => msg
  end.

End Py.

Import Py.

Declare Scope py_scope.
Notation "x <- c ;; k" := (Py.bind c (fun x => k))
  (at level 61, c at next level, right associativity) : py_scope.
Notation "' p <- c ;; k" := (Py.bind c (fun x => let p := x in k))
  (at level 61, p pattern, c at next level, right associativity) : py_scope.
Open Scope py_scope.

(* ================================================================= *)
(** ** Values produced by [json.loads] *)

Module Json.

(** A [float] as the parser yields it: a finite value, [nan], or one of
    the two infinities. *)
Inductive float : Type :=
| Finite (q : Q)
| NaN
| Infinity (negative : bool).

(** A number is an [int] or a [float]. *)
Inductive number : Type :=
| PyInt (z : Z)
| PyFloat (f : float).

(** A [dict] keeps insertion order; [JObj] lists its items in that order
    with distinct keys as the parser leaves them, and a lookup takes the
    first entry for a key. *)
Inductive json : Type :=
| JNull
| JBool (b : bool)
| JNum (num : number)
| JStr (s : string)
| JArr (items : list json)
| JObj (kv : list (string * json)).

(** [type(v).__name__], as the interpreter's messages quote it. *)
Definition type_name (v : json) : string :=
  match v with
  | JNull => "NoneType"
  | JBool _ => "bool"
  | JNum (PyInt _) => "int"
  | JNum (PyFloat _) => "float"
  | JStr _ => "str"
  | JArr _ => "list"
  | JObj _ => "dict"
  end.

(** The [AttributeError] of a call of a method the object does not
    have. *)
Definition no_attribute (v : json) (method : string) : exn :=
  AttributeError ("'" ++ type_name v ++ "' object has no attribute '"
                  ++ method ++ "'").

(** [k in d] / [d[k]]. *)
Fixpoint dict_get (k : string) (kv : list (string * json)) : option json :=
  match kv with
  | [] => None
  | (k', v) :: r => if String.eqb k' k then Some v else dict_get k r
  end.

Definition has_key (k : string) (kv : list (string * json)) : bool :=
  match dict_get k kv with Some _ => true | None => false end.

(** [if k in d: body(d[k])] with [otherwise] when the key is absent,
    written so that [body] may recurse on the value found. *)
Definition with_key {B} (k : string) (body : json -> B) (otherwise : B)
  : list (string * json) -> B :=
  fix go (kv : list (string * json)) : B :=
    match kv with
    | [] => otherwise
    | (k', v) :: r => if String.eqb k' k then body v else go r
    end.

(** [obj.get(k, default)]; only a [dict] has the method. *)
Definition get (obj : json) (k : string) (default : json) : result json :=
  match obj with
  | JObj kv => Ok (match dict_get k kv with Some v => v | None => default end)
  | _ => Raise (no_attribute obj "get")
  end.

(** [v == s] for a Python string [s]. *)
Definition eq_str (v : json) (s : string) : bool :=
  match v with
  | JStr s' => String.eqb s' s
  | _ => false
  end.

(** The items a [for] loop sees. *)
Fixpoint chars (s : string) : list json :=
  match s with
  | EmptyString => []
  | String c r => JStr (String c EmptyString) :: chars r
  end.

Definition iter (v : json) : result (list json) :=
  match v with
  | JArr l => Ok l
  | JObj kv => Ok (map (fun p => JStr (fst p)) kv)
  | JStr s => Ok (chars s)
  | _ => Raise (TypeError ("'" ++ type_name v ++ "' object is not iterable"))
  end.

(** Truth value of an object. *)
Definition truthy (v : json) : bool :=
  match v with
  | JNull => false
  | JBool b => b
  | JNum (PyInt z) => negb (z =? 0)
  | JNum (PyFloat (Finite q)) => negb (Qeq_bool q 0)
  | JNum (PyFloat _) => true
  | JStr s => negb (String.eqb s EmptyString)
  | JArr l => match l with [] => false | _ => true end
  | JObj kv => match kv with [] => false | _ => true end
  end.

(** [needle in v] for a string [needle]. *)
Definition str_in (needle : string) (v : json) : result bool :=
  match v with
  | JStr s => Ok (Py.contains needle s)
  | JArr l => Ok (existsb (fun x => eq_str x needle) l)
  | JObj kv => Ok (has_key needle kv)
  | _ => Raise (TypeError ("argument of type '" ++ type_name v
                           ++ "' is not iterable"))
  end.

(** [v.lower()]. *)
Definition lower (v : json) : result json :=
  match v with
  | JStr s => Ok (JStr (Py.lower s))
  | _ => Raise (no_attribute v "lower")
  end.

(** [d[k] = v]: an existing key keeps its place, a new one goes last. *)
Fixpoint set_key (k : string) (v : json) (kv : list (string * json))
  : list (string * json) :=
  match kv with
  | [] => [(k, v)]
  | (k', v') :: r =>
      if String.eqb k' k then (k, v) :: r else (k', v') :: set_key k v r
  end.

End Json.

Import Json.

Section JsonInduction.

Variable P : json -> Prop.
Hypothesis Hnull : P JNull.
Hypothesis Hbool : forall b, P (JBool b).
Hypothesis Hnum : forall num, P (JNum num).
Hypothesis Hstr : forall s, P (JStr s).
Hypothesis Harr : forall l, Forall P l -> P (JArr l).
Hypothesis Hobj : forall kv, Forall (fun p => P (snd p)) kv -> P (JObj kv).

(** Induction on a value with the hypothesis available for every item of
    a list and every value of a dict. *)
Fixpoint json_induction (j : json) : P j :=
  match j with
  | JNull => Hnull
  | JBool b => Hbool b
  | JNum num => Hnum num
  | JStr s => Hstr s
  | JArr l =>
      Harr ((fix items (l : list json) : Forall P l :=
               match l with
               | nil => Forall_nil _
               | cons x r => Forall_cons _ (json_induction x) (items r)
               end) l)
  | JObj kv =>
      Hobj ((fix entries (kv : list (string * json))
               : Forall (fun p => P (snd p)) kv :=
               match kv with
               | nil => Forall_nil _
               | cons p r =>
                   Forall_cons (P := fun p => P (snd p)) p
                               (json_induction (snd p)) (entries r)
               end) kv)
  end.

End JsonInduction.

(* ================================================================= *)
(** ** [uitest.py]: the test client *)

Module UITest.

(** What [subprocess.run(..., capture_output=True, text=True)] hands
    back when the child ran to completion. *)
Record CompletedProcess : Type := Completed {
  stdout : string;
  stderr : string;
  returncode : Z
}.

(** The fields of [WorkspaceTestClient]. *)
Record client : Type := Client {
  uitest_path : string;
  _last_json_response : option json
}.

(** A method: it may raise, and it may update the client's fields. *)
Definition M (A : Type) : Type := client -> result A * client.

Definition lift {A} (r : result A) : M A := fun self => (r, self).
Definition mbind {A B} (m : M A) (k : A -> M B) : M B :=
  fun self =>
    match m self with
    | (Ok a, self') => k a self'
    | (Raise e, self') => (Raise e, self')
    end.

(** [try: m  except Exception: return d]. *)
Definition except_return {A} (m : M A) (d : A) : M A :=
  fun self =>
    match m self with
    | (Ok a, self') => (Ok a, self')
    | (Raise _, self') => (Ok d, self')
    end.

Notation "x <~ c ;; k" := (mbind c (fun x => k))
  (at level 61, c at next level, right associativity).

Definition sentinel : string := "Cannot contact Workspace".

Definition not_running_msg : string :=
  "Workspace is not running or not responding. " ++
  "Start Workspace with: Workspace -d".

Definition no_json_msg (output : string) : string :=
  "No JSON found in output: " ++ Py.take 200 output.

Definition bad_json_msg (e : string) : string :=
  "Failed to parse JSON response: " ++ e.

(** The loop of [_extract_json] that looks for the start of the JSON
    text; [i] is the index [enumerate] has reached. *)
Fixpoint find_json_start (lines : list string) (i : nat) : option nat :=
  match lines with
  | [] => None
  | line :: r =>
      if Py.startswith (Py.strip line) "{" then Some i
      else find_json_start r (S i)
  end.

Section Client.

(** [subprocess.run(cmd, capture_output=True, text=True, timeout=10)]:
    the completed process, or the exception it raised ([TimeoutExpired],
    [FileNotFoundError], ...). *)
Variable subprocess_run : list string -> result CompletedProcess.

(** [json.loads]: the value, or the exception it raised: a
    [JSONDecodeError] for a text that is not JSON, or another one (a
    [ValueError] for an integer literal beyond the digit limit, a
    [RecursionError] for a document nested too deeply). *)
Variable json_loads : string -> result json.

(** The [try] block of [_run_command], before its handlers. *)
Definition _run_command_try (self : client) (args : list string)
  : result (string * string * Z) :=
  let cmd := uitest_path self :: args in
  result <- subprocess_run cmd ;;
  if Py.contains sentinel (stderr result)
  then Raise (WorkspaceNotRunningError not_running_msg)
  else Ok (stdout result, stderr result, returncode result).

(** [_run_command]: the block above under
    [except subprocess.TimeoutExpired] and [except Exception as e]. *)
Definition _run_command (self : client) (args : list string)
  : result (string * string * Z) :=
  match _run_command_try self args with
  | Ok v => Ok v
  | Raise (TimeoutExpired _) =>
      Raise (CommandFailedError "uitest command timed out")
  | Raise e =>
      Raise (CommandFailedError ("Failed to run uitest: " ++ str_exn e))
  end.

Definition _extract_json (output : string) : M json :=
  fun self =>
    let lines := Py.split_nl output in
    match find_json_start lines 0 with
    | None => (Raise (UITestException (no_json_msg output)), self)
    | Some json_start =>
        let json_text := Py.join_nl (skipn json_start lines) in
        match json_loads json_text with
        | Ok data =>
            (Ok data, Client (uitest_path self) (Some data))
        | Raise (JSONDecodeError e) =>
            (Raise (UITestException (bad_json_msg e)), self)
        | Raise e => (Raise e, self)
        end
    end.

Definition query_ui_state : M json :=
  fun self =>
    match _run_command self ["query"; "--json"] with
    | Raise e => (Raise e, self)
    | Ok (stdout, stderr, code) =>
        if negb (code =? 0)
        then (Raise (CommandFailedError
                       ("Failed to query UI state: " ++ stderr)), self)
        else _extract_json stdout self
    end.

(** The [for] loop of [window_exists]. *)
Fixpoint window_exists_loop (title : string) (windows : list json)
  : result bool :=
  match windows with
  | [] => Ok false
  | window :: r =>
      t <- Json.get window "title" JNull ;;
      if Json.eq_str t title then Ok true
      else
        t' <- Json.get window "windowTitle" JNull ;;
        if Json.eq_str t' title then Ok true
        else window_exists_loop title r
  end.

Definition window_exists (title : string) : M bool :=
  except_return
    (state <~ query_ui_state ;;
     lift (windows <- Json.get state "windows" (JArr []) ;;
           ws <- Json.iter windows ;;
           window_exists_loop title ws))
    false.

(** The local function [search_in_tree] of [text_visible]. *)
Fixpoint search_in_tree (case_sensitive : bool) (search_text : string)
         (obj : json) : result bool :=
  match obj with
  | JObj kv =>
      match
        match dict_get "text" kv with
        | Some element_text =>
            element_text <-
              (if case_sensitive then Ok element_text
               else Json.lower element_text) ;;
            Json.str_in search_text element_text
        | None => Ok false
        end
      with
      | Raise e => Raise e
      | Ok true => Ok true
      | Ok false =>
          with_key "children"
            (fun children =>
               match children with
               | JArr l =>
                   for_any (search_in_tree case_sensitive search_text) l
               | other =>
                   (* the items of a str or of a dict are strings, on
                      which the function returns False *)
                   items <- Json.iter other ;;
                   for_any (fun _ : json => Ok false) items
               end)
            (Ok false) kv
      end
  | JArr l => for_any (search_in_tree case_sensitive search_text) l
  | _ => Ok false
  end.

Definition text_visible (text : string) (case_sensitive : bool) : M bool :=
  except_return
    (state <~ query_ui_state ;;
     let search_text := if case_sensitive then text else Py.lower text in
     lift (windows <- Json.get state "windows" (JArr []) ;;
           ws <- Json.iter windows ;;
           for_any (search_in_tree case_sensitive search_text) ws))
    false.

(** The local function [count_class] of [count_elements_by_class]: the
    number it adds to the [nonlocal] counter. *)
Fixpoint count_class (class_name : string) (obj : json) : nat :=
  match obj with
  | JObj kv =>
      ((if match dict_get "class" kv with
           | Some c => Json.eq_str c class_name
           | None => false
           end then 1 else 0)
       + with_key "children" (count_class class_name) 0 kv
       + with_key "contentView" (count_class class_name) 0 kv
       + with_key "views" (count_class class_name) 0 kv)%nat
  | JArr l => list_sum (map (count_class class_name) l)
  | _ => 0%nat
  end.

Definition count_elements_by_class (class_name : string) : M nat :=
  except_return
    (state <~ query_ui_state ;;
     lift (windows <- Json.get state "windows" (JArr []) ;;
           ws <- Json.iter windows ;;
           Ok (list_sum (map (count_class class_name) ws))))
    0%nat.

(** The local function [extract_texts] of the text helpers: what it
    appends to [texts]. *)
Fixpoint extract_texts (obj : json) : list json :=
  match obj with
  | JObj kv =>
      (match dict_get "text" kv with
       | Some t => if Json.truthy t then [t] else []
       | None => []
       end)
      ++ with_key "children" extract_texts [] kv
      ++ with_key "contentView" extract_texts [] kv
      ++ with_key "views" extract_texts [] kv
  | JArr l => flat_map extract_texts l
  | _ => []
  end.

(** The [for] loop of [get_visible_text_in_window], up to its [break]. *)
Fixpoint visible_text_loop (title : string) (windows : list json)
  : result (list json) :=
  match windows with
  | [] => Ok []
  | window :: r =>
      t <- Json.get window "title" JNull ;;
      if Json.eq_str t title then Ok (extract_texts window)
      else visible_text_loop title r
  end.

Definition get_visible_text_in_window (title : string) : M (list json) :=
  except_return
    (state <~ query_ui_state ;;
     lift (windows <- Json.get state "windows" (JArr []) ;;
           ws <- Json.iter windows ;;
           visible_text_loop title ws))
    [].

Definition get_menu_state : M json :=
  fun self =>
    match _run_command self ["list-menus"] with
    | Raise e => (Raise e, self)
    | Ok (stdout, stderr, code) =>
        if negb (code =? 0)
        then (Raise (CommandFailedError
                       ("Failed to get menu state: " ++ stderr)), self)
        else _extract_json stdout self
    end.

(** The [for] loop of [get_menu_items] and the [raise] after it. *)
Fixpoint get_menu_items_loop (menu_title : string) (menus : list json)
  : result json :=
  match menus with
  | [] => Raise (UITestException ("Menu not found: " ++ menu_title))
  | menu :: r =>
      t <- Json.get menu "title" JNull ;;
      if Json.eq_str t menu_title then Json.get menu "items" (JArr [])
      else get_menu_items_loop menu_title r
  end.

Definition get_menu_items (menu_title : string) : M json :=
  state <~ get_menu_state ;;
  lift (menus <- Json.get state "menus" (JArr []) ;;
        ms <- Json.iter menus ;;
        get_menu_items_loop menu_title ms).

Definition item_not_found_msg (menu_title item_title : string) : string :=
  "Menu item not found: " ++ menu_title ++ " > " ++ item_title.

(** The [for] loop of [is_menu_item_enabled] and the [raise] after it. *)
Fixpoint is_menu_item_enabled_loop (menu_title item_title : string)
         (items : list json) : result json :=
  match items with
  | [] => Raise (UITestException (item_not_found_msg menu_title item_title))
  | item :: r =>
      t <- Json.get item "title" JNull ;;
      if Json.eq_str t item_title
      then Json.get item "enabled" (JBool false)
      else is_menu_item_enabled_loop menu_title item_title r
  end.

Definition is_menu_item_enabled (menu_title item_title : string) : M json :=
  items <~ get_menu_items menu_title ;;
  lift (its <- Json.iter items ;;
        is_menu_item_enabled_loop menu_title item_title its).

(** *** Further methods of the client *)

Definition get_last_json_response : M json :=
  fun self =>
    match _last_json_response self with
    | None | Some JNull =>
        (Raise (UITestException "No previous query executed"), self)
    | Some data => (Ok data, self)
    end.

Definition menu (menu_path : string) : M json :=
  fun self =>
    match _run_command self ["menu"; menu_path] with
    | Raise e => (Raise e, self)
    | Ok (stdout, stderr, code) => _extract_json stdout self
    end.

(** [duration] is given as an integer number of seconds. *)
Definition highlight_failure (window_title element_text : string)
           (duration : Z) : M json :=
  fun self =>
    match _run_command self
            ["highlight"; window_title; element_text; Py.str_int duration] with
    | Raise e => (Raise e, self)
    | Ok (stdout, stderr, code) => _extract_json stdout self
    end.

Definition find_element (window_title text : string) : M json :=
  fun self =>
    match _run_command self ["find"; window_title; text] with
    | Raise e => (Raise e, self)
    | Ok (stdout, stderr, code) => _extract_json stdout self
    end.

Definition text_mismatch_msg (expected_text actual_text : string) : string :=
  "Expected text '" ++ expected_text ++ "' not found in '" ++ actual_text ++ "'".

Definition text_missing_msg (expected_text window_title : string) : string :=
  "Text '" ++ expected_text ++ "' not found in window '" ++ window_title ++ "'".

Definition assert_text_contains (window_title expected_text : string)
           (actual_text : option string) (highlight_on_fail : bool) : M bool :=
  match actual_text with
  | Some actual_text =>
      if negb (Py.contains expected_text actual_text) then
        if highlight_on_fail then
          _ <~ highlight_failure window_title actual_text 0 ;;
          lift (Raise (AssertionFailedError
                         (text_mismatch_msg expected_text actual_text)))
        else
          lift (Raise (AssertionFailedError
                         (text_mismatch_msg expected_text actual_text)))
      else lift (Ok true)
  | None =>
      result <~ find_element window_title expected_text ;;
      lift (found <- Json.get result "found" (JBool false) ;;
            if negb (Json.truthy found)
            then Raise (AssertionFailedError
                          (text_missing_msg expected_text window_title))
            else Ok true)
  end.

Definition assert_window_exists (title msg : string) : M unit :=
  present <~ window_exists title ;;
  lift (if negb present
        then Raise (AssertionFailedError
                      (Py.str_or msg ("Window '" ++ title ++ "' not found")))
        else Ok tt).

(** The local function [find_class] of [assert_element_exists]. *)
Fixpoint find_class (class_name : string) (obj : json) : result bool :=
  match obj with
  | JObj kv =>
      if match dict_get "class" kv with
         | Some c => Json.eq_str c class_name
         | None => false
         end
      then Ok true
      else
        with_key "children"
          (fun children =>
             match children with
             | JArr l => for_any (find_class class_name) l
             | other =>
                 (* the items of a str or of a dict are strings, on
                    which the function returns False *)
                 items <- Json.iter other ;;
                 for_any (fun _ : json => Ok false) items
             end)
          (Ok false) kv
  | JArr l => for_any (find_class class_name) l
  | _ => Ok false
  end.

Definition class_missing_msg (class_name : string) : string :=
  "Element with class '" ++ class_name ++ "' not found".

(** The [try] block of [assert_element_exists], before its handlers. *)
Definition assert_element_exists_try (class_name msg : string) : M unit :=
  state <~ query_ui_state ;;
  lift (windows <- Json.get state "windows" (JArr []) ;;
        ws <- Json.iter windows ;;
        found <- for_any (find_class class_name) ws ;;
        if found then Ok tt
        else Raise (AssertionFailedError
                      (Py.str_or msg (class_missing_msg class_name)))).

(** [assert_element_exists]: the block above under
    [except AssertionFailedError: raise] and [except Exception as e]. *)
Definition assert_element_exists (class_name msg : string) : M unit :=
  fun self =>
    match assert_element_exists_try class_name msg self with
    | (Ok v, self') => (Ok v, self')
    | (Raise (AssertionFailedError m), self') =>
        (Raise (AssertionFailedError m), self')
    | (Raise e, self') =>
        (Raise (AssertionFailedError
                  ("Error searching for element: " ++ str_exn e)), self')
    end.

(** [result = ...; if result: return result], then [rest]. *)
Definition found_or (result rest : option json) : option json :=
  match result with
  | Some r => if Json.truthy r then Some r else rest
  | None => rest
  end.

(** [for item in xs: result = f(item); if result: return result], then
    [return None]. *)
Definition first_found (f : json -> option json) : list json -> option json :=
  fix go (xs : list json) : option json :=
    match xs with
    | [] => None
    | x :: r => found_or (f x) (go r)
    end.

(** The local function [find_element] of [get_element_by_text]. *)
Fixpoint find_element_by_text (text : string) (obj : json) : option json :=
  match obj with
  | JObj kv =>
      if match dict_get "text" kv with
         | Some t => Json.eq_str t text
         | None => false
         end
      then Some obj
      else
        found_or (with_key "children" (find_element_by_text text) None kv)
          (found_or (with_key "contentView" (find_element_by_text text) None kv)
             (found_or (with_key "views" (find_element_by_text text) None kv)
                None))
  | JArr l => first_found (find_element_by_text text) l
  | _ => None
  end.

Definition get_element_by_text (text : string) : M (option json) :=
  except_return
    (state <~ query_ui_state ;;
     lift (windows <- Json.get state "windows" (JArr []) ;;
           ws <- Json.iter windows ;;
           Ok (first_found (find_element_by_text text) ws)))
    None.

Definition window_not_found_msg (title : string) : string :=
  "Window not found: " ++ title.

(** [views[0].get('children', [])] for a true [views] whose length is
    positive. *)
Definition first_view_children (views : json) : result json :=
  match views with
  | JArr (v :: _) => Json.get v "children" (JArr [])
  | JStr (String c _) => Json.get (JStr (String c "")) "children" (JArr [])
  | JObj _ => Raise (KeyError "0")
  | _ => Raise (TypeError ("object of type '" ++ type_name views
                           ++ "' has no len()"))
  end.

(** The [for] loop of [get_window_elements] and the [raise] after it. *)
Fixpoint get_window_elements_loop (title : string) (windows : list json)
  : result json :=
  match windows with
  | [] => Raise (AssertionFailedError (window_not_found_msg title))
  | window :: r =>
      t <- Json.get window "title" JNull ;;
      t' <- (if Json.eq_str t title then Ok t
             else Json.get window "windowTitle" JNull) ;;
      if Json.eq_str t' title then
        match window with
        | JObj kv =>
            match dict_get "views" kv with
            | Some views =>
                if Json.truthy views then first_view_children views
                else
                  match dict_get "contentView" kv with
                  | Some content => Json.get content "children" (JArr [])
                  | None => get_window_elements_loop title r
                  end
            | None =>
                match dict_get "contentView" kv with
                | Some content => Json.get content "children" (JArr [])
                | None => get_window_elements_loop title r
                end
            end
        | _ => Raise (no_attribute window "get")
        end
      else get_window_elements_loop title r
  end.

Definition get_window_elements (title : string) : M json :=
  state <~ query_ui_state ;;
  lift (windows <- Json.get state "windows" (JArr []) ;;
        ws <- Json.iter windows ;;
        get_window_elements_loop title ws).

(** The loop over the items of one menu in [get_enabled_menu_items] and
    [get_disabled_menu_items]; [keep] is the test on [item.get('enabled')]
    ([if ...] in the first, [if not ...] in the second), [menu] the value
    of [menu.get('title')]. *)
Fixpoint menu_items_loop (keep : json -> bool) (menu : json)
         (items : list json) : result (list json) :=
  match items with
  | [] => Ok []
  | item :: r =>
      separator <- Json.get item "separator" JNull ;;
      if Json.truthy separator then menu_items_loop keep menu r
      else
        enabled <- Json.get item "enabled" JNull ;;
        if keep enabled then
          match item with
          | JObj kv =>
              rest <- menu_items_loop keep menu r ;;
              Ok (JObj (Json.set_key "menu" menu kv) :: rest)
          | _ => Raise (no_attribute item "get")
          end
        else menu_items_loop keep menu r
  end.

(** The loop over the menus; [menu_title] is [None] or a string, the empty
    string being as false as [None]. *)
Fixpoint menus_loop (keep : json -> bool) (menu_title : option string)
         (menus : list json) : result (list json) :=
  match menus with
  | [] => Ok []
  | menu :: r =>
      skip <- match menu_title with
              | Some (String _ _ as menu_title) =>
                  t <- Json.get menu "title" JNull ;;
                  Ok (negb (Json.eq_str t menu_title))
              | _ => Ok false
              end ;;
      if skip then menus_loop keep menu_title r
      else
        items <- Json.get menu "items" (JArr []) ;;
        its <- Json.iter items ;;
        title <- Json.get menu "title" JNull ;;
        found <- menu_items_loop keep title its ;;
        rest <- menus_loop keep menu_title r ;;
        Ok (found ++ rest)%list
  end.

Definition get_enabled_menu_items (menu_title : option string)
  : M (list json) :=
  state <~ get_menu_state ;;
  lift (menus <- Json.get state "menus" (JArr []) ;;
        ms <- Json.iter menus ;;
        menus_loop Json.truthy menu_title ms).

Definition get_disabled_menu_items (menu_title : option string)
  : M (list json) :=
  state <~ get_menu_state ;;
  lift (menus <- Json.get state "menus" (JArr []) ;;
        ms <- Json.iter menus ;;
        menus_loop (fun enabled => negb (Json.truthy enabled)) menu_title ms).

Definition assert_menu_item_enabled (menu_title item_title msg : string)
  : M unit :=
  enabled <~ is_menu_item_enabled menu_title item_title ;;
  lift (if negb (Json.truthy enabled)
        then Raise (AssertionFailedError
                      (Py.str_or msg ("Menu item '" ++ menu_title ++ " > "
                                      ++ item_title ++ "' is disabled")))
        else Ok tt).

Definition assert_menu_item_disabled (menu_title item_title msg : string)
  : M unit :=
  enabled <~ is_menu_item_enabled menu_title item_title ;;
  lift (if Json.truthy enabled
        then Raise (AssertionFailedError
                      (Py.str_or msg ("Menu item '" ++ menu_title ++ " > "
                                      ++ item_title
                                      ++ "' is enabled (expected disabled)")))
        else Ok tt).

End Client.

(** *** [run_tests] *)

(** What calling a test callable does: it returns an object, it raises an
    exception that derives from [Exception], or it raises one that does
    not ([SystemExit], [KeyboardInterrupt], ...). *)
Inductive outcome : Type :=
| Returns (v : json)
| Raises (e : exn)
| Escapes (b : base_exn).

(** The lines [run_tests] prints. *)
Inductive line : Type :=
| LRunning (name : string)
| LPass (name : string)
| LFail (name : string) (detail : option string)
| LStopped (name : string)
| LError (detail : string)
| LBlank
| LResults (passed executed total : nat)
| LStatus (passed : bool).

(** [result is False]. *)
Definition is_False (v : json) : bool :=
  match v with
  | JBool false => true
  | _ => false
  end.

Definition is_AssertionFailedError (e : exn) : bool :=
  match e with
  | AssertionFailedError _ => true
  | _ => false
  end.

Definition quote : ascii := ascii_of_nat 39.

Section Runner.

Local Open Scope list_scope.

(** The state of everything the test callables and the client act on. *)
Variable W : Type.

(** The two methods of the [client] argument that [run_tests] calls. *)
Record highlighter : Type := Highlighter {
  hl_query_ui_state : W -> result json * W;
  hl_highlight_failure : json -> string -> Z -> W -> result json * W
}.

Definition test : Type := (string * (W -> outcome * W))%type.

(** The [for window in ...] loop of the highlighting block. *)
Fixpoint highlight_loop (client : highlighter) (element_text : string)
         (windows : list json) (w : W) : result unit * W :=
  match windows with
  | [] => (Ok tt, w)
  | window :: r =>
      match Json.get window "title" (JStr "") with
      | Raise e => (Raise e, w)
      | Ok title =>
          if Json.truthy title then
            match hl_highlight_failure client title element_text 0 w with
            | (Ok _, w') => (Ok tt, w')
            | (Raise e, w') => (Raise e, w')
            end
          else highlight_loop client element_text r w
      end
  end.

(** The body of the inner [try] of the [AssertionFailedError] handler. *)
Definition highlight_try (client : highlighter) (msg : string) (w : W)
  : result unit * W :=
  if Py.contains (String quote "") msg then
    match Py.split quote msg with
    | _ :: element_text :: _ =>
        match hl_query_ui_state client w with
        | (Raise e, w') => (Raise e, w')
        | (Ok state, w') =>
            match (windows <- Json.get state "windows" (JArr []) ;;
                   Json.iter windows) with
            | Raise e => (Raise e, w')
            | Ok ws => highlight_loop client element_text ws w'
            end
        end
    | _ => (Ok tt, w)
    end
  else (Ok tt, w).

(** The same under its bare [except: pass]. *)
Definition highlight_best_effort (client : highlighter) (msg : string)
           (w : W) : W :=
  snd (highlight_try client msg w).

Definition say (verbose : bool) (out : list line) (l : line) : list line :=
  if verbose then out ++ [l] else out.

(** The [for test_name, test_func in tests] loop: the list [results],
    the printed lines and the state it ends with.  Neither handler of the
    loop catches an exception outside [Exception]: it leaves the loop and
    the function. *)
Fixpoint run_loop (verbose stop_on_failure highlight_failures : bool)
         (client : option highlighter) (tests : list test)
         (results : list bool) (out : list line) (w : W)
  : ending (list bool) * list line * W :=
  match tests with
  | [] => (Finished results, out, w)
  | (test_name, test_func) :: r =>
      let out := say verbose out (LRunning test_name) in
      match test_func w with
      | (Returns result, w) =>
          if is_False result then
            let out := say verbose out (LFail test_name None) in
            let results := results ++ [false] in
            if stop_on_failure
            then (Finished results, out ++ [LStopped test_name], w)
            else run_loop verbose stop_on_failure highlight_failures
                          client r results out w
          else
            let out := say verbose out (LPass test_name) in
            run_loop verbose stop_on_failure highlight_failures
                     client r (results ++ [true]) out w
      | (Raises e, w) =>
          if is_AssertionFailedError e then
            let out := say verbose out (LFail test_name (Some (str_exn e))) in
            let results := results ++ [false] in
            let failed_error := str_exn e in
            let w :=
              match highlight_failures, client with
              | true, Some c => highlight_best_effort c (str_exn e) w
              | _, _ => w
              end in
            if stop_on_failure then
              let out := out ++ [LStopped test_name] in
              let out :=
                if negb (String.eqb failed_error "")
                then out ++ [LError failed_error] else out in
              (Finished results, out, w)
            else run_loop verbose stop_on_failure highlight_failures
                          client r results out w
          else
            let detail := (class_name e ++ ": " ++ str_exn e)%string in
            let out := say verbose out (LFail test_name (Some detail)) in
            let results := results ++ [false] in
            if stop_on_failure
            then (Finished results,
                  out ++ [LStopped test_name; LError detail], w)
            else run_loop verbose stop_on_failure highlight_failures
                          client r results out w
      | (Escapes b, w) => (Propagated b, out, w)
      end
  end.

(** [all(results)]. *)
Definition all (results : list bool) : bool := forallb (fun b => b) results.

Definition run_tests (tests : list test)
           (verbose stop_on_failure highlight_failures : bool)
           (client : option highlighter) (w : W)
  : ending Z * list line * W :=
  match tests with
  | [] => (Finished 0, [], w)
  | _ =>
      match run_loop verbose stop_on_failure highlight_failures client
                     tests [] [] w with
      | (Finished results, out, w) =>
          let passed := length (filter (fun b => b) results) in
          let total := length tests in
          let executed := length results in
          let out :=
            if verbose
            then out ++ [LBlank; LResults passed executed total;
                         LStatus (all results)]
            else out in
          (Finished (if all results then 0 else 1), out, w)
      | (Propagated b, out, w) => (Propagated b, out, w)
      end
  end.

(** *** [run_interactive_tests] *)

(** What the world does while the process sleeps for the given time. *)
Variable time_sleep : Q -> W -> W.

(** [make_paused_test]: the original callable, then [time.sleep], which
    rejects a negative length. *)
Definition make_paused_test (pause_between : Q)
           (original_func : W -> outcome * W) : W -> outcome * W :=
  fun w =>
    match original_func w with
    | (Returns result, w') =>
        if negb (Qle_bool 0 pause_between)
        then (Raises (ValueError "sleep length must be non-negative"), w')
        else (Returns result, time_sleep pause_between w')
    | (Raises e, w') => (Raises e, w')
    | (Escapes b, w') => (Escapes b, w')
    end.

(** [kwargs.setdefault(key, True)]. *)
Definition setdefault_true (given : option bool) : bool :=
  match given with
  | Some b => b
  | None => true
  end.

(** The tuple [paused_tests]. *)
Definition paused_tests (pause_between : Q) (tests : list test) : list test :=
  map (fun t : test => (fst t, make_paused_test pause_between (snd t))) tests.

(** The keyword arguments [stop_on_failure], [highlight_failures] and
    [verbose] are [None] when the caller leaves them out. *)
Definition run_interactive_tests (tests : list test)
           (client : option highlighter) (pause_between : Q)
           (stop_on_failure highlight_failures verbose : option bool) (w : W)
  : ending Z * list line * W :=
  match tests with
  | [] => (Finished 0, [], w)
  | _ =>
      run_tests (paused_tests pause_between tests) (setdefault_true verbose)
                (setdefault_true stop_on_failure)
                (setdefault_true highlight_failures) client w
  end.

End Runner.

End UITest.

(* ================================================================= *)
(** ** What the tools send to the X server *)

Module X11.

(** One entry per call of [xdotool] (or of [time.sleep]), in the order of
    the calls.  [GetActiveWindow] stands for the queries of
    [get_focused_window]: [getactivewindow], then the name, geometry and
    class queries of [get_window_info]. *)
Inductive event : Type :=
| GetActiveWindow
| GetMouseLocation
| Key (keyspec : string)
| MouseMove (x y : Z)
| Click (button : Z)
| Sleep (seconds : Q).

Definition history : Type := list event.

End X11.

Import X11.

(* ================================================================= *)
(** ** [modal_handler.py]: the modal and focus guard *)

Module ModalHandler.

Local Open Scope list_scope.

Record WindowInfo : Type := mkWindowInfo {
  window_id : string;
  name : string;
  x : Z;
  y : Z;
  width : Z;
  height : Z;
  wm_class : string
}.

Definition is_small_dialog (self : WindowInfo) : bool :=
  (0 <? width self) && (width self <? 500) && (height self <? 400).

Definition keywords : list string :=
  ["alert"; "error"; "warning"; "confirm"; "delete";
   "save"; "open"; "choose"; "panel"]%string.

Definition looks_like_alert (self : WindowInfo) : bool :=
  let name_lower := Py.lower (name self) in
  let class_lower := Py.lower (wm_class self) in
  existsb (fun kw => Py.contains kw name_lower || Py.contains kw class_lower)
          keywords.

Definition workspace_names : list string :=
  ["Workspace"; "Inspector"; "Info"; "Finder"; "Run";
   "Workspace Preferences"; "About"; "Console"; "Recycler";
   "Open With"; "Go to Folder"]%string.

Definition is_workspace_window (window : WindowInfo) : bool :=
  if Py.contains "GNUstep" (wm_class window)
     || Py.contains "Workspace" (wm_class window)
  then true
  else existsb (fun n => Py.contains n (name window)) workspace_names.

Definition known_panels : list string :=
  ["Inspector"; "Finder"; "Preferences"; "Run"]%string.

(** A method of [ModalHandler]: it never raises ([_run_xdotool] and
    [_run_xprop] swallow every exception) and it extends the history. *)
Definition G (A : Type) : Type := history -> A * history.

Section Guard.

(** The window the window manager reports as focused, given everything
    sent so far; [None] when [getactivewindow] fails or prints nothing. *)
Variable focus_of : history -> option WindowInfo.

Definition get_focused_window : G (option WindowInfo) :=
  fun h => (focus_of h, h ++ [GetActiveWindow]).

Definition _run_xdotool (e : event) : G unit :=
  fun h => (tt, h ++ [e]).

Definition sleep (seconds : Q) : G unit :=
  fun h => (tt, h ++ [Sleep seconds]).

(** [expected_focus] is [None] or a string; the empty string is as
    false as [None]. *)
Definition has_focus_stealer (expected_focus : option string) : G bool :=
  fun h =>
    let '(focused, h) := get_focused_window h in
    match focused with
    | None => (false, h)
    | Some focused =>
        match expected_focus with
        | Some (String _ _ as expected_focus) =>
            if Py.contains (Py.lower expected_focus)
                           (Py.lower (name focused))
            then (false, h)
            else if is_workspace_window focused then
                   if looks_like_alert focused || is_small_dialog focused
                   then (true, h)
                   else (false, h)
                 else (true, h)
        | _ =>
            if is_workspace_window focused then
              if looks_like_alert focused then (true, h) else (false, h)
            else (true, h)
        end
    end.

Definition detect_modal_dialog : G (option WindowInfo) :=
  fun h =>
    let '(focused, h) := get_focused_window h in
    match focused with
    | None => (None, h)
    | Some focused =>
        if looks_like_alert focused then (Some focused, h)
        else if is_small_dialog focused && is_workspace_window focused
             then if negb (existsb (fun p => Py.contains p (name focused))
                                   known_panels)
                  then (Some focused, h)
                  else (None, h)
             else (None, h)
    end.

(** The [for i in range(max_attempts)] loop of [dismiss_with_escape],
    with [n] iterations left. *)
Fixpoint escape_loop (n : nat) (initial_focus : option WindowInfo)
  : G bool :=
  fun h =>
    match n with
    | O => (false, h)
    | S n' =>
        let '(_, h) := _run_xdotool (Key "Escape") h in
        let '(_, h) := sleep (2 # 10) h in
        let '(new_focus, h) := get_focused_window h in
        match new_focus, initial_focus with
        | Some nf, Some i0 =>
            if negb (String.eqb (window_id nf) (window_id i0))
            then (true, h)
            else escape_loop n' initial_focus h
        | _, _ => escape_loop n' initial_focus h
        end
    end.

Definition dismiss_with_escape (max_attempts : Z) : G bool :=
  fun h =>
    let '(initial_focus, h) := get_focused_window h in
    escape_loop (Z.to_nat max_attempts) initial_focus h.

Definition dismiss_with_return : G bool :=
  fun h =>
    let '(initial_focus, h) := get_focused_window h in
    let '(_, h) := _run_xdotool (Key "Return") h in
    let '(_, h) := sleep (3 # 10) h in
    let '(new_focus, h) := get_focused_window h in
    match new_focus, initial_focus with
    | Some nf, Some i0 =>
        if negb (String.eqb (window_id nf) (window_id i0))
        then (true, h) else (false, h)
    | _, _ => (false, h)
    end.

Definition click_button_in_dialog (position : string) : G bool :=
  fun h =>
    let '(focused, h) := get_focused_window h in
    match focused with
    | None => (false, h)
    | Some focused =>
        if width focused =? 0 then (false, h)
        else
          let button_y := y focused + height focused - 40 in
          let button_x :=
            if String.eqb position "right"
            then x focused + width focused - 80
            else if String.eqb position "left"
                 then x focused + 80
                 else x focused + width focused / 2 in
          let '(_, h) := _run_xdotool (MouseMove button_x button_y) h in
          let '(_, h) := sleep (1 # 10) h in
          let '(_, h) := _run_xdotool (Click 1) h in
          let '(_, h) := sleep (2 # 10) h in
          (true, h)
    end.

Definition close_window : G bool :=
  fun h =>
    let '(_, h) := _run_xdotool (Key "alt+w") h in
    let '(_, h) := sleep (3 # 10) h in
    (true, h).

Definition dismiss_focus_stealer (method : string) : G bool :=
  fun h =>
    if String.eqb method "auto" then
      let '(escaped, h) := dismiss_with_escape 2 h in
      if escaped then (true, h)
      else
        let '(clicked, h) := click_button_in_dialog "right" h in
        let '(verified, h) :=
          if clicked then
            let '(_, h) := sleep (2 # 10) h in
            let '(stolen, h) := has_focus_stealer None h in
            (negb stolen, h)
          else (false, h) in
        if verified then (true, h)
        else
          let '(closed, h) := close_window h in
          if closed then
            let '(_, h) := sleep (2 # 10) h in
            (true, h)
          else (false, h)
    else if String.eqb method "escape" then dismiss_with_escape 3 h
    else if String.eqb method "return" then dismiss_with_return h
    else if String.eqb method "click" then click_button_in_dialog "right" h
    else if String.eqb method "close" then close_window h
    else (false, h).

(** *** Callers of the dismissal *)

(** The dictionary [pre_click_check] returns. *)
Record check_result : Type := mkCheck {
  ok : bool;
  focused_window : option string;
  modal_detected : option string;
  actions_taken : list string
}.

Definition pre_click_check : G check_result :=
  fun h =>
    let '(focused, h) := get_focused_window h in
    let result := mkCheck true (option_map name focused) None [] in
    let '(modal, h) := detect_modal_dialog h in
    let '(result, h) :=
      match modal with
      | Some modal =>
          let actions :=
            actions_taken result
            ++ [("Detected modal: " ++ name modal)%string] in
          let '(dismissed, h) := dismiss_focus_stealer "auto" h in
          if dismissed
          then (mkCheck (ok result) (focused_window result)
                        (Some (name modal))
                        (actions ++ ["Dismissed modal"%string]), h)
          else (mkCheck false (focused_window result)
                        (Some (name modal))
                        (actions ++ ["Failed to dismiss modal"%string]), h)
      | None => (result, h)
      end in
    let '(stolen, h) := has_focus_stealer None h in
    if stolen then
      let actions :=
        actions_taken result ++ ["Focus stealer detected"%string] in
      let '(dismissed, h) := dismiss_focus_stealer "auto" h in
      if dismissed
      then (mkCheck (ok result) (focused_window result)
                    (modal_detected result)
                    (actions ++ ["Dismissed focus stealer"%string]), h)
      else (mkCheck false (focused_window result)
                    (modal_detected result) actions, h)
    else (result, h).

(** The module-level [dismiss_any_modals], on the shared handler. *)
Definition dismiss_any_modals : G bool :=
  fun h =>
    let '(modal, h) := detect_modal_dialog h in
    match modal with
    | Some _ => dismiss_focus_stealer "auto" h
    | None => (true, h)
    end.

End Guard.

End ModalHandler.

(* ================================================================= *)
(** ** [user_input.py]: the input simulator *)

Module UserInput.

Local Open Scope list_scope.

(** The floats of this module (durations, speeds, the points of a curve)
    are modelled by the rationals they denote, and their arithmetic is
    exact: where the program rounds a product or a quotient the model does
    not, so a step count or an intermediate point may differ by one from
    the program's, and a value that leaves the range of the floats, at
    either end, is not told apart.  What is stated below of these functions is what rounding
    does not change: which events are sent, in which order, the last
    position, and the sign of a pause. *)

(** [int(q)] on a number: truncation towards zero. *)
Definition int_of_Q (q : Q) : Z := Z.quot (Qnum q) (Zpos (Qden q)).

Definition Qlt_bool (a b : Q) : bool := negb (Qle_bool b a).

(** A method of [UserInput]: it may raise, and it extends the history. *)
Definition U (A : Type) : Type := history -> result A * history.

(** [self._mouse_speed], pixels per second. *)
Definition _mouse_speed : Q := 800 # 1.

(** One point of the quadratic curve, as the loop body computes it from
    [t = i / steps]. *)
Definition bezier (t : Q) (p0 p1 p2 : Q) : Z :=
  let inv_t := (1 - t)%Q in
  int_of_Q (inv_t * inv_t * p0 + (2 # 1) * inv_t * t * p1 + t * t * p2)%Q.

Section Input.

(** Exit status and stderr of the next [xdotool] call, given what was
    sent before it. *)
Variable xdotool_status : history -> event -> Z * string.

(** The [X] and [Y] that [getmouselocation --shell] prints, or the
    exception raised while reading them. *)
Variable mouse_location : history -> result (Z * Z).

(** [math.sqrt] on an integer: its result, a float, is a rational; an
    integer too large to convert to a float makes it raise
    [OverflowError]. *)
Variable math_sqrt : Z -> result Q.

Definition _run (e : event) : U unit :=
  fun h =>
    let '(rc, err) := xdotool_status h e in
    if negb (rc =? 0)
    then (Raise (UserInputError ("xdotool failed: " ++ err)%string), h ++ [e])
    else (Ok tt, h ++ [e]).

Definition _get_mouse_position : U (Z * Z) :=
  fun h =>
    match _run GetMouseLocation h with
    | (Raise e, h') => (Raise e, h')
    | (Ok _, h') => (mouse_location h, h')
    end.

(** The [for i in range(1, steps + 1)] loop of [move_mouse_smoothly]
    over the values of [i] that remain. *)
Fixpoint smooth_loop (todo : list nat) (steps : Z) (step_delay : Q)
         (current_x current_y : Z) (control_x control_y : Q)
         (target_x target_y : Z) : U unit :=
  fun h =>
    match todo with
    | [] => (Ok tt, h)
    | i :: r =>
        let t := (inject_Z (Z.of_nat i) / inject_Z steps)%Q in
        let x := bezier t (inject_Z current_x) control_x (inject_Z target_x) in
        let y := bezier t (inject_Z current_y) control_y (inject_Z target_y) in
        match _run (MouseMove x y) h with
        | (Raise e, h') => (Raise e, h')
        | (Ok _, h') =>
            smooth_loop r steps step_delay current_x current_y
                        control_x control_y target_x target_y
                        (h' ++ [Sleep step_delay])
        end
    end.

(** [u1] and [u2] are the two draws of [random.uniform(-1, 1)]. *)
Definition move_mouse_smoothly (target_x target_y : Z) (speed : option Q)
           (variation : Q) (u1 u2 : Q) : U unit :=
  fun h =>
    match _get_mouse_position h with
    | (Raise e, h') => (Raise e, h')
    | (Ok (current_x, current_y), h) =>
        let speed := match speed with None => _mouse_speed | Some s => s end in
        let dx := target_x - current_x in
        let dy := target_y - current_y in
        match math_sqrt (dx * dx + dy * dy) with
        | Raise e => (Raise e, h)
        | Ok distance =>
        if Qlt_bool distance (5 # 1) then
          _run (MouseMove target_x target_y) h
        else if Qeq_bool speed 0 then
          (Raise (ZeroDivisionError "float division by zero"), h)
        else
          let duration :=
            Qmax (1 # 10) (Qmin (15 # 10) (distance / speed)) in
          let mid_x := (inject_Z (current_x + target_x) / (2 # 1))%Q in
          let mid_y := (inject_Z (current_y + target_y) / (2 # 1))%Q in
          let perp_x := (- inject_Z dy * variation * u1)%Q in
          let perp_y := (inject_Z dx * variation * u2)%Q in
          let control_x := (mid_x + perp_x)%Q in
          let control_y := (mid_y + perp_y)%Q in
          let steps := Z.max 5 (Z.min 30 (int_of_Q (distance / (20 # 1)))) in
          let step_delay := (duration / inject_Z steps)%Q in
          match smooth_loop (seq 1 (Z.to_nat steps)) steps step_delay
                            current_x current_y control_x control_y
                            target_x target_y h with
          | (Raise e, h') => (Raise e, h')
          | (Ok _, h') => _run (MouseMove target_x target_y) h'
          end
        end
    end.

(** *** Keyboard, clicks and linear movement *)

(** The name of the focused window as [get_focused_window_name] reads
    it, given everything sent so far; [None] when one of its two [xdotool]
    calls fails. *)
Variable focused_name : history -> option string.

(** [time.sleep], which rejects a negative length. *)
Definition sleep (seconds : Q) : U unit :=
  fun h =>
    if Qlt_bool seconds 0
    then (Raise (ValueError "sleep length must be non-negative"), h)
    else (Ok tt, h ++ [Sleep seconds]).

(** [key]: [xdotool key --delay 50 keyspec], then a pause. *)
Definition key (keyspec : string) : U unit :=
  fun h =>
    match _run (Key keyspec) h with
    | (Raise e, h') => (Raise e, h')
    | (Ok _, h') => sleep (1 # 10) h'
    end.

Definition press_escape : U unit := key "Escape".

Definition get_focused_window_name : U (option string) :=
  fun h => (Ok (focused_name h), h ++ [GetActiveWindow]).

Definition alert_keywords : list string :=
  ["alert"; "error"; "warning"; "confirm"; "delete"]%string.

(** [check_focus_before_click] without a [log_func]. *)
Definition check_focus_before_click : U bool :=
  fun h =>
    match get_focused_window_name h with
    | (Raise e, h') => (Raise e, h')
    | (Ok None, h') | (Ok (Some EmptyString), h') => (Ok true, h')
    | (Ok (Some focused), h') =>
        let focused_lower := Py.lower focused in
        if existsb (fun kw => Py.contains kw focused_lower) alert_keywords
        then
          match press_escape h' with
          | (Raise e, h'') => (Raise e, h'')
          | (Ok _, h'') =>
              match sleep (2 # 10) h'' with
              | (Raise e, h3) => (Raise e, h3)
              | (Ok _, h3) => (Ok true, h3)
              end
          end
        else (Ok true, h')
    end.

(** The [for i in range(1, steps + 1)] loop of [move_mouse_linear] over
    the values of [i] that remain. *)
Fixpoint linear_loop (todo : list nat) (steps : Z) (step_delay : Q)
         (current_x current_y target_x target_y : Z) : U unit :=
  fun h =>
    match todo with
    | [] => (Ok tt, h)
    | i :: r =>
        let t := (inject_Z (Z.of_nat i) / inject_Z steps)%Q in
        let x := int_of_Q (inject_Z current_x
                           + inject_Z (target_x - current_x) * t)%Q in
        let y := int_of_Q (inject_Z current_y
                           + inject_Z (target_y - current_y) * t)%Q in
        match _run (MouseMove x y) h with
        | (Raise e, h') => (Raise e, h')
        | (Ok _, h') =>
            match sleep step_delay h' with
            | (Raise e, h'') => (Raise e, h'')
            | (Ok _, h'') =>
                linear_loop r steps step_delay current_x current_y
                            target_x target_y h''
            end
        end
    end.

Definition move_mouse_linear (target_x target_y : Z) (duration : Q) : U unit :=
  fun h =>
    match _get_mouse_position h with
    | (Raise e, h') => (Raise e, h')
    | (Ok (current_x, current_y), h) =>
        let steps := Z.max 5 (int_of_Q (duration * (30 # 1))) in
        let step_delay := (duration / inject_Z steps)%Q in
        linear_loop (seq 1 (Z.to_nat steps)) steps step_delay
                    current_x current_y target_x target_y h
    end.

(** [click]; [u1] and [u2] are the random draws a smooth move makes. *)
Definition click (x y button : Z) (smooth check_focus : bool) (u1 u2 : Q)
  : U unit :=
  fun h =>
    match (if check_focus then check_focus_before_click h else (Ok true, h)) with
    | (Raise e, h') => (Raise e, h')
    | (Ok _, h) =>
        match (if smooth
               then move_mouse_smoothly x y None (1 # 10) u1 u2 h
               else _run (MouseMove x y) h) with
        | (Raise e, h') => (Raise e, h')
        | (Ok _, h) =>
            match sleep (5 # 100) h with
            | (Raise e, h') => (Raise e, h')
            | (Ok _, h) =>
                match _run (Click button) h with
                | (Raise e, h') => (Raise e, h')
                | (Ok _, h) => sleep (1 # 10) h
                end
            end
        end
    end.


Definition click_safe (x y button : Z) (smooth : bool) (u1 u2 : Q) : U unit :=
  fun h =>
    match check_focus_before_click h with
    | (Raise e, h') => (Raise e, h')
    | (Ok _, h) => click x y button smooth false u1 u2 h
    end.

(** The [for _ in range(max_attempts)] loop of [dismiss_all_dialogs], with
    [n] iterations left. *)
Fixpoint dismiss_all_loop (n : nat) : U unit :=
  fun h =>
    match n with
    | O => (Ok tt, h)
    | S n' =>
        match press_escape h with
        | (Raise e, h') => (Raise e, h')
        | (Ok _, h') =>
            match sleep (15 # 100) h' with
            | (Raise e, h'') => (Raise e, h'')
            | (Ok _, h'') => dismiss_all_loop n' h''
            end
        end
    end.

Definition dismiss_all_dialogs (max_attempts : Z) : U unit :=
  dismiss_all_loop (Z.to_nat max_attempts).

End Input.

End UserInput.

(* ================================================================= *)
(** ** Notions the properties are stated with, and sample environments *)

Module Terms.

Local Open Scope list_scope.




(** A stand-in for [json.loads] that knows one document, indented or
    not. *)
Definition toy_loads (s : string) : result json :=
  if String.eqb s "{}" || String.eqb s "  {}" then Ok (JObj [])
  else Raise (JSONDecodeError "Expecting value").

(** A bridge that cannot reach the application. *)
Definition unreachable_bridge (cmd : list string)
  : result UITest.CompletedProcess :=
  Ok (UITest.Completed "" "Error: Cannot contact Workspace" 1).

Definition client0 : UITest.client := UITest.Client "uitest" None.

(** A bridge that prints [out] and exits with status 0, and a stand-in
    parser that yields [state] for every text. *)
Definition answering (out : string) (cmd : list string)
  : result UITest.CompletedProcess :=
  Ok (UITest.Completed out "" 0).

Definition yielding (state : json) (s : string) : result json := Ok state.

(** A text of [n] digits. *)
Fixpoint digits (n : nat) : string :=
  match n with
  | O => EmptyString
  | S n' => String "7" (digits n')
  end.

(** A document whose one number has 5000 digits, after a line of
    preamble. *)
Definition long_number_output : string :=
  "Connecting to Workspace" ++ Py.nl ++ "{ " ++ digits 5000 ++ " }".

(** A stand-in for [json.loads] under the interpreter's limit on the
    length of an integer literal: a longer text is not parsed. *)
Definition digit_limit : exn :=
  ValueError "Exceeds the limit (4300 digits) for integer string conversion".

Definition limited_loads (s : string) : result json :=
  if (4300 <? String.length s)%nat then Raise digit_limit else toy_loads s.

(** The three keys under which a node keeps its sub-nodes. *)
Definition all_keys : list string := ["children"; "contentView"; "views"]%string.

(** [reach keys root n]: node [n] is [root] or is found from it by going
    from a dict to the value of one of [keys], or from a list to one of
    its items. *)
Inductive reach (keys : list string) : json -> json -> Prop :=
| reach_here n : reach keys n n
| reach_key kv k v n :
    In k keys -> dict_get k kv = Some v -> reach keys v n ->
    reach keys (JObj kv) n
| reach_item l v n :
    In v l -> reach keys v n -> reach keys (JArr l) n.

(** The value [v] of a [text] field contains the query. *)
Definition contains_query (case_sensitive : bool) (text : string) (v : json)
  : Prop :=
  if case_sensitive then Json.str_in text v = Ok true
  else exists s, v = JStr s
                 /\ Py.contains (Py.lower text) (Py.lower s) = true.

(** [n] is an element whose text contains the query. *)
Definition text_hit (case_sensitive : bool) (text : string) (n : json)
  : Prop :=
  exists kv v, n = JObj kv /\ dict_get "text" kv = Some v
               /\ contains_query case_sensitive text v.

Definition is_dict (n : json) : bool :=
  match n with JObj _ => true | _ => false end.

(** [n] is a dict whose [key] holds exactly the string [t]. *)
Definition has_str (key t : string) (n : json) : bool :=
  match n with
  | JObj kv =>
      match dict_get key kv with
      | Some v => Json.eq_str v t
      | None => false
      end
  | _ => false
  end.

(** A dict that does not carry the title. *)
Definition other_dict (t : string) (n : json) : Prop :=
  is_dict n = true /\ has_str "title" t n = false.

(** A window of the snapshot [state] carries the title [t], under
    [title] or under [windowTitle]. *)
Definition title_present (state : json) (t : string) : Prop :=
  exists kv windows w,
    state = JObj kv /\ dict_get "windows" kv = Some (JArr windows)
    /\ In w windows
    /\ (has_str "title" t w = true \/ has_str "windowTitle" t w = true).

(** A window whose only text sits below [contentView] and [views]. *)
Definition info_window : json :=
  JObj [("title", JStr "Info");
        ("contentView",
          JObj [("class", JStr "NSView");
                ("views",
                  JArr [JObj [("class", JStr "NSTextField");
                              ("text", JStr "Version 1.0")]])])]%string.

Definition info_state : json :=
  JObj [("uiTestingEnabled", JBool true);
        ("windows", JArr [info_window])]%string.

(** A menu state with one menu of two items. *)
Definition file_menu_state : json :=
  JObj [("success", JBool true);
        ("menus",
          JArr [JObj [("title", JStr "File");
                      ("enabled", JBool true);
                      ("items",
                        JArr [JObj [("title", JStr "New Folder");
                                    ("enabled", JBool false)];
                              JObj [("title", JStr "Find");
                                    ("enabled", JBool true)]])]])]%string.

(** The windows the loops of the helpers run over:
    [state.get('windows', [])], iterated. *)
Definition windows_of (state : json) : result (list json) :=
  windows <- Json.get state "windows" (JArr []) ;; Json.iter windows.

(** *** The guard's heuristics as the specification words them *)

(** Small dialog: width below 500 and height below 400. *)
Definition small_as_stated (w : ModalHandler.WindowInfo) : bool :=
  (ModalHandler.width w <? 500) && (ModalHandler.height w <? 400).

(** The name contains none of the known panel names. *)
Definition no_known_panel (w : ModalHandler.WindowInfo) : bool :=
  negb (existsb (fun p => Py.contains p (ModalHandler.name w))
                ModalHandler.known_panels).

(** What [detect_modal_dialog] returns for the focused window, as stated:
    the window, when it looks like an alert or is a small Workspace window
    outside the known panels. *)
Definition detect_as_stated (focused : ModalHandler.WindowInfo)
  : option ModalHandler.WindowInfo :=
  if ModalHandler.looks_like_alert focused
     || (ModalHandler.is_workspace_window focused
         && small_as_stated focused && no_known_panel focused)
  then Some focused else None.

(** The focused window matches the expected title. *)
Definition matches_expected (expected : option string)
           (w : ModalHandler.WindowInfo) : bool :=
  match expected with
  | Some e => Py.contains (Py.lower e) (Py.lower (ModalHandler.name w))
  | None => false
  end.

(** What [has_focus_stealer] returns for the focused window, as stated: not
    a Workspace window, or a Workspace window that looks like a modal under
    either heuristic and does not match the expected title. *)
Definition stealer_as_stated (expected : option string)
           (w : ModalHandler.WindowInfo) : bool :=
  negb (ModalHandler.is_workspace_window w)
  || (ModalHandler.is_workspace_window w
      && (ModalHandler.is_small_dialog w || ModalHandler.looks_like_alert w)
      && negb (matches_expected expected w)).

(** The window name or class contains one of the keywords, whatever the
    case of its letters. *)
Definition alert_like (w : ModalHandler.WindowInfo) : Prop :=
  exists kw, In kw ModalHandler.keywords
             /\ (Py.contains kw (Py.lower (ModalHandler.name w)) = true
                 \/ Py.contains kw (Py.lower (ModalHandler.wm_class w)) = true).

(** *** Sample windows and window managers *)

(** A Workspace panel whose geometry query failed: all zeros. *)
Definition info_no_geometry : ModalHandler.WindowInfo :=
  ModalHandler.mkWindowInfo "0x1c00007" "Info" 0 0 0 0 "".

(** A small Workspace panel without an alert keyword. *)
Definition info_panel : ModalHandler.WindowInfo :=
  ModalHandler.mkWindowInfo "0x1c00007" "Info" 200 150 300 200 "".

Definition delete_confirmation : ModalHandler.WindowInfo :=
  ModalHandler.mkWindowInfo "0x1c00021" "Delete Confirmation" 400 300 300 200 "".

Definition finder : ModalHandler.WindowInfo :=
  ModalHandler.mkWindowInfo "0x1c00033" "Finder" 0 0 1200 800 "".

(** A window of another application. *)
Definition xterm : ModalHandler.WindowInfo :=
  ModalHandler.mkWindowInfo "0x2a00004" "xterm" 100 100 800 600 "xterm".

(** The word [Editeur] with an acute accent on its first letter, in upper
    case (U+00C9) and in lower case (U+00E9), and a Workspace window that
    has it as its name. *)
Definition editeur_upper : string := String (ascii_of_nat 201) "diteur".
Definition editeur_lower : string := String (ascii_of_nat 233) "diteur".
Definition editeur_window : ModalHandler.WindowInfo :=
  ModalHandler.mkWindowInfo "0x1c00045" editeur_upper 100 100 300 200
                            "GNUstep".

(** A window manager under which the focus never moves from [w]. *)
Definition stuck_on (w : ModalHandler.WindowInfo) (h : history)
  : option ModalHandler.WindowInfo := Some w.

(** A window manager that reports no focused window. *)
Definition no_focus (h : history) : option ModalHandler.WindowInfo := None.

(** *** The test runner *)

(** A test fails when its callable returns exactly [False] or raises an
    exception that derives from [Exception]. *)
Definition failed (o : UITest.outcome) : bool :=
  match o with
  | UITest.Returns v => UITest.is_False v
  | UITest.Raises _ => true
  | UITest.Escapes _ => false
  end.

(** The callable was left by an exception outside [Exception]. *)
Definition escaped (o : UITest.outcome) : bool :=
  match o with
  | UITest.Escapes _ => true
  | _ => false
  end.

(** The failure of a test as the specification words it: its callable
    returns exactly [False] or raises any exception. *)
Definition failed_as_stated (o : UITest.outcome) : bool :=
  match o with
  | UITest.Returns v => UITest.is_False v
  | _ => true
  end.

(** The exit status as the specification words it: 0 when every executed
    test passed, 1 otherwise. *)
Definition status_as_stated (ex : list UITest.outcome) : Z :=
  if forallb (fun o => negb (failed_as_stated o)) ex then 0 else 1.

(** The outcomes of the tests that [run_tests] gets to call, in order: each
    test runs in the state its predecessors (and the highlighting after an
    assertion failure) left, with [stop_on_failure] nothing runs after the
    first failure, and nothing runs after a callable that was left by an
    exception outside [Exception]. *)
Fixpoint executed {W : Type} (stop_on_failure highlight_failures : bool)
         (client : option (UITest.highlighter W))
         (tests : list (UITest.test W)) (w : W) : list UITest.outcome :=
  match tests with
  | [] => []
  | (_, test_func) :: r =>
      let '(o, w) := test_func w in
      let w :=
        match o, highlight_failures, client with
        | UITest.Raises (AssertionFailedError msg), true, Some c =>
            UITest.highlight_best_effort c msg w
        | _, _, _ => w
        end in
      o :: (if (stop_on_failure && failed o) || escaped o then []
            else executed stop_on_failure highlight_failures client r w)
  end.

(** The exception outside [Exception] that ended the run, if any. *)
Fixpoint propagated (ex : list UITest.outcome) : option base_exn :=
  match ex with
  | [] => None
  | UITest.Escapes b :: _ => Some b
  | _ :: r => propagated r
  end.

(** The state in which [run_tests] leaves the world: the one the last
    executed test (and the highlighting after it) left. *)
Fixpoint final_world {W : Type} (stop_on_failure highlight_failures : bool)
         (client : option (UITest.highlighter W))
         (tests : list (UITest.test W)) (w : W) : W :=
  match tests with
  | [] => w
  | (_, test_func) :: r =>
      let '(o, w) := test_func w in
      let w :=
        match o, highlight_failures, client with
        | UITest.Raises (AssertionFailedError msg), true, Some c =>
            UITest.highlight_best_effort c msg w
        | _, _, _ => w
        end in
      if (stop_on_failure && failed o) || escaped o then w
      else final_world stop_on_failure highlight_failures client r w
  end.

(** Three callables on a counter: one passes, one returns [False], one
    raises. *)
Definition passing (w : nat) : UITest.outcome * nat :=
  (UITest.Returns (JBool true), S w).
Definition returning_false (w : nat) : UITest.outcome * nat :=
  (UITest.Returns (JBool false), S w).
Definition raising (w : nat) : UITest.outcome * nat :=
  (UITest.Raises (AssertionFailedError "Window 'Info' not found"), S w).

(** A callable interrupted from the keyboard. *)
Definition interrupted (w : nat) : UITest.outcome * nat :=
  (UITest.Escapes KeyboardInterrupt, S w).

(** *** The input simulator *)

(** An [xdotool] that always succeeds, a pointer resting at the origin and
    a square root that rounds down and rejects an integer beyond the range
    of a float. *)
Definition xdotool_fine (h : history) (e : event) : Z * string := (0, ""%string).
Definition pointer_at_origin (h : history) : result (Z * Z) := Ok (0, 0).
Definition sqrt_down (n : Z) : result Q :=
  if n <? 2 ^ 1024 - 2 ^ 970 then Ok (inject_Z (Z.sqrt n))
  else Raise (OverflowError "int too large to convert to float").





(** *** Further notions and samples *)

(** A window that does not carry the title, or that carries it but has
    neither a non-empty [views] nor a [contentView]. *)
Definition untitled_or_bare (t : string) (w : json) : bool :=
  match w with
  | JObj kv =>
      negb (has_str "title" t w || has_str "windowTitle" t w)
      || (negb match dict_get "views" kv with
               | Some v => Json.truthy v
               | None => false
               end
          && negb (Json.has_key "contentView" kv))
  | _ => false
  end.

(** [item.get('enabled')] of an item, and its truth value. *)
Definition enabled_of (item : json) : json :=
  match item with
  | JObj kv => match dict_get "enabled" kv with Some v => v | None => JNull end
  | _ => JNull
  end.

Definition is_enabled (item : json) : bool := Json.truthy (enabled_of item).

(** The item carries a [menu] entry. *)
Definition has_menu_entry (item : json) : bool :=
  match item with
  | JObj kv => Json.has_key "menu" kv
  | _ => false
  end.

(** The menu is one the caller asks for: no title is given, or the menu
    has the title. *)
Definition menu_selected (menu_title : option string) (menu : json) : bool :=
  match menu_title with
  | Some (String _ _ as t) => has_str "title" t menu
  | _ => true
  end.

(** The item is a separator. *)
Definition is_separator (item : json) : bool :=
  match item with
  | JObj kv =>
      match dict_get "separator" kv with
      | Some v => Json.truthy v
      | None => false
      end
  | _ => false
  end.

(** The entry a list function makes of an item of the menu titled
    [title]: a copy of the item with the title stored under [menu]; a
    separator gives none. *)
Definition entry_of (title : json) (item : json) : list json :=
  match item with
  | JObj kv =>
      if is_separator item then []
      else [JObj (Json.set_key "menu" title kv)]
  | _ => []
  end.

(** The entries of one menu, and of the menus the caller asks for, in the
    order of the state. *)
Definition entries_of_menu (menu : json) : list json :=
  match menu with
  | JObj mkv =>
      match dict_get "items" mkv with
      | Some (JArr items) =>
          flat_map (entry_of match dict_get "title" mkv with
                             | Some t => t
                             | None => JNull
                             end) items
      | _ => []
      end
  | _ => []
  end.

Definition menu_entries (menu_title : option string) (menus : list json)
  : list json :=
  flat_map entries_of_menu (filter (menu_selected menu_title) menus).

(** A menu as the bridge documents it: a dict whose [items], when it has
    any, is a list of dicts. *)
Definition menu_shaped (menu : json) : bool :=
  match menu with
  | JObj mkv =>
      match dict_get "items" mkv with
      | Some (JArr items) => forallb is_dict items
      | Some _ => false
      | None => true
      end
  | _ => false
  end.

(** A bridge whose command fails after printing a document. *)
Definition failing_bridge (cmd : list string)
  : result UITest.CompletedProcess :=
  Ok (UITest.Completed "{}" "internal error" 1).

(** A snapshot with one window that has a title and nothing else. *)
Definition bare_state : json :=
  JObj [("windows", JArr [JObj [("title", JStr "Console")]])]%string.

(** The number of Escape key presses among the events. *)
Definition is_escape (e : event) : bool :=
  match e with
  | Key k => String.eqb k "Escape"
  | _ => false
  end.

Definition escapes (evs : history) : nat := length (filter is_escape evs).

(** The point lies within the frame of the window. *)
Definition inside_frame (w : ModalHandler.WindowInfo) (px py : Z) : Prop :=
  ModalHandler.x w <= px < ModalHandler.x w + ModalHandler.width w
  /\ ModalHandler.y w <= py < ModalHandler.y w + ModalHandler.height w.

(** The focused name makes [check_focus_before_click] press Escape. *)
Definition alert_name (focused : option string) : bool :=
  match focused with
  | Some n =>
      existsb (fun kw => Py.contains kw (Py.lower n)) UserInput.alert_keywords
  | None => false
  end.

(** A focus on an alert. *)
Definition alert_focused (h : history) : option string :=
  Some "Delete Confirmation"%string.

(** A node as the bridge documents it: a dict keeps a string under [text]
    and a list under [children], when it has these keys. *)
Definition well_shaped (n : json) : bool :=
  match n with
  | JObj kv =>
      match dict_get "text" kv with
      | Some (JStr _) | None => true
      | Some _ => false
      end
      && match dict_get "children" kv with
         | Some (JArr _) | None => true
         | Some _ => false
         end
  | _ => true
  end.

(** A window with a text among its [children]. *)
Definition about_window : json :=
  JObj [("title", JStr "About");
        ("children",
          JArr [JObj [("class", JStr "NSTextField");
                      ("text", JStr editeur_upper)]])]%string.

Definition about_state : json :=
  JObj [("windows", JArr [about_window])]%string.

End Terms.

Import Terms.

(* ================================================================= *)
(** * Properties *)

(** ** Lines of a text *)

Module PyFacts.

Local Open Scope list_scope.








End PyFacts.

(** ** The command proxy and the JSON extractor *)

Section ClientFacts.

Import UITest.
Local Open Scope list_scope.

Variable subprocess_run : list string -> result UITest.CompletedProcess.
Variable json_loads : string -> result json.

(** Whatever the child process does, an exception that leaves
    [_run_command] is a [CommandFailedError]. *)
Lemma run_command_raises_only_CommandFailed self args e :
  _run_command subprocess_run self args = Raise e ->
  exists msg, e = CommandFailedError msg.
Proof.
  unfold _run_command.
  destruct (_run_command_try subprocess_run self args) as [v|e0];
    [discriminate|].
  destruct e0; intros H; inversion H; eauto.
Qed.





(** C1 (as the code behaves).  When the child's stderr carries the
    sentinel, [_run_command] does build a [WorkspaceNotRunningError], but
    the raise sits inside the [try] whose last handler is
    [except Exception]: what leaves the call is a [CommandFailedError]
    that quotes the message. *)
Theorem C1_sentinel_leaves_as_CommandFailed self args p :
  subprocess_run (uitest_path self :: args) = Ok p ->
  Py.contains sentinel (stderr p) = true ->
  _run_command_try subprocess_run self args
    = Raise (WorkspaceNotRunningError not_running_msg)
  /\ _run_command subprocess_run self args
    = Raise (CommandFailedError
               ("Failed to run uitest: " ++ not_running_msg)).
Proof.
  intros Hrun Hs. unfold _run_command, _run_command_try.
  rewrite Hrun. simpl. rewrite Hs. split; reflexivity.
Qed.



End ClientFacts.

Lemma C1_sentinel_leaves_as_CommandFailed_witness :
  UITest._run_command unreachable_bridge client0 ["query"; "--json"]%string
  = Raise (CommandFailedError
             ("Failed to run uitest: " ++ UITest.not_running_msg)).
Proof.
  apply (C1_sentinel_leaves_as_CommandFailed unreachable_bridge client0
           ["query"; "--json"]%string
           (p := UITest.Completed "" "Error: Cannot contact Workspace" 1));
    reflexivity.
Defined.



(** ** Trees of parsed JSON *)

Module JsonFacts.

Local Open Scope list_scope.

Lemma with_key_get {B} k (body : json -> B) otherwise kv :
  Json.with_key k body otherwise kv
  = match dict_get k kv with Some v => body v | None => otherwise end.
Proof.
  induction kv as [|[k' v] r IH]; simpl; [reflexivity|].
  now destruct (String.eqb k' k).
Qed.

Lemma dict_get_In k kv v : dict_get k kv = Some v -> In (k, v) kv.
Proof.
  induction kv as [|[k' v'] r IH]; simpl; [discriminate|].
  destruct (String.eqb k' k) eqn:E.
  - apply String.eqb_eq in E. intros [= ->]. left. now subst.
  - auto.
Qed.

Lemma for_any_true {A} (f : A -> result bool) l :
  Py.for_any f l = Ok true -> exists x, In x l /\ f x = Ok true.
Proof.
  induction l as [|x r IH]; simpl; [discriminate|].
  destruct (f x) as [[|]|e] eqn:E; try discriminate.
  - intros _. exists x. auto.
  - intros H. destruct (IH H) as (y & Hy & Hf). exists y. auto.
Qed.

Lemma for_any_none {A} (f : A -> result bool) l :
  (forall x, In x l -> f x = Ok false) -> Py.for_any f l = Ok false.
Proof.
  induction l as [|x r IH]; simpl; [reflexivity|].
  intros H. rewrite (H x (or_introl eq_refl)). apply IH.
  intros y Hy. apply H. now right.
Qed.



End JsonFacts.

(** ** The UI state facade *)

Section FacadeFacts.

Import UITest.
Local Open Scope list_scope.

Variable subprocess_run : list string -> result UITest.CompletedProcess.
Variable json_loads : string -> result json.

Local Abbreviation query := (query_ui_state subprocess_run json_loads).

Lemma has_str_get key t kv :
  has_str key t (JObj kv)
  = match Json.get (JObj kv) key JNull with
    | Ok v => Json.eq_str v t
    | Raise _ => false
    end.
Proof. simpl. now destruct (dict_get key kv). Qed.

Lemma window_exists_loop_true title ws :
  window_exists_loop title ws = Ok true ->
  exists w, In w ws
            /\ (has_str "title" title w = true
                \/ has_str "windowTitle" title w = true).
Proof.
  induction ws as [|w r IH]; simpl; [discriminate|].
  destruct w as [| | | | |kv]; try discriminate. simpl.
  destruct (has_str "title" title (JObj kv)) eqn:Ht.
  - intros _. exists (JObj kv). auto.
  - destruct (has_str "windowTitle" title (JObj kv)) eqn:Hw.
    + intros _. exists (JObj kv). auto.
    + simpl in Ht, Hw.
      destruct (dict_get "title" kv); destruct (dict_get "windowTitle" kv);
        rewrite ?Ht, ?Hw; simpl;
        intros H; destruct (IH H) as (w & Hin & Hw'); exists w; auto.
Qed.

Lemma window_exists_loop_dicts title ws :
  Forall (fun w => is_dict w = true) ws ->
  window_exists_loop title ws
  = Ok (existsb (fun w => has_str "title" title w
                          || has_str "windowTitle" title w) ws).
Proof.
  induction 1 as [|w r Hd _ IH]; simpl; [reflexivity|].
  destruct w as [| | | | |kv]; try discriminate. simpl.
  destruct (dict_get "title" kv) as [v|]; destruct (dict_get "windowTitle" kv) as [v'|];
    simpl; repeat (match goal with |- context [Json.eq_str ?a ?b] => destruct (Json.eq_str a b) end; simpl);
    auto.
Qed.

(** What [window_exists] returns, in terms of the query it makes. *)
Lemma window_exists_eq title self :
  fst (window_exists subprocess_run json_loads title self)
  = Ok match fst (query self) with
       | Ok state =>
           match ws <- windows_of state ;; window_exists_loop title ws with
           | Ok b => b
           | Raise _ => false
           end
       | Raise _ => false
       end.
Proof.
  unfold window_exists, except_return, mbind, lift, windows_of.
  destruct (query self) as [[state|e] self']; simpl; [|reflexivity].
  destruct (Json.get state "windows" (JArr [])) as [windows|e]; simpl;
    [|reflexivity].
  destruct (Json.iter windows) as [ws|e]; simpl; [|reflexivity].
  now destruct (window_exists_loop title ws).
Qed.

(** C9.  [window_exists] always returns a boolean; it returns [False] when
    the snapshot it obtains has no window with the title, and also when the
    query or the parse fails.  On a snapshot whose windows are dicts it
    returns [True] exactly when some window has the title under [title] or
    under [windowTitle]. *)
Theorem C9_window_exists_absent_is_false title self :
  (exists b, fst (window_exists subprocess_run json_loads title self) = Ok b)
  /\ ((forall state, fst (query self) = Ok state ->
                     ~ title_present state title) ->
      fst (window_exists subprocess_run json_loads title self) = Ok false)
  /\ ((forall state, fst (query self) <> Ok state) ->
      fst (window_exists subprocess_run json_loads title self) = Ok false)
  /\ (forall kv windows,
         fst (query self) = Ok (JObj kv) ->
         dict_get "windows" kv = Some (JArr windows) ->
         Forall (fun w => is_dict w = true) windows ->
         (fst (window_exists subprocess_run json_loads title self) = Ok true
          <-> title_present (JObj kv) title)).
Proof.
  rewrite window_exists_eq. split; [eauto|]. split; [|split].
  - intros Habsent. f_equal.
    destruct (fst (query self)) as [state|e]; [|reflexivity].
    specialize (Habsent state eq_refl).
    destruct (ws <- windows_of state ;; window_exists_loop title ws)
      as [[|]|e] eqn:E; try reflexivity.
    exfalso. apply Habsent. unfold windows_of in E.
    destruct state as [| | | | |kv]; try discriminate. simpl in E.
    destruct (dict_get "windows" kv) as [windows|] eqn:Ew;
      [|simpl in E; discriminate].
    destruct windows as [| | |s|ws|kv']; try discriminate; simpl in E.
    + exfalso. clear -E. induction s; simpl in E; discriminate.
    + apply window_exists_loop_true in E. destruct E as (w & Hin & Hw).
      exists kv, ws, w. auto.
    + exfalso. clear -E. induction kv'; simpl in E; discriminate.
  - intros Hfail. destruct (fst (query self)) as [state|e]; [|reflexivity].
    now destruct (Hfail state).
  - intros kv windows -> Hw Hd. unfold windows_of. simpl. rewrite Hw. simpl.
    rewrite (window_exists_loop_dicts title Hd). split.
    + intros [= Hex]. apply existsb_exists in Hex.
      destruct Hex as (w & Hin & Ht). apply orb_true_iff in Ht.
      exists kv, windows, w. auto.
    + intros (kv0 & ws0 & w & [= <-] & Hw0 & Hin & Ht).
      rewrite Hw in Hw0. injection Hw0 as <-. f_equal.
      apply existsb_exists. exists w. split; [exact Hin|].
      now apply orb_true_iff.
Qed.

End FacadeFacts.

Lemma C9_window_exists_absent_is_false_witness :
  fst (UITest.window_exists (answering "{}") (yielding info_state)
                            "Finder" client0) = Ok false.
Proof.
  apply (proj1 (proj2 (C9_window_exists_absent_is_false
                         (answering "{}") (yielding info_state)
                         "Finder" client0))).
  intros state Hq. injection Hq as <-.
  intros (kv & windows & w & Hs & Hw & Hin & Ht).
  injection Hs as <-. injection Hw as <-.
  destruct Hin as [<-|[]]. destruct Ht as [Ht|Ht]; discriminate Ht.
Defined.

(** ** Searching the element tree *)

Section TreeSearchFacts.

Import UITest.
Local Open Scope list_scope.

Variable subprocess_run : list string -> result UITest.CompletedProcess.
Variable json_loads : string -> result json.

Local Abbreviation query := (query_ui_state subprocess_run json_loads).

Lemma for_any_const_false (l : list json) :
  Py.for_any (fun _ : json => Ok false) l = Ok false.
Proof. apply JsonFacts.for_any_none. reflexivity. Qed.






End TreeSearchFacts.


(** ** Menu queries *)

Section MenuFacts.

Import UITest.
Local Open Scope list_scope.

Variable subprocess_run : list string -> result UITest.CompletedProcess.
Variable json_loads : string -> result json.

Lemma get_menu_items_loop_skip m pre rest :
  Forall (other_dict m) pre ->
  get_menu_items_loop m (pre ++ rest) = get_menu_items_loop m rest.
Proof.
  induction 1 as [|n r [Hd Ht] _ IH]; simpl; [reflexivity|].
  destruct n as [| | | | |kv]; try discriminate. simpl in *.
  destruct (dict_get "title" kv); simpl; rewrite ?Ht; exact IH.
Qed.

Lemma is_menu_item_enabled_loop_skip m i pre rest :
  Forall (other_dict i) pre ->
  is_menu_item_enabled_loop m i (pre ++ rest)
  = is_menu_item_enabled_loop m i rest.
Proof.
  induction 1 as [|n r [Hd Ht] _ IH]; simpl; [reflexivity|].
  destruct n as [| | | | |kv]; try discriminate. simpl in *.
  destruct (dict_get "title" kv); simpl; rewrite ?Ht; exact IH.
Qed.

Lemma get_menu_items_loop_hit m kv post :
  has_str "title" m (JObj kv) = true ->
  get_menu_items_loop m (JObj kv :: post)
  = Ok match dict_get "items" kv with Some v => v | None => JArr [] end.
Proof.
  simpl. destruct (dict_get "title" kv); [|discriminate].
  now intros ->.
Qed.

Lemma is_menu_item_enabled_loop_hit m i kv post :
  has_str "title" i (JObj kv) = true ->
  is_menu_item_enabled_loop m i (JObj kv :: post)
  = Ok match dict_get "enabled" kv with Some v => v | None => JBool false end.
Proof.
  simpl. destruct (dict_get "title" kv); [|discriminate].
  now intros ->.
Qed.

(** C7.  In a menu state whose first menu titled [m] has the item list
    [items], [is_menu_item_enabled m i] raises the not-found error when no
    item is titled [i], and for the first item titled [i] it returns the
    value of that item's [enabled] field without raising; [False] when the
    field says false or is missing. *)
Theorem C7_is_menu_item_enabled m i self skv pre mkv post items :
  fst (get_menu_state subprocess_run json_loads self) = Ok (JObj skv) ->
  dict_get "menus" skv = Some (JArr (pre ++ JObj mkv :: post)) ->
  Forall (other_dict m) pre ->
  has_str "title" m (JObj mkv) = true ->
  dict_get "items" mkv = Some (JArr items) ->
  let r := fst (is_menu_item_enabled subprocess_run json_loads m i self) in
  (Forall (other_dict i) items ->
   r = Raise (UITestException (item_not_found_msg m i)))
  /\ (forall ipre ikv ipost,
         items = ipre ++ JObj ikv :: ipost ->
         Forall (other_dict i) ipre ->
         has_str "title" i (JObj ikv) = true ->
         r = Ok match dict_get "enabled" ikv with
                | Some v => v
                | None => JBool false
                end
         /\ (dict_get "enabled" ikv = Some (JBool false) -> r = Ok (JBool false))
         /\ (dict_get "enabled" ikv = Some (JBool true) -> r = Ok (JBool true))).
Proof.
  intros Hstate Hmenus Hpre Hm Hitems r.
  assert (Hr : r = is_menu_item_enabled_loop m i items).
  { subst r. unfold is_menu_item_enabled, get_menu_items, mbind, lift.
    destruct (get_menu_state subprocess_run json_loads self) as [st self'].
    simpl in Hstate. subst st. simpl. rewrite Hmenus. simpl.
    rewrite get_menu_items_loop_skip by exact Hpre.
    rewrite get_menu_items_loop_hit by exact Hm.
    now rewrite Hitems. }
  split.
  - intros Hnone. rewrite Hr.
    rewrite <- (app_nil_r items).
    rewrite is_menu_item_enabled_loop_skip by exact Hnone. reflexivity.
  - intros ipre ikv ipost -> Hipre Hi.
    rewrite is_menu_item_enabled_loop_skip in Hr by exact Hipre.
    rewrite is_menu_item_enabled_loop_hit in Hr by exact Hi.
    split; [exact Hr|]. split; intros He; rewrite He in Hr; exact Hr.
Qed.

End MenuFacts.

Lemma C7_is_menu_item_enabled_witness :
  fst (UITest.is_menu_item_enabled (answering "{}") (yielding file_menu_state)
                                   "File" "Paste" client0)
  = Raise (UITestException "Menu item not found: File > Paste")
  /\ fst (UITest.is_menu_item_enabled (answering "{}")
            (yielding file_menu_state) "File" "New Folder" client0)
     = Ok (JBool false)
  /\ fst (UITest.is_menu_item_enabled (answering "{}")
            (yielding file_menu_state) "File" "Find" client0)
     = Ok (JBool true).
Proof.
  pose (C7 := fun i =>
    @C7_is_menu_item_enabled (answering "{}") (yielding file_menu_state)
      "File" i client0 _ [] _ [] _
      eq_refl eq_refl (Forall_nil _) eq_refl eq_refl).
  pose (new_folder := [("title", JStr "New Folder"); ("enabled", JBool false)]%string).
  pose (find := [("title", JStr "Find"); ("enabled", JBool true)]%string).
  split; [|split].
  - apply (proj1 (C7 "Paste"%string)). repeat constructor.
  - exact (proj1 (proj2 (proj2 (C7 "New Folder"%string) [] new_folder
                           [JObj find] eq_refl (Forall_nil _) eq_refl))
             eq_refl).
  - assert (Hskip : Forall (other_dict "Find") [JObj new_folder])
      by (repeat constructor).
    exact (proj2 (proj2 (proj2 (C7 "Find"%string) [JObj new_folder] find []
                           eq_refl Hskip eq_refl))
             eq_refl).
Defined.

(** ** The modal and focus guard *)

Section GuardFacts.

Import ModalHandler.
Local Open Scope list_scope.

Variable focus_of : history -> option WindowInfo.

Lemma looks_like_alert_iff w : looks_like_alert w = true <-> alert_like w.
Proof.
  unfold looks_like_alert, alert_like. rewrite existsb_exists.
  split; intros (kw & Hin & H); exists kw; split; auto.
  - now apply orb_true_iff.
  - now apply orb_true_iff.
Qed.

Lemma no_known_panel_iff w :
  no_known_panel w = true <->
  forall p, In p known_panels -> Py.contains p (name w) = false.
Proof.
  unfold no_known_panel. rewrite negb_true_iff. split.
  - intros H p Hin. destruct (Py.contains p (name w)) eqn:E; [|reflexivity].
    assert (existsb (fun p => Py.contains p (name w)) known_panels = true)
      by (apply existsb_exists; eauto).
    congruence.
  - intros H. destruct (existsb _ known_panels) eqn:E; [|reflexivity].
    apply existsb_exists in E. destruct E as (p & Hin & Hp).
    rewrite (H p Hin) in Hp. discriminate.
Qed.

(** The decision of [detect_modal_dialog] as one boolean. *)
Lemma detect_modal_dialog_eq h focused :
  focus_of h = Some focused ->
  fst (detect_modal_dialog focus_of h)
  = if looks_like_alert focused
       || (is_small_dialog focused && is_workspace_window focused
           && no_known_panel focused)
    then Some focused else None.
Proof.
  intros Hf. unfold detect_modal_dialog, get_focused_window, no_known_panel.
  rewrite Hf.
  destruct (looks_like_alert focused), (is_small_dialog focused),
    (is_workspace_window focused),
    (existsb (fun p => Py.contains p (name focused)) known_panels);
    reflexivity.
Qed.

Lemma is_small_dialog_iff w :
  is_small_dialog w = true <-> 0 < width w < 500 /\ height w < 400.
Proof.
  unfold is_small_dialog. rewrite !andb_true_iff, !Z.ltb_lt. tauto.
Qed.

(** C4 (amended).  When no focused window can be determined,
    [detect_modal_dialog] returns [None].  Otherwise it returns the focused
    window exactly when it looks like an alert (keywords matched on the
    lower-cased name and class) or when it is a Workspace window with
    [0 < width < 500] and [height < 400] whose name contains none of the
    known panel names; in every other case it returns [None]. *)
Theorem C4_detect_modal_dialog_amended h :
  (focus_of h = None -> fst (detect_modal_dialog focus_of h) = None)
  /\ (forall focused,
        focus_of h = Some focused ->
        (fst (detect_modal_dialog focus_of h) = Some focused <->
         alert_like focused
         \/ (is_workspace_window focused = true
             /\ (0 < width focused < 500 /\ height focused < 400)
             /\ forall p, In p known_panels ->
                          Py.contains p (name focused) = false))
        /\ (fst (detect_modal_dialog focus_of h) = Some focused
            \/ fst (detect_modal_dialog focus_of h) = None)).
Proof.
  split.
  { intros Hn. unfold detect_modal_dialog, get_focused_window.
    now rewrite Hn. }
  intros focused Hf. rewrite (detect_modal_dialog_eq Hf).
  rewrite <- looks_like_alert_iff, <- no_known_panel_iff, <- is_small_dialog_iff.
  destruct (looks_like_alert focused || _) eqn:E.
  - split; [|now left]. split; [intros _|reflexivity].
    apply orb_true_iff in E. destruct E as [E|E]; [now left|right].
    rewrite !andb_true_iff in E. tauto.
  - split; [|now right]. split; [discriminate|]. intros H. exfalso.
    apply orb_false_iff in E. destruct E as [Ea Eb].
    destruct H as [H|(Hw & Hs & Hp)]; [congruence|].
    rewrite Hw, Hs, Hp in Eb. discriminate.
Qed.

(** C3 (amended).  With no focused window [has_focus_stealer] returns
    [False].  With an expected title it returns [True] exactly when the
    focused name does not contain that title (case ignored) and the window
    is foreign to Workspace, or small, or alert-like; without one (or with
    the empty string) it returns [True] exactly when the window is foreign
    to Workspace or alert-like, and the size of the window plays no part. *)
Theorem C3_has_focus_stealer_amended h expected :
  (focus_of h = None -> fst (has_focus_stealer focus_of expected h) = false)
  /\ (forall focused, focus_of h = Some focused ->
        fst (has_focus_stealer focus_of expected h)
        = match expected with
          | Some (String _ _ as e) =>
              negb (Py.contains (Py.lower e) (Py.lower (name focused)))
              && (negb (is_workspace_window focused)
                  || looks_like_alert focused || is_small_dialog focused)
          | _ => negb (is_workspace_window focused) || looks_like_alert focused
          end).
Proof.
  unfold has_focus_stealer, get_focused_window. split.
  - now intros ->.
  - intros focused ->.
    destruct expected as [[|c e]|]; simpl;
      repeat match goal with
             | |- context [if ?b then _ else _] => destruct b; simpl
             end; reflexivity.
Qed.

(** In ["auto"] mode [dismiss_focus_stealer] answers [True] whatever the
    window manager reports: [close_window] returns [True] unconditionally,
    so the [return False] after it is never reached. *)
Lemma dismiss_auto_always_true h :
  fst (dismiss_focus_stealer focus_of "auto" h) = true.
Proof.
  unfold dismiss_focus_stealer. simpl String.eqb. cbv iota.
  destruct (dismiss_with_escape focus_of 2 h) as [[|] h1]; [reflexivity|].
  destruct (click_button_in_dialog focus_of "right" h1) as [[|] h2].
  - unfold sleep.
    match goal with
    | |- context [has_focus_stealer focus_of None ?hh] =>
        destruct (has_focus_stealer focus_of None hh) as [[|] h3]
    end; reflexivity.
  - reflexivity.
Qed.

End GuardFacts.

(** C2 (as the code behaves).  In ["auto"] mode the three strategies are
    tried in the stated order and the call ends after a bounded number of
    steps, but it never reports failure: with the focus stuck on a foreign
    window, so that Escape, the click and the close key all leave the focus
    stealer in place, the result is still [True]. *)
Theorem C2_auto_dismissal_never_reports_failure :
  (forall focus_of h,
      fst (ModalHandler.dismiss_focus_stealer focus_of "auto" h) = true)
  /\ ModalHandler.dismiss_focus_stealer (stuck_on xterm) "auto" []
     = (true,
        [GetActiveWindow; Key "Escape"; Sleep (2 # 10); GetActiveWindow;
         Key "Escape"; Sleep (2 # 10); GetActiveWindow;
         GetActiveWindow; MouseMove 820 660; Sleep (1 # 10); Click 1;
         Sleep (2 # 10); Sleep (2 # 10); GetActiveWindow;
         Key "alt+w"; Sleep (3 # 10); Sleep (2 # 10)])
  /\ fst (ModalHandler.has_focus_stealer (stuck_on xterm) None
            (snd (ModalHandler.dismiss_focus_stealer
                    (stuck_on xterm) "auto" [])))
     = true.
Proof.
  split; [exact dismiss_auto_always_true|]. split; reflexivity.
Qed.

(** C3 as stated fails: with no expected title, a focused small Workspace
    panel without an alert keyword is not reported. *)
Lemma C3_small_panel_counterexample :
  stealer_as_stated None info_panel = true
  /\ fst (ModalHandler.has_focus_stealer (stuck_on info_panel) None [])
     = false.
Proof. split; reflexivity. Qed.

Lemma C3_has_focus_stealer_amended_witness :
  fst (ModalHandler.has_focus_stealer (stuck_on xterm) (Some "Workspace") [])
  = true
  /\ fst (ModalHandler.has_focus_stealer (stuck_on delete_confirmation) None [])
     = true
  /\ fst (ModalHandler.has_focus_stealer (stuck_on info_panel) (Some "Viewer") [])
     = true
  /\ fst (ModalHandler.has_focus_stealer (stuck_on editeur_window)
            (Some editeur_lower) [])
     = false
  /\ fst (ModalHandler.has_focus_stealer no_focus (Some "Viewer") []) = false.
Proof.
  split; [|split; [|split; [|split]]].
  - exact (proj2 (C3_has_focus_stealer_amended (stuck_on xterm) []
                    (Some "Workspace"%string)) xterm eq_refl).
  - exact (proj2 (C3_has_focus_stealer_amended (stuck_on delete_confirmation)
                    [] None) delete_confirmation eq_refl).
  - exact (proj2 (C3_has_focus_stealer_amended (stuck_on info_panel) []
                    (Some "Viewer"%string)) info_panel eq_refl).
  - exact (proj2 (C3_has_focus_stealer_amended (stuck_on editeur_window) []
                    (Some editeur_lower)) editeur_window eq_refl).
  - exact (proj1 (C3_has_focus_stealer_amended no_focus []
                    (Some "Viewer"%string)) eq_refl).
Defined.

(** C4 as stated fails: a Workspace panel whose geometry could not be read
    has width and height 0, which is below 500 and 400, yet it is not
    returned. *)
Lemma C4_zero_width_counterexample :
  detect_as_stated info_no_geometry = Some info_no_geometry
  /\ fst (ModalHandler.detect_modal_dialog (stuck_on info_no_geometry) [])
     = None.
Proof. split; reflexivity. Qed.

Lemma C4_detect_modal_dialog_amended_witness :
  fst (ModalHandler.detect_modal_dialog (stuck_on delete_confirmation) [])
  = Some delete_confirmation
  /\ fst (ModalHandler.detect_modal_dialog no_focus []) = None
  /\ fst (ModalHandler.detect_modal_dialog (stuck_on finder) []) = None.
Proof.
  split; [|split].
  - apply (proj1 (proj2 (C4_detect_modal_dialog_amended
                           (stuck_on delete_confirmation) [])
                    delete_confirmation eq_refl)).
    left. exists "delete"%string. split; [simpl; tauto|now left].
  - exact (proj1 (C4_detect_modal_dialog_amended no_focus []) eq_refl).
  - destruct (proj2 (C4_detect_modal_dialog_amended (stuck_on finder) [])
                finder eq_refl)
      as [Hiff [H|H]]; [|exact H].
    exfalso. apply Hiff in H. destruct H as [(kw & Hin & Hkw)|(_ & Hsize & _)].
    + simpl in Hin.
      repeat (destruct Hin as [<-|Hin];
              [destruct Hkw as [Hkw|Hkw]; discriminate Hkw|]).
      exact Hin.
    + simpl in Hsize. lia.
Defined.

(** ** The input simulator *)

Section InputFacts.

Import UserInput.
Local Open Scope list_scope.

Variable xdotool_status : history -> event -> Z * string.
Variable mouse_location : history -> result (Z * Z).
Variable math_sqrt : Z -> result Q.

(** Every [xdotool] call exits with status 0. *)
Hypothesis xdotool_succeeds : forall h e, fst (xdotool_status h e) = 0.

Lemma run_ok e h : _run xdotool_status e h = (Ok tt, h ++ [e]).
Proof.
  unfold _run. pose proof (xdotool_succeeds h e) as H.
  destruct (xdotool_status h e) as [rc err]. simpl in H. now subst rc.
Qed.


End InputFacts.

Section SmoothMoveFacts.

Import UserInput.
Local Open Scope list_scope.

Variable xdotool_status : history -> event -> Z * string.
Variable mouse_location : history -> result (Z * Z).
Variable math_sqrt : Z -> result Q.





End SmoothMoveFacts.



(** ** The test runner *)

Section RunnerFacts.

Import UITest.
Local Open Scope list_scope.

Variable W : Type.

Lemma failed_iff (o : outcome) :
  failed o = true <-> o = Returns (JBool false) \/ exists e, o = Raises e.
Proof.
  destruct o as [v|e|b]; simpl.
  - split.
    + destruct v as [|[|]| | | |]; simpl; try discriminate. auto.
    + intros [[= ->]|[e [=]]]. reflexivity.
  - split; eauto.
  - split; [discriminate|]. intros [[=]|[e [=]]].
Qed.

(** How the loop ends: an exception outside [Exception] passes through it,
    or the list [results] holds one verdict per executed test. *)
Lemma run_loop_results verbose stop_on_failure highlight_failures
      (client : option (highlighter W)) tests results out w :
  fst (fst (run_loop verbose stop_on_failure highlight_failures client
                     tests results out w))
  = match propagated (executed stop_on_failure highlight_failures
                               client tests w) with
    | Some b => Propagated b
    | None =>
        Finished
          (results
           ++ map (fun o => negb (failed o))
                  (executed stop_on_failure highlight_failures client tests w))
    end.
Proof.
  revert results out w.
  induction tests as [|[test_name test_func] r IH]; intros results out w;
    simpl.
  - now rewrite app_nil_r.
  - destruct (test_func w) as [[v|e|b] w1]; [| |reflexivity].
    + destruct (is_False v) eqn:Ev; simpl; rewrite Ev;
        destruct stop_on_failure; simpl;
        rewrite ?IH; try destruct (propagated _);
        rewrite <- ?app_assoc; reflexivity.
    + destruct e; simpl;
        repeat match goal with
               | |- context [match highlight_failures with _ => _ end] =>
                   destruct highlight_failures
               | |- context [match client with _ => _ end] =>
                   destruct client
               end;
        destruct stop_on_failure; simpl;
        rewrite ?IH; try destruct (propagated _);
        rewrite <- ?app_assoc; try reflexivity;
        match goal with
        | |- context [if ?b then _ else _] => destruct b; reflexivity
        end.
Qed.

(** The loop leaves the world as the executed tests left it. *)
Lemma run_loop_world verbose stop_on_failure highlight_failures
      (client : option (highlighter W)) tests results out w :
  snd (run_loop verbose stop_on_failure highlight_failures client
                tests results out w)
  = final_world stop_on_failure highlight_failures client tests w.
Proof.
  revert results out w.
  induction tests as [|[test_name test_func] r IH]; intros results out w;
    simpl; [reflexivity|].
  destruct (test_func w) as [[v|e|b] w1];
    [| |simpl; now rewrite orb_true_r].
  - destruct (is_False v) eqn:Ev; simpl; rewrite Ev;
      destruct stop_on_failure; simpl; rewrite ?IH; reflexivity.
  - destruct e; simpl;
      repeat match goal with
             | |- context [match highlight_failures with _ => _ end] =>
                 destruct highlight_failures
             | |- context [match client with _ => _ end] =>
                 destruct client
             end;
      destruct stop_on_failure; simpl; rewrite ?IH; try reflexivity;
      match goal with
      | |- context [if ?b then _ else _] => destruct b; reflexivity
      end.
Qed.

Lemma all_verdicts (ex : list outcome) :
  all (map (fun o => negb (failed o)) ex) = true <->
  forall o, In o ex -> failed o = false.
Proof.
  unfold all. rewrite forallb_forall. split.
  - intros H o Hin. specialize (H _ (in_map _ _ _ Hin)).
    now apply negb_true_iff.
  - intros H b Hin. apply in_map_iff in Hin. destruct Hin as (o & <- & Hin).
    apply negb_true_iff. auto.
Qed.

(** Fewer outcomes than tests: the run was stopped after a failure, or an
    exception ended it. *)
Lemma executed_short stop_on_failure highlight_failures
      (client : option (highlighter W)) tests w :
  (length (executed stop_on_failure highlight_failures client tests w)
   < length tests)%nat ->
  exists o, In o (executed stop_on_failure highlight_failures client tests w)
            /\ ((stop_on_failure = true /\ failed o = true)
                \/ escaped o = true).
Proof.
  revert w. induction tests as [|[test_name test_func] r IH]; intros w; simpl.
  - lia.
  - destruct (test_func w) as [o w1].
    destruct ((stop_on_failure && failed o) || escaped o) eqn:E; simpl.
    + intros _. exists o. split; [now left|].
      apply orb_true_iff in E. destruct E as [E|E]; [left|now right].
      now apply andb_true_iff in E.
    + intros H. apply Nat.succ_lt_mono in H.
      destruct (IH _ H) as (o' & Hin & Ho'). exists o'. auto.
Qed.

(** The run goes on after a test exactly when nothing stops it. *)
Lemma executed_full stop_on_failure highlight_failures
      (client : option (highlighter W)) tests w :
  (forall o, In o (executed stop_on_failure highlight_failures client tests w)
             -> (stop_on_failure && failed o) || escaped o = false) ->
  length (executed stop_on_failure highlight_failures client tests w)
  = length tests.
Proof.
  revert w. induction tests as [|[n f] r IH]; intros w; simpl; [reflexivity|].
  destruct (f w) as [o w1]. intros H.
  rewrite (H o (or_introl eq_refl)). simpl. f_equal. apply IH.
  intros o' Hin. apply H. right.
  now rewrite (H o (or_introl eq_refl)).
Qed.

(** An exception ends the run, so it is the only one among the outcomes. *)
Lemma propagated_iff stop_on_failure highlight_failures
      (client : option (highlighter W)) tests w b :
  propagated (executed stop_on_failure highlight_failures client tests w)
  = Some b
  <-> In (Escapes b)
         (executed stop_on_failure highlight_failures client tests w).
Proof.
  revert w. induction tests as [|[n f] r IH]; intros w; simpl.
  - split; [discriminate|intros []].
  - destruct (f w) as [[v|e|b'] w1]; simpl.
    + destruct (stop_on_failure && is_False v); simpl.
      * split; [discriminate|intros [[=]|[]]].
      * rewrite IH. split; [auto|intros [[=]|H]; exact H].
    + destruct (stop_on_failure && true); simpl.
      * split; [discriminate|intros [[=]|[]]].
      * rewrite IH. split; [auto|intros [[=]|H]; exact H].
    + rewrite orb_true_r. split.
      * intros [= ->]. now left.
      * intros [[= ->]|[]]. reflexivity.
Qed.

Lemma propagated_none (ex : list outcome) :
  propagated ex = None <-> forall o, In o ex -> escaped o = false.
Proof.
  induction ex as [|o r IH]; simpl.
  - split; [intros _ ? []|reflexivity].
  - destruct o as [v|e|b]; simpl.
    + rewrite IH. split; [intros H o [<-|Hin]; auto|auto].
    + rewrite IH. split; [intros H o [<-|Hin]; auto|auto].
    + split; [discriminate|]. intros H.
      specialize (H _ (or_introl eq_refl)). discriminate.
Qed.

Lemma some_failed (ex : list outcome) :
  all (map (fun o => negb (failed o)) ex) = false ->
  exists o, In o ex /\ failed o = true.
Proof.
  induction ex as [|o r IH]; simpl; [discriminate|].
  destruct (failed o) eqn:Ho; simpl.
  - intros _. exists o. auto.
  - intros E. destruct (IH E) as (o' & Hin & Ho'). exists o'. auto.
Qed.

(** What [run_tests] does after the loop. *)
Lemma run_tests_unfold tests verbose stop_on_failure highlight_failures
      (client : option (highlighter W)) w :
  run_tests tests verbose stop_on_failure highlight_failures client w
  = match tests with
    | [] => (Finished 0, [], w)
    | _ =>
        match run_loop verbose stop_on_failure highlight_failures
                       client tests [] [] w with
        | (Finished results, out, w') =>
            (Finished (if all results then 0 else 1),
             if verbose
             then out ++ [LBlank;
                          LResults (length (filter (fun b => b) results))
                                   (length results) (length tests);
                          LStatus (all results)]
             else out, w')
        | (Propagated b, out, w') => (Propagated b, out, w')
        end
    end.
Proof. reflexivity. Qed.

(** The status of a run, from the outcomes of the tests it called. *)
Lemma run_tests_status tests verbose stop_on_failure highlight_failures
      (client : option (highlighter W)) w :
  fst (fst (run_tests tests verbose stop_on_failure highlight_failures
                      client w))
  = match propagated (executed stop_on_failure highlight_failures
                               client tests w) with
    | Some b => Propagated b
    | None =>
        Finished
          (if all (map (fun o => negb (failed o))
                       (executed stop_on_failure highlight_failures
                                 client tests w))
           then 0 else 1)
    end.
Proof.
  rewrite run_tests_unfold. destruct tests as [|t r]; [reflexivity|].
  pose proof (run_loop_results verbose stop_on_failure highlight_failures
                client (t :: r) [] [] w) as H.
  set (ex := executed stop_on_failure highlight_failures client (t :: r) w)
    in *.
  destruct (run_loop _ _ _ _ (t :: r) [] [] w) as [[[results|b] out] w'];
    cbn [fst app] in H |- *;
    destruct (propagated ex); try discriminate; now inversion H.
Qed.

(** The world a run leaves. *)
Lemma run_tests_world tests verbose stop_on_failure highlight_failures
      (client : option (highlighter W)) w :
  snd (run_tests tests verbose stop_on_failure highlight_failures client w)
  = final_world stop_on_failure highlight_failures client tests w.
Proof.
  rewrite run_tests_unfold. destruct tests as [|t r]; [reflexivity|].
  pose proof (run_loop_world verbose stop_on_failure highlight_failures
                client (t :: r) [] [] w) as H.
  destruct (run_loop _ _ _ _ (t :: r) [] [] w) as [[[results|b] out] w'];
    exact H.
Qed.

(** The summary line of a verbose run that returns a status. *)
Lemma run_tests_summary tests stop_on_failure highlight_failures
      (client : option (highlighter W)) w :
  tests <> [] ->
  propagated (executed stop_on_failure highlight_failures client tests w)
  = None ->
  In (LResults
        (length (filter (fun b => b)
                        (map (fun o => negb (failed o))
                             (executed stop_on_failure highlight_failures
                                       client tests w))))
        (length (executed stop_on_failure highlight_failures client tests w))
        (length tests))
     (snd (fst (run_tests tests true stop_on_failure highlight_failures
                          client w))).
Proof.
  intros Hne Hp. rewrite run_tests_unfold.
  destruct tests as [|t r]; [contradiction|].
  pose proof (run_loop_results true stop_on_failure highlight_failures
                client (t :: r) [] [] w) as H.
  set (ex := executed stop_on_failure highlight_failures client (t :: r) w)
    in *.
  rewrite Hp in H.
  destruct (run_loop _ _ _ _ (t :: r) [] [] w) as [[[results|b] out] w'];
    [|discriminate].
  cbn [fst snd app] in H |- *. injection H as ->.
  rewrite length_map. apply in_or_app. right. right. now left.
Qed.

(** C8 (amended).  As long as no callable is left by an exception outside
    [Exception], the exit status of [run_tests] is 0 when every test it
    called passed and 1 otherwise; when it stops early a test has failed
    and the status is 1.  A test fails exactly when its callable returns
    [False] itself or raises an exception that derives from [Exception],
    and either way the status is 1.  An exception outside [Exception]
    passes through [run_tests], which then returns no status.  The tests it
    called are those the world and the summary line show. *)
Theorem C8_run_tests_exit_status_amended tests verbose stop_on_failure
        highlight_failures (client : option (highlighter W)) w :
  let run :=
    run_tests tests verbose stop_on_failure highlight_failures client w in
  let status := fst (fst run) in
  let ex := executed stop_on_failure highlight_failures client tests w in
  (status = Finished 0 <->
   forall o, In o ex -> failed o = false /\ escaped o = false)
  /\ (status = Finished 1 <->
      (exists o, In o ex /\ failed o = true)
      /\ forall o, In o ex -> escaped o = false)
  /\ (forall b, status = Propagated b <-> In (Escapes b) ex)
  /\ ((length ex < length tests)%nat ->
      (stop_on_failure = true /\ status = Finished 1)
      \/ exists b, status = Propagated b)
  /\ (stop_on_failure = false ->
      (forall o, In o ex -> escaped o = false) ->
      length ex = length tests)
  /\ (forall o, failed o = true <->
                o = Returns (JBool false) \/ exists e, o = Raises e)
  /\ snd run = final_world stop_on_failure highlight_failures client tests w
  /\ (verbose = true -> tests <> [] ->
      forall n, status = Finished n ->
                exists passed,
                  In (LResults passed (length ex) (length tests))
                     (snd (fst run))).
Proof.
  intros run status ex.
  pose proof (run_tests_status tests verbose stop_on_failure
                highlight_failures client w) as Hstatus.
  fold run status ex in Hstatus.
  pose proof (all_verdicts ex) as Hall.
  pose proof (propagated_none ex) as Hnone.
  assert (Hprop : forall b, status = Propagated b <-> In (Escapes b) ex).
  { intros b. unfold ex. rewrite <- propagated_iff. fold ex. rewrite Hstatus.
    destruct (propagated ex) as [b'|].
    - split; intros [= ->]; reflexivity.
    - split; discriminate. }
  assert (Hone : status = Finished 1 <->
                 (exists o, In o ex /\ failed o = true)
                 /\ forall o, In o ex -> escaped o = false).
  { rewrite Hstatus, <- Hnone. destruct (propagated ex) as [b|].
    - split; [discriminate|]. intros [_ [=]].
    - destruct (all _) eqn:E.
      + split; [discriminate|]. intros [(o & Hin & Ho) _].
        rewrite (proj1 Hall eq_refl o Hin) in Ho. discriminate.
      + split; [intros _|reflexivity]. split; [|reflexivity].
        now apply some_failed. }
  split; [|split; [exact Hone|split; [exact Hprop|]]].
  - rewrite Hstatus. split.
    + destruct (propagated ex) as [b|] eqn:Ep; [discriminate|].
      destruct (all _) eqn:E; [|discriminate]. intros _ o Hin.
      split; [now apply Hall|now apply Hnone].
    + intros H. assert (Ep : propagated ex = None).
      { apply Hnone. intros o Hin. now apply H. }
      rewrite Ep. assert (E : all (map (fun o => negb (failed o)) ex) = true).
      { apply Hall. intros o Hin. now apply H. }
      now rewrite E.
  - split; [|split; [|split; [apply failed_iff|split]]].
    + intros Hshort.
      destruct (executed_short _ _ _ _ _ Hshort) as (o & Hin & [[Hs Ho]|Ho]).
      * destruct (propagated ex) as [b|] eqn:Ep.
        -- right. exists b. exact Hstatus.
        -- left. split; [exact Hs|]. apply Hone.
           split; [eauto|now apply Hnone].
      * right. destruct o as [v|e|b]; try discriminate.
        exists b. now apply Hprop.
    + intros -> Hesc. apply executed_full. intros o Hin. simpl.
      now apply Hesc.
    + apply run_tests_world.
    + intros Hv Hne n Hn. subst verbose. eexists.
      apply run_tests_summary; [exact Hne|].
      rewrite Hstatus in Hn. fold ex.
      now destruct (propagated ex).
Qed.

End RunnerFacts.

(** C8 as stated fails: a callable that is interrupted raises an exception,
    so the test counts as failed and the status should be 1, yet
    [run_tests] returns no status at all. *)
Lemma C8_interrupted_counterexample :
  status_as_stated
    (executed false true None
              [("a", passing); ("b", interrupted); ("c", passing)]%string
              0%nat) = 1
  /\ fst (fst (UITest.run_tests
                 [("a", passing); ("b", interrupted); ("c", passing)]%string
                 true false true None 0%nat))
     = Propagated KeyboardInterrupt.
Proof. split; reflexivity. Qed.

Lemma C8_run_tests_exit_status_amended_witness :
  fst (fst (UITest.run_tests
              [("a", passing); ("b", returning_false); ("c", passing)]%string
              true true true None 0%nat)) = Finished 1
  /\ fst (fst (UITest.run_tests
                 [("a", passing); ("b", raising); ("c", passing)]%string
                 true true true None 0%nat)) = Finished 1
  /\ fst (fst (UITest.run_tests
                 [("a", passing); ("c", passing)]%string
                 true true true None 0%nat)) = Finished 0
  /\ snd (UITest.run_tests
            [("a", passing); ("b", raising); ("c", passing)]%string
            true true true None 0%nat) = 2%nat.
Proof.
  split; [|split; [|split]].
  - apply (proj2 (proj1 (proj2
             (C8_run_tests_exit_status_amended
                [("a", passing); ("b", returning_false); ("c", passing)]%string
                true true true None 0%nat)))).
    split.
    + exists (UITest.Returns (JBool false)). simpl. auto.
    + simpl. intros o [<-|[<-|[]]]; reflexivity.
  - apply (proj2 (proj1 (proj2
             (C8_run_tests_exit_status_amended
                [("a", passing); ("b", raising); ("c", passing)]%string
                true true true None 0%nat)))).
    split.
    + eexists. simpl. split; [right; left; reflexivity|reflexivity].
    + simpl. intros o [<-|[<-|[]]]; reflexivity.
  - apply (proj2 (proj1 (C8_run_tests_exit_status_amended
                           [("a", passing); ("c", passing)]%string
                           true true true None 0%nat))).
    simpl. intros o [<-|[<-|[]]]; split; reflexivity.
  - exact (proj1 (proj2 (proj2 (proj2 (proj2 (proj2 (proj2
             (C8_run_tests_exit_status_amended
                [("a", passing); ("b", raising); ("c", passing)]%string
                true true true None 0%nat)))))))).
Defined.

(* ================================================================= *)
(** * Further properties of the client *)

Section ClientMoreFacts.

Import UITest.
Local Open Scope list_scope.

Variable subprocess_run : list string -> result UITest.CompletedProcess.
Variable json_loads : string -> result json.

Local Abbreviation query := (query_ui_state subprocess_run json_loads).

(** [_extract_json] either parses and stores, or raises and leaves the
    client as it was; what it raises is a [UITestException], or else an
    exception of the parser that is not a [JSONDecodeError]. *)
Lemma extract_json_cases output self :
  (exists data,
      _extract_json json_loads output self
      = (Ok data, Client (uitest_path self) (Some data)))
  \/ (exists e,
         _extract_json json_loads output self = (Raise e, self)
         /\ ((exists msg, e = UITestException msg)
             \/ (exists text, json_loads text = Raise e
                              /\ forall m, e <> JSONDecodeError m))).
Proof.
  unfold _extract_json.
  destruct (find_json_start (Py.split_nl output) 0); [|eauto 6].
  destruct (json_loads _) as [data|e] eqn:E; [eauto|].
  right. destruct e; eexists; (split; [reflexivity|]); eauto;
    right; eexists; (split; [exact E|discriminate]).
Qed.

(** X1.  The cache of the last response: a successful extraction is what
    [get_last_json_response] returns next, a failed extraction leaves the
    cached response in place, and a client that has parsed nothing
    raises. *)
Theorem X1_last_response_follows_extraction output self r self' :
  _extract_json json_loads output self = (r, self') ->
  match r with
  | Ok data =>
      data <> JNull -> get_last_json_response self' = (Ok data, self')
  | Raise _ =>
      self' = self
  end
  /\ (_last_json_response self = None ->
      get_last_json_response self
      = (Raise (UITestException "No previous query executed"), self)).
Proof.
  intros H. split.
  - destruct (extract_json_cases output self) as [(data & E)|(e & E & _)];
      rewrite E in H; injection H as <- <-; [|reflexivity].
    intros Hnn. unfold get_last_json_response. simpl.
    destruct data; try reflexivity. contradiction.
  - intros Hnone. unfold get_last_json_response. now rewrite Hnone.
Qed.

(** What the bridge's answer looks like to [_run_command] when the child
    completes without the sentinel on stderr. *)
Lemma run_command_completed self args p :
  subprocess_run (uitest_path self :: args) = Ok p ->
  Py.contains sentinel (stderr p) = false ->
  _run_command subprocess_run self args
  = Ok (stdout p, stderr p, returncode p).
Proof.
  intros Hrun Hs. unfold _run_command, _run_command_try.
  rewrite Hrun. simpl. now rewrite Hs.
Qed.

(** X2.  A non-zero exit status makes [query_ui_state] raise
    [CommandFailedError] with the child's stderr, whatever stdout holds, and
    the cached response stays; [menu] does not look at the exit status and
    returns what [_extract_json] makes of stdout. *)
Theorem X2_exit_status_query_vs_menu self p menu_path :
  (forall args, subprocess_run (uitest_path self :: args) = Ok p) ->
  Py.contains sentinel (stderr p) = false ->
  returncode p <> 0 ->
  query self
  = (Raise (CommandFailedError ("Failed to query UI state: " ++ stderr p)),
     self)
  /\ menu subprocess_run json_loads menu_path self
     = _extract_json json_loads (stdout p) self.
Proof.
  intros Hrun Hs Hrc. unfold query_ui_state, menu.
  rewrite !(@run_command_completed self _ p (Hrun _) Hs).
  apply Z.eqb_neq in Hrc. now rewrite Hrc.
Qed.

(** X3.  An exception that leaves [query_ui_state] is a
    [CommandFailedError], a [UITestException], or an exception that
    [json.loads] raised and that is not a [JSONDecodeError]: only the
    latter class is turned into the parse error, so a [ValueError] or a
    [RecursionError] of the parser reaches the caller as it is. *)
Theorem X3_query_ui_state_error_classes self e :
  fst (query_ui_state subprocess_run json_loads self) = Raise e ->
  (exists msg, e = CommandFailedError msg)
  \/ (exists msg, e = UITestException msg)
  \/ (exists text, json_loads text = Raise e
                   /\ forall m, e <> JSONDecodeError m).
Proof.
  unfold query_ui_state.
  destruct (_run_command subprocess_run self ["query"; "--json"])
    as [[[out err] rc]|e0] eqn:E.
  - destruct (negb (rc =? 0)).
    + intros [= <-]. eauto.
    + destruct (extract_json_cases out self) as [(d & ->)|(e1 & -> & He)];
        [discriminate|]. intros [= <-]. now right.
  - intros [= <-]. left.
    eapply run_command_raises_only_CommandFailed. exact E.
Qed.

End ClientMoreFacts.

Section AssertionFacts.

Import UITest.
Local Open Scope list_scope.

Variable subprocess_run : list string -> result UITest.CompletedProcess.
Variable json_loads : string -> result json.

Local Abbreviation query := (query_ui_state subprocess_run json_loads).

(** X4.  [assert_window_exists] passes when [window_exists] says [True] and
    raises [AssertionFailedError] (with [msg], or the default text when
    [msg] is empty) when it says [False]; in particular a failure of the
    bridge surfaces as this "not found" assertion, not as a command
    error. *)
Theorem X4_assert_window_exists_only_assertion title msg self :
  let missing :=
    AssertionFailedError (Py.str_or msg ("Window '" ++ title ++ "' not found")) in
  (fst (window_exists subprocess_run json_loads title self) = Ok true ->
   fst (assert_window_exists subprocess_run json_loads title msg self) = Ok tt)
  /\ (fst (window_exists subprocess_run json_loads title self) = Ok false ->
      fst (assert_window_exists subprocess_run json_loads title msg self)
      = Raise missing)
  /\ ((forall state, fst (query self) <> Ok state) ->
      fst (assert_window_exists subprocess_run json_loads title msg self)
      = Raise missing)
  /\ (forall e,
         fst (assert_window_exists subprocess_run json_loads title msg self)
         = Raise e -> e = missing).
Proof.
  intros missing.
  assert (Hcases :
    forall b, fst (window_exists subprocess_run json_loads title self) = Ok b ->
              fst (assert_window_exists subprocess_run json_loads title msg self)
              = if b then Ok tt else Raise missing).
  { intros b Hb. unfold assert_window_exists, mbind, lift.
    destruct (window_exists subprocess_run json_loads title self) as [r s'].
    simpl in Hb. subst r. now destruct b. }
  pose proof (window_exists_eq subprocess_run json_loads title self) as Heq.
  split; [intros H; exact (Hcases true H)|].
  split; [intros H; exact (Hcases false H)|]. split.
  - intros Hfail. apply (Hcases false). rewrite Heq.
    destruct (fst (query self)) as [state|e]; [|reflexivity].
    now destruct (Hfail state).
  - intros e He. rewrite (Hcases _ Heq) in He.
    destruct (match fst (query self) with Ok _ => _ | Raise _ => false end);
      [discriminate|]. now injection He.
Qed.

Lemma find_class_reach class_name obj :
  find_class class_name obj = Ok true ->
  exists n, reach ["children"%string] obj n
            /\ has_str "class" class_name n = true.
Proof.
  induction obj as [| | | |l IH|kv IH] using json_induction;
    try discriminate.
  - simpl. intros H. apply JsonFacts.for_any_true in H.
    destruct H as (x & Hin & Hx).
    rewrite Forall_forall in IH. destruct (IH x Hin Hx) as (n & Hr & Hc).
    exists n. split; [|exact Hc]. eapply reach_item; eauto.
  - simpl. rewrite JsonFacts.with_key_get.
    destruct (match dict_get "class" kv with
              | Some c => Json.eq_str c class_name
              | None => false
              end) eqn:Ec.
    + intros _. exists (JObj kv). split; [constructor|exact Ec].
    + destruct (dict_get "children" kv) as [children|] eqn:Ech;
        [|discriminate].
      rewrite Forall_forall in IH.
      pose proof (IH _ (JsonFacts.dict_get_In _ _ Ech)) as IHc. simpl in IHc.
      destruct children as [| | |s|l|kv']; simpl; try discriminate.
      * rewrite for_any_const_false. discriminate.
      * intros H. destruct (IHc H) as (n & Hr & Hc).
        exists n. split; [|exact Hc].
        eapply reach_key; [now left|exact Ech|exact Hr].
      * rewrite for_any_const_false. discriminate.
Qed.

(** X5.  [assert_element_exists] raises nothing but [AssertionFailedError], a
    failed query included; and when it passes, some window holds an element
    of the class that is reached through lists and [children] alone, so an
    element that sits below [contentView] or [views] does not make it
    pass. *)
Theorem X5_assert_element_exists_children_only class_name msg self :
  (forall e,
      fst (assert_element_exists subprocess_run json_loads class_name msg self)
      = Raise e -> exists m, e = AssertionFailedError m)
  /\ (fst (assert_element_exists subprocess_run json_loads class_name msg self)
      = Ok tt ->
      exists state ws w n,
        fst (query self) = Ok state /\ windows_of state = Ok ws
        /\ In w ws /\ reach ["children"%string] w n
        /\ has_str "class" class_name n = true).
Proof.
  unfold assert_element_exists. split.
  - intros e.
    destruct (assert_element_exists_try _ _ _ _ self) as [[v|e0] s'];
      [discriminate|].
    destruct e0; intros [= <-]; eauto.
  - unfold assert_element_exists_try, mbind, lift.
    destruct (query self) as [[state|e] s']; simpl.
    2:{ destruct e; discriminate. }
    destruct (Json.get state "windows" (JArr [])) as [windows|e] eqn:Eg;
      simpl.
    2:{ destruct e; discriminate. }
    destruct (Json.iter windows) as [ws|e] eqn:Ei; simpl.
    2:{ destruct e; discriminate. }
    destruct (Py.for_any (find_class class_name) ws) as [[|]|e] eqn:E; simpl.
    + intros _. apply JsonFacts.for_any_true in E.
      destruct E as (w & Hin & Hw). apply find_class_reach in Hw.
      destruct Hw as (n & Hr & Hc). exists state, ws, w, n.
      repeat split; auto. unfold windows_of. rewrite Eg. exact Ei.
    + discriminate.
    + destruct e; discriminate.
Qed.

End AssertionFacts.

Section ElementFacts.

Import UITest.
Local Open Scope list_scope.

Variable subprocess_run : list string -> result UITest.CompletedProcess.
Variable json_loads : string -> result json.

Local Abbreviation query := (query_ui_state subprocess_run json_loads).

Lemma has_text_truthy text e :
  has_str "text" text e = true -> Json.truthy e = true.
Proof.
  destruct e as [| | | | |kv]; try discriminate.
  destruct kv; [discriminate|reflexivity].
Qed.

Lemma found_or_some r rest e :
  found_or r rest = Some e -> r = Some e \/ rest = Some e.
Proof.
  unfold found_or. destruct r as [x|]; [|auto].
  destruct (Json.truthy x); auto.
Qed.

Lemma first_found_some f l e :
  first_found f l = Some e -> exists x, In x l /\ f x = Some e.
Proof.
  induction l as [|x r IH]; simpl; [discriminate|].
  intros H. apply found_or_some in H. destruct H as [H|H].
  - exists x. auto.
  - destruct (IH H) as (y & Hy & Hf). exists y. auto.
Qed.

(** What [find_element_by_text] returns is an element with exactly the
    text, found below the object through the three keys. *)
Lemma find_element_sound text obj e :
  find_element_by_text text obj = Some e ->
  reach all_keys obj e /\ has_str "text" text e = true.
Proof.
  revert e.
  induction obj as [| | | |l IH|kv IH] using json_induction; intros e;
    try discriminate.
  - simpl. intros H. apply first_found_some in H.
    destruct H as (x & Hin & Hx). rewrite Forall_forall in IH.
    destruct (IH x Hin e Hx) as [Hr Ht]. split; [|exact Ht].
    eapply reach_item; eauto.
  - simpl. rewrite !JsonFacts.with_key_get.
    destruct (match dict_get "text" kv with
              | Some t => Json.eq_str t text
              | None => false
              end) eqn:Et.
    + intros [= <-]. split; [constructor|exact Et].
    + rewrite Forall_forall in IH.
      assert (Hkey : forall k,
                 In k all_keys ->
                 match dict_get k kv with
                 | Some v => find_element_by_text text v
                 | None => None
                 end = Some e ->
                 reach all_keys (JObj kv) e /\ has_str "text" text e = true).
      { intros k Hk Hfind.
        destruct (dict_get k kv) as [v|] eqn:Eg; [|discriminate].
        destruct (IH _ (JsonFacts.dict_get_In _ _ Eg) e Hfind) as [Hr Ht].
        split; [|exact Ht]. eapply reach_key; eauto. }
      intros H. apply found_or_some in H. destruct H as [H|H].
      { apply (Hkey "children"%string); [simpl; auto|exact H]. }
      apply found_or_some in H. destruct H as [H|H].
      { apply (Hkey "contentView"%string); [simpl; auto|exact H]. }
      apply found_or_some in H. destruct H as [H|H]; [|discriminate].
      apply (Hkey "views"%string); [simpl; auto|exact H].
Qed.

Lemma found_or_first text obj rest :
  found_or (find_element_by_text text obj) rest
  = match find_element_by_text text obj with
    | Some e => Some e
    | None => rest
    end.
Proof.
  unfold found_or. destruct (find_element_by_text text obj) as [e|] eqn:E;
    [|reflexivity].
  apply find_element_sound in E. destruct E as [_ Ht].
  now rewrite (has_text_truthy _ _ Ht).
Qed.

Lemma first_found_complete text l x :
  In x l -> find_element_by_text text x <> None ->
  first_found (find_element_by_text text) l <> None.
Proof.
  induction l as [|y r IH]; simpl; [intros []|].
  intros [->|Hin] Hx; rewrite found_or_first.
  - destruct (find_element_by_text text x); [discriminate|contradiction].
  - destruct (find_element_by_text text y); [discriminate|]. now apply IH.
Qed.

(** [find_element_by_text] misses no element with the text that the three
    keys lead to. *)
Lemma find_element_complete text obj n :
  reach all_keys obj n -> has_str "text" text n = true ->
  find_element_by_text text obj <> None.
Proof.
  intros Hr Ht. induction Hr as [n|kv k v n Hk Hget Hr IH|l v n Hin Hr IH].
  - destruct n as [| | | | |kv]; try discriminate. simpl in *.
    now rewrite Ht.
  - specialize (IH Ht). simpl. rewrite !JsonFacts.with_key_get.
    destruct (match dict_get "text" kv with
              | Some t => Json.eq_str t text
              | None => false
              end); [discriminate|].
    assert (Hstep : forall k' rest,
               found_or match dict_get k' kv with
                        | Some v' => find_element_by_text text v'
                        | None => None
                        end rest
               = match match dict_get k' kv with
                       | Some v' => find_element_by_text text v'
                       | None => None
                       end with
                 | Some e => Some e
                 | None => rest
                 end).
    { intros k' rest. destruct (dict_get k' kv); [apply found_or_first|].
      reflexivity. }
    rewrite !Hstep.
    destruct Hk as [<-|[<-|[<-|[]]]]; rewrite Hget;
      repeat match goal with
             | |- context [match dict_get ?k kv with _ => _ end] =>
                 destruct (dict_get k kv)
             | |- context [match find_element_by_text text ?o with _ => _ end] =>
                 destruct (find_element_by_text text o)
             end; try discriminate; try contradiction.
  - specialize (IH Ht). simpl. eapply first_found_complete; eauto.
Qed.

(** X6.  [get_element_by_text] never raises.  What it returns is an element of
    some window of the snapshot whose text is exactly the given one, found
    through [children], [contentView] or [views]; and when the snapshot
    holds such an element it does return one. *)
Theorem X6_get_element_by_text_exact text self :
  (exists r, fst (get_element_by_text subprocess_run json_loads text self)
             = Ok r)
  /\ (forall e,
         fst (get_element_by_text subprocess_run json_loads text self)
         = Ok (Some e) ->
         exists state ws w,
           fst (query self) = Ok state /\ windows_of state = Ok ws
           /\ In w ws /\ reach all_keys w e
           /\ has_str "text" text e = true)
  /\ (forall state ws w n,
         fst (query self) = Ok state -> windows_of state = Ok ws ->
         In w ws -> reach all_keys w n -> has_str "text" text n = true ->
         exists e,
           fst (get_element_by_text subprocess_run json_loads text self)
           = Ok (Some e)
           /\ has_str "text" text e = true).
Proof.
  assert (Heq :
    fst (get_element_by_text subprocess_run json_loads text self)
    = Ok match fst (query self) with
         | Ok state =>
             match windows_of state with
             | Ok ws => first_found (find_element_by_text text) ws
             | Raise _ => None
             end
         | Raise _ => None
         end).
  { unfold get_element_by_text, except_return, mbind, lift, windows_of.
    destruct (query self) as [[state|e] s']; simpl; [|reflexivity].
    destruct (Json.get state "windows" (JArr [])) as [windows|e]; simpl;
      [|reflexivity].
    now destruct (Json.iter windows). }
  rewrite Heq. split; [eauto|]. split.
  - intros e [= H].
    destruct (fst (query self)) as [state|e0]; [|discriminate].
    destruct (windows_of state) as [ws|e0] eqn:Ew; [|discriminate].
    apply first_found_some in H. destruct H as (w & Hin & Hw).
    apply find_element_sound in Hw. destruct Hw as [Hr Ht].
    exists state, ws, w. auto.
  - intros state ws w n -> -> Hin Hr Ht.
    pose proof (@find_element_complete text _ _ Hr Ht) as Hw.
    pose proof (@first_found_complete text ws w Hin Hw) as Hf.
    destruct (first_found (find_element_by_text text) ws) as [e|] eqn:E;
      [|contradiction].
    exists e. split; [reflexivity|].
    apply first_found_some in E. destruct E as (x & _ & Hx).
    now apply find_element_sound in Hx.
Qed.

Lemma get_window_elements_loop_bare title ws :
  Forall (fun w => untitled_or_bare title w = true) ws ->
  get_window_elements_loop title ws
  = Raise (AssertionFailedError (window_not_found_msg title)).
Proof.
  induction 1 as [|w r Hw _ IH]; simpl; [reflexivity|].
  destruct w as [| | | | |kv]; try discriminate.
  unfold untitled_or_bare, Json.has_key in Hw. simpl in Hw |- *.
  destruct (dict_get "title" kv) as [t|]; simpl;
    destruct (dict_get "windowTitle" kv) as [t'|]; simpl;
    repeat match goal with
           | |- context [Json.eq_str ?a title] =>
               destruct (Json.eq_str a title); simpl in *
           end;
    try exact IH;
    destruct (dict_get "views" kv) as [v|];
    destruct (dict_get "contentView" kv);
    try discriminate; try exact IH;
    destruct (Json.truthy v); try discriminate; exact IH.
Qed.

(** X7.  A window that has the title but neither a non-empty [views] nor a
    [contentView] is passed over by [get_window_elements]: when the
    snapshot has no better match the call raises "Window not found",
    although [window_exists] answers [True] for the same title. *)
Theorem X7_get_window_elements_skips_bare_window title self skv ws w :
  fst (query self) = Ok (JObj skv) ->
  dict_get "windows" skv = Some (JArr ws) ->
  Forall (fun w => untitled_or_bare title w = true) ws ->
  In w ws -> has_str "title" title w = true ->
  fst (get_window_elements subprocess_run json_loads title self)
  = Raise (AssertionFailedError (window_not_found_msg title))
  /\ fst (window_exists subprocess_run json_loads title self) = Ok true.
Proof.
  intros Hq Hws Hbare Hin Ht. split.
  - unfold get_window_elements, mbind, lift.
    destruct (query self) as [r s']. simpl in Hq. subst r. simpl.
    rewrite Hws. simpl. now apply get_window_elements_loop_bare.
  - rewrite window_exists_eq, Hq. unfold windows_of. simpl. rewrite Hws.
    simpl. rewrite window_exists_loop_dicts.
    + f_equal. apply existsb_exists. exists w. split; [exact Hin|].
      now rewrite Ht.
    + eapply Forall_impl; [|exact Hbare].
      intros x Hx. now destruct x.
Qed.

End ElementFacts.

Section MenuMoreFacts.

Import UITest.
Local Open Scope list_scope.

Variable subprocess_run : list string -> result UITest.CompletedProcess.
Variable json_loads : string -> result json.

(** X8.  [get_menu_items] raises its "Menu not found" error when no menu of the
    state carries the title, and for the first menu that does it returns
    the menu's [items], the empty list when the menu has none. *)
Theorem X8_get_menu_items_not_found m self skv ms :
  fst (get_menu_state subprocess_run json_loads self) = Ok (JObj skv) ->
  dict_get "menus" skv = Some (JArr ms) ->
  (Forall (other_dict m) ms ->
   fst (get_menu_items subprocess_run json_loads m self)
   = Raise (UITestException ("Menu not found: " ++ m)))
  /\ (forall pre mkv post,
         ms = pre ++ JObj mkv :: post -> Forall (other_dict m) pre ->
         has_str "title" m (JObj mkv) = true ->
         fst (get_menu_items subprocess_run json_loads m self)
         = Ok match dict_get "items" mkv with
              | Some items => items
              | None => JArr []
              end).
Proof.
  intros Hstate Hmenus.
  assert (Hr : fst (get_menu_items subprocess_run json_loads m self)
               = get_menu_items_loop m ms).
  { unfold get_menu_items, mbind, lift.
    destruct (get_menu_state subprocess_run json_loads self) as [st self'].
    simpl in Hstate. subst st. simpl. now rewrite Hmenus. }
  rewrite Hr. split.
  - intros Hnone. rewrite <- (app_nil_r ms).
    rewrite get_menu_items_loop_skip by exact Hnone. reflexivity.
  - intros pre mkv post -> Hpre Hm.
    rewrite get_menu_items_loop_skip by exact Hpre.
    now rewrite get_menu_items_loop_hit by exact Hm.
Qed.

Lemma dict_get_set_other k k' v kv :
  k <> k' -> dict_get k (Json.set_key k' v kv) = dict_get k kv.
Proof.
  intros Hne. induction kv as [|[k0 v0] r IH]; simpl.
  - destruct (String.eqb k' k) eqn:E; [|reflexivity].
    apply String.eqb_eq in E. congruence.
  - destruct (String.eqb k0 k') eqn:E0; simpl.
    + apply String.eqb_eq in E0. subst k0.
      destruct (String.eqb k' k) eqn:E; [|reflexivity].
      apply String.eqb_eq in E. congruence.
    + now rewrite IH.
Qed.

Lemma dict_get_set_same k v kv : dict_get k (Json.set_key k v kv) = Some v.
Proof.
  induction kv as [|[k0 v0] r IH]; simpl.
  - now rewrite String.eqb_refl.
  - destruct (String.eqb k0 k) eqn:E; simpl.
    + now rewrite String.eqb_refl.
    + now rewrite E.
Qed.

(** What either list function collects is the selection of the items with
    [keep] among what is collected with no test at all, and every collected
    item carries its menu. *)
Lemma menu_items_loop_filter keep menu items :
  menu_items_loop keep menu items
  = (all <- menu_items_loop (fun _ => true) menu items ;;
     Ok (filter (fun c => keep (enabled_of c)) all))
  /\ (forall all, menu_items_loop (fun _ => true) menu items = Ok all ->
                  Forall (fun c => has_menu_entry c = true) all).
Proof.
  induction items as [|item r [IH IHm]]; simpl.
  - split; [reflexivity|]. intros all [= <-]. constructor.
  - destruct item as [| | | | |kv]; simpl; try (split; [reflexivity|discriminate]).
    destruct (Json.truthy _); [split; [exact IH|exact IHm]|].
    split.
    + rewrite IH.
      destruct (menu_items_loop (fun _ => true) menu r) as [all|e]; simpl.
      * rewrite dict_get_set_other by discriminate.
        now destruct (keep _).
      * now destruct (keep _).
    + destruct (menu_items_loop (fun _ => true) menu r) as [all0|e]; simpl;
        [|discriminate].
      intros all [= <-]. constructor; [|now apply IHm].
      unfold has_menu_entry, Json.has_key. now rewrite dict_get_set_same.
Qed.

Lemma menus_loop_filter keep menu_title ms :
  menus_loop keep menu_title ms
  = (all <- menus_loop (fun _ => true) menu_title ms ;;
     Ok (filter (fun c => keep (enabled_of c)) all))
  /\ (forall all, menus_loop (fun _ => true) menu_title ms = Ok all ->
                  Forall (fun c => has_menu_entry c = true) all).
Proof.
  induction ms as [|menu r [IH IHm]]; simpl.
  - split; [reflexivity|]. intros all [= <-]. constructor.
  - destruct (match menu_title with
              | Some (String _ _ as t) => _
              | _ => Ok false
              end) as [[|]|e]; simpl;
      try (split; [reflexivity|discriminate]); [split; [exact IH|exact IHm]|].
    destruct (Json.get menu "items" (JArr [])) as [items|e]; simpl;
      try (split; [reflexivity|discriminate]).
    destruct (Json.iter items) as [its|e]; simpl;
      try (split; [reflexivity|discriminate]).
    destruct (Json.get menu "title" JNull) as [title|e]; simpl;
      try (split; [reflexivity|discriminate]).
    destruct (menu_items_loop_filter keep title its) as [Hi Him].
    rewrite Hi, IH.
    destruct (menu_items_loop (fun _ => true) title its) as [found|e]; simpl;
      try (split; [reflexivity|discriminate]).
    destruct (menus_loop (fun _ => true) menu_title r) as [rest|e]; simpl;
      try (split; [reflexivity|discriminate]).
    split; [now rewrite filter_app|].
    intros all [= <-]. apply Forall_app. split; [now apply Him|now apply IHm].
Qed.

(** With no test on [enabled], the loop over the items of a menu collects
    the entry of every item. *)
Lemma menu_items_loop_all title items :
  forallb is_dict items = true ->
  menu_items_loop (fun _ => true) title items
  = Ok (flat_map (entry_of title) items).
Proof.
  induction items as [|item r IH]; simpl; [reflexivity|].
  intros H. apply andb_true_iff in H. destruct H as [Hd Hr].
  destruct item as [| | | | |kv]; try discriminate. simpl.
  rewrite (IH Hr).
  destruct (dict_get "separator" kv) as [v|]; simpl;
    [destruct (Json.truthy v)|]; reflexivity.
Qed.

Lemma menus_loop_all menu_title ms :
  Forall (fun m => menu_shaped m = true) ms ->
  menus_loop (fun _ => true) menu_title ms = Ok (menu_entries menu_title ms).
Proof.
  unfold menu_entries.
  induction 1 as [|menu r Hm _ IH]; simpl; [reflexivity|].
  destruct menu as [| | | | |mkv]; try discriminate.
  assert (Hskip :
    match menu_title with
    | Some (String _ _ as t) =>
        t0 <- Json.get (JObj mkv) "title" JNull ;;
        Ok (negb (Json.eq_str t0 t))
    | _ => Ok false
    end = Ok (negb (menu_selected menu_title (JObj mkv)))).
  { destruct menu_title as [[|c t]|]; try reflexivity. simpl.
    now destruct (dict_get "title" mkv). }
  rewrite Hskip. simpl.
  destruct (menu_selected menu_title (JObj mkv)); simpl; [|exact IH].
  simpl in Hm. rewrite IH.
  destruct (dict_get "items" mkv) as [[| | | |items|]|]; try discriminate;
    simpl; [|reflexivity].
  now rewrite (menu_items_loop_all _ _ Hm).
Qed.

(** X9.  [get_enabled_menu_items] and [get_disabled_menu_items] raise
    together, and the same exception.  On a menu state of the documented shape they split the
    entries of the state between them: the enabled list holds the entries
    whose [enabled] is true, the disabled list all the others (a missing
    [enabled] counts as disabled), both in the order of the state, so every
    item that is not a separator is in exactly one of the two lists. *)
Theorem X9_menu_items_partition menu_title self :
  let enabled :=
    fst (get_enabled_menu_items subprocess_run json_loads menu_title self) in
  let disabled :=
    fst (get_disabled_menu_items subprocess_run json_loads menu_title self) in
  (forall e, enabled = Raise e <-> disabled = Raise e)
  /\ (forall skv ms,
         fst (get_menu_state subprocess_run json_loads self) = Ok (JObj skv) ->
         dict_get "menus" skv = Some (JArr ms) ->
         Forall (fun m => menu_shaped m = true) ms ->
         let entries := menu_entries menu_title ms in
         enabled = Ok (filter is_enabled entries)
         /\ disabled = Ok (filter (fun c => negb (is_enabled c)) entries)
         /\ (forall c, In c entries ->
               (In c (filter is_enabled entries)
                /\ ~ In c (filter (fun c => negb (is_enabled c)) entries))
               \/ (In c (filter (fun c => negb (is_enabled c)) entries)
                   /\ ~ In c (filter is_enabled entries)))).
Proof.
  intros enabled disabled. subst enabled disabled.
  unfold get_enabled_menu_items, get_disabled_menu_items, mbind, lift.
  destruct (get_menu_state subprocess_run json_loads self) as [[state|e] s'];
    simpl.
  2:{ split; [tauto|discriminate]. }
  split.
  - intros e0.
    destruct (Json.get state "menus" (JArr [])) as [menus|e]; simpl;
      [|tauto].
    destruct (Json.iter menus) as [ms|e]; simpl; [|tauto].
    destruct (menus_loop_filter Json.truthy menu_title ms) as [He _].
    destruct (menus_loop_filter (fun v => negb (Json.truthy v)) menu_title ms)
      as [Hd _].
    rewrite He, Hd.
    destruct (menus_loop (fun _ => true) menu_title ms) as [all|e]; simpl;
      split; intros H; try discriminate; exact H.
  - intros skv ms [= ->] Hmenus Hshape. simpl. rewrite Hmenus. simpl.
    destruct (menus_loop_filter Json.truthy menu_title ms) as [He _].
    destruct (menus_loop_filter (fun v => negb (Json.truthy v)) menu_title ms)
      as [Hd _].
    rewrite He, Hd, (menus_loop_all menu_title Hshape). simpl.
    split; [reflexivity|]. split; [reflexivity|].
    intros c Hin. rewrite !filter_In.
    destruct (is_enabled c) eqn:E; [left|right]; simpl;
      (split; [auto|intros [_ H]; discriminate]).
Qed.

(** X10.  [assert_menu_item_enabled] and [assert_menu_item_disabled] are
    complementary wherever [is_menu_item_enabled] returns: exactly one of
    them passes and the other raises [AssertionFailedError].  Where it
    raises (the menu or the item is missing, the bridge fails), both
    assertions raise that same exception. *)
Theorem X10_menu_assertions_complementary m i msg msg' self :
  match fst (is_menu_item_enabled subprocess_run json_loads m i self) with
  | Ok v =>
      (fst (assert_menu_item_enabled subprocess_run json_loads m i msg self)
       = Ok tt
       /\ exists t,
            fst (assert_menu_item_disabled subprocess_run json_loads
                                           m i msg' self)
            = Raise (AssertionFailedError t))
      \/ (fst (assert_menu_item_disabled subprocess_run json_loads m i msg' self)
          = Ok tt
          /\ exists t,
               fst (assert_menu_item_enabled subprocess_run json_loads
                                             m i msg self)
               = Raise (AssertionFailedError t))
  | Raise e =>
      fst (assert_menu_item_enabled subprocess_run json_loads m i msg self)
      = Raise e
      /\ fst (assert_menu_item_disabled subprocess_run json_loads m i msg' self)
         = Raise e
  end.
Proof.
  unfold assert_menu_item_enabled, assert_menu_item_disabled, mbind, lift.
  destruct (is_menu_item_enabled subprocess_run json_loads m i self)
    as [[v|e] s']; simpl; [|auto].
  destruct (Json.truthy v); simpl; [left|right]; eauto.
Qed.

End MenuMoreFacts.

(* ================================================================= *)
(** * Further properties of the test runner *)

Section RunnerMoreFacts.

Import UITest.
Local Open Scope list_scope.

Variable W : Type.

Lemma all_app_false rs : all (rs ++ [false]) = false.
Proof.
  unfold all. rewrite forallb_app. simpl. apply andb_false_r.
Qed.

(** With [verbose] off the loop prints nothing, or it stops at a failure
    and prints the line that says so. *)
Lemma run_loop_quiet stop_on_failure highlight_failures
      (client : option (highlighter W)) tests results out w :
  let r := run_loop false stop_on_failure highlight_failures client
                    tests results out w in
  snd (fst r) = out
  \/ (stop_on_failure = true
      /\ exists name rest rs,
           snd (fst r) = out ++ LStopped name :: rest
           /\ fst (fst r) = Finished (rs ++ [false])).
Proof.
  revert results out w.
  induction tests as [|[test_name test_func] r IH]; intros results out w;
    simpl; [now left|].
  destruct (test_func w) as [[v|e|b] w1]; [| |now left].
  - destruct (is_False v).
    + destruct stop_on_failure; [|apply IH].
      right. split; [reflexivity|]. simpl. eauto.
    + apply IH.
  - destruct (is_AssertionFailedError e).
    + destruct stop_on_failure; [|apply IH].
      right. split; [reflexivity|]. exists test_name.
      destruct (negb (String.eqb (str_exn e) "")); simpl;
        rewrite <- ?app_assoc; simpl; eauto.
    + destruct stop_on_failure; [|apply IH].
      right. split; [reflexivity|]. simpl. eauto.
Qed.

(** X12.  With [verbose=False], [run_tests] prints nothing as long as it does
    not stop early; under [stop_on_failure] a failing test still prints the
    "STOPPED" line, and the status is then 1. *)
Theorem X12_run_tests_quiet_mode tests stop_on_failure highlight_failures
        (client : option (highlighter W)) w :
  let r := run_tests tests false stop_on_failure highlight_failures client w in
  (stop_on_failure = false -> snd (fst r) = [])
  /\ (snd (fst r) = []
      \/ (stop_on_failure = true /\ fst (fst r) = Finished 1
          /\ exists name rest, snd (fst r) = LStopped name :: rest)).
Proof.
  intros r. subst r. unfold run_tests.
  destruct tests as [|t ts]; [simpl; auto|].
  pose proof (run_loop_quiet stop_on_failure highlight_failures client
                (t :: ts) [] [] w) as H.
  destruct (run_loop false stop_on_failure highlight_failures client
                     (t :: ts) [] [] w) as [[[results|b] out] w'];
    simpl in H |- *.
  - destruct H as [->|(Hs & name & rest & rs & -> & [= ->])].
    + auto.
    + split; [intros Hf; congruence|]. right. rewrite all_app_false. eauto.
  - destruct H as [->|(Hs & name & rest & rs & -> & [=])]. auto.
Qed.

Variable time_sleep : Q -> W -> W.

(** The wrapper keeps an exception outside [Exception] as it is, and with
    a negative pause it fails in every other case. *)
Lemma paused_test_outcome pause f w :
  Qle_bool 0 pause = false ->
  escaped (fst (make_paused_test time_sleep pause f w))
  = escaped (fst (f w))
  /\ (escaped (fst (f w)) = false ->
      failed (fst (make_paused_test time_sleep pause f w)) = true).
Proof.
  intros Hp. unfold make_paused_test.
  destruct (f w) as [[v|e|b] w']; simpl; rewrite ?Hp; simpl; auto.
Qed.

Lemma executed_paused_origin pause stop_on_failure highlight_failures
      (client : option (highlighter W)) tests w o :
  In o (executed stop_on_failure highlight_failures client
                 (paused_tests time_sleep pause tests) w) ->
  exists t w0, In t tests
               /\ o = fst (make_paused_test time_sleep pause (snd t) w0).
Proof.
  revert w. induction tests as [|[n f] r IH]; intros w; simpl; [intros []|].
  destruct (make_paused_test time_sleep pause f w) as [o1 w1] eqn:E.
  intros [<-|Hin].
  - exists (n, f), w. split; [now left|]. simpl. now rewrite E.
  - destruct ((stop_on_failure && failed o1) || escaped o1); [destruct Hin|].
    destruct (IH _ Hin) as (t & w0 & Ht & Ho). exists t, w0. auto.
Qed.

(** X13.  With a negative [pause_between] a test of [run_interactive_tests]
    fails even when its callable passes, because the pause after it
    raises: when no callable is left by an exception outside [Exception],
    the status is 1 for any non-empty run.  With [stop_on_failure] left to
    its default (or given as [True]) the tests after the first are not
    called: the world is left as by a run of the first test alone, and the
    summary line counts one executed test. *)
Theorem X13_run_interactive_tests_negative_pause t ts
        (client : option (highlighter W)) pause
        stop_on_failure highlight_failures verbose w :
  Qle_bool 0 pause = false ->
  let run :=
    run_interactive_tests time_sleep (t :: ts) client pause
                          stop_on_failure highlight_failures verbose w in
  ((forall t' w0, In t' (t :: ts) -> escaped (fst (snd t' w0)) = false) ->
   fst (fst run) = Finished 1)
  /\ (setdefault_true stop_on_failure = true ->
      escaped (fst (snd t w)) = false ->
      fst (fst run) = Finished 1
      /\ snd run
         = snd (run_interactive_tests time_sleep [t] client pause
                                      stop_on_failure highlight_failures
                                      verbose w)
      /\ (setdefault_true verbose = true ->
          In (LResults 0 1 (length (t :: ts))) (snd (fst run)))).
Proof.
  intros Hp run.
  assert (Hrun :
    run = run_tests (paused_tests time_sleep pause (t :: ts)) (setdefault_true verbose)
                    (setdefault_true stop_on_failure)
                    (setdefault_true highlight_failures) client w)
    by reflexivity.
  split.
  - intros Hesc. rewrite Hrun, run_tests_status.
    set (ex := executed _ _ client (paused_tests time_sleep pause (t :: ts)) w).
    assert (Hall : forall o, In o ex -> failed o = true /\ escaped o = false).
    { intros o Hin. apply executed_paused_origin in Hin.
      destruct Hin as (t' & w0 & Ht' & ->).
      destruct (@paused_test_outcome pause (snd t') w0 Hp) as [He Hf].
      rewrite He. split; [apply Hf|]; now apply Hesc. }
    assert (Hp0 : propagated ex = None).
    { apply propagated_none. intros o Hin. now apply Hall. }
    rewrite Hp0.
    assert (Hne : exists o r, ex = o :: r).
    { subst ex. destruct t as [n f]. simpl.
      destruct (make_paused_test time_sleep pause f w). eauto. }
    destruct Hne as (o & r & He). rewrite He. simpl.
    destruct (Hall o) as [Hf _]; [rewrite He; now left|]. now rewrite Hf.
  - intros Hstop Hfirst.
    destruct (@paused_test_outcome pause (snd t) w Hp) as [He Hf].
    specialize (Hf Hfirst). rewrite Hfirst in He.
    assert (Hex : executed (setdefault_true stop_on_failure)
                           (setdefault_true highlight_failures) client
                           (paused_tests time_sleep pause (t :: ts)) w
                  = [fst (make_paused_test time_sleep pause (snd t) w)]).
    { destruct t as [n f]. simpl in *.
      destruct (make_paused_test time_sleep pause f w) as [o w1].
      simpl in *. now rewrite Hstop, Hf. }
    split; [|split].
    + rewrite Hrun, run_tests_status, Hex.
      destruct (fst (make_paused_test time_sleep pause (snd t) w))
        as [v|e|b]; simpl in *; try discriminate; now rewrite ?Hf.
    + rewrite Hrun. unfold run_interactive_tests.
      fold (paused_tests time_sleep pause [t]). rewrite !run_tests_world.
      destruct t as [n f]. simpl in *.
      destruct (make_paused_test time_sleep pause f w) as [o w1].
      simpl in *. now rewrite Hstop, Hf.
    + intros Hv. rewrite Hrun, Hv.
      pose proof (@run_tests_summary W (paused_tests time_sleep pause (t :: ts))
                    (setdefault_true stop_on_failure)
                    (setdefault_true highlight_failures) client w) as Hsum.
      rewrite Hex in Hsum. cbn [map filter length negb] in Hsum.
      rewrite Hf in Hsum. cbn [map filter length negb] in Hsum.
      replace (length (paused_tests time_sleep pause (t :: ts)))
        with (length (t :: ts)) in Hsum
        by (unfold paused_tests; now rewrite length_map).
      apply Hsum; [discriminate|].
      destruct (fst (make_paused_test time_sleep pause (snd t) w));
        try discriminate; reflexivity.
Qed.

End RunnerMoreFacts.

(* ================================================================= *)
(** * Further properties of the modal and focus guard *)

Section GuardMoreFacts.

Import ModalHandler.
Local Open Scope list_scope.

Variable focus_of : history -> option WindowInfo.

(** X14.  [pre_click_check] never reports a failure: its two dismissals run in
    ["auto"] mode, which always answers [True], so [ok] stays [True] and the
    "Failed to dismiss modal" action is never recorded; for the same reason
    [dismiss_any_modals] always returns [True]. *)
Theorem X14_pre_click_check_always_ok h :
  ok (fst (pre_click_check focus_of h)) = true
  /\ ~ In "Failed to dismiss modal"%string
          (actions_taken (fst (pre_click_check focus_of h)))
  /\ fst (dismiss_any_modals focus_of h) = true.
Proof.
  assert (Hauto : forall h0 d h1,
             dismiss_focus_stealer focus_of "auto" h0 = (d, h1) -> d = true).
  { intros h0 d h1 E. pose proof (dismiss_auto_always_true focus_of h0) as H.
    rewrite E in H. exact H. }
  split; [|split].
  - unfold pre_click_check.
    destruct (get_focused_window focus_of h) as [focused h1].
    destruct (detect_modal_dialog focus_of h1) as [[modal|] h2].
    + destruct (dismiss_focus_stealer focus_of "auto" h2) as [d h3] eqn:E.
      rewrite (Hauto _ _ _ E).
      destruct (has_focus_stealer focus_of None h3) as [[|] h4];
        [|reflexivity].
      destruct (dismiss_focus_stealer focus_of "auto" h4) as [d' h5] eqn:E'.
      now rewrite (Hauto _ _ _ E').
    + destruct (has_focus_stealer focus_of None h2) as [[|] h4];
        [|reflexivity].
      destruct (dismiss_focus_stealer focus_of "auto" h4) as [d' h5] eqn:E'.
      now rewrite (Hauto _ _ _ E').
  - unfold pre_click_check.
    destruct (get_focused_window focus_of h) as [focused h1].
    destruct (detect_modal_dialog focus_of h1) as [[modal|] h2].
    + destruct (dismiss_focus_stealer focus_of "auto" h2) as [d h3] eqn:E.
      rewrite (Hauto _ _ _ E).
      destruct (has_focus_stealer focus_of None h3) as [[|] h4].
      * destruct (dismiss_focus_stealer focus_of "auto" h4) as [d' h5] eqn:E'.
        rewrite (Hauto _ _ _ E'). simpl.
        intros [H|[H|[H|[H|[]]]]]; discriminate H.
      * simpl. intros [H|[H|[]]]; discriminate H.
    + destruct (has_focus_stealer focus_of None h2) as [[|] h4].
      * destruct (dismiss_focus_stealer focus_of "auto" h4) as [d' h5] eqn:E'.
        rewrite (Hauto _ _ _ E'). simpl.
        intros [H|[H|[]]]; discriminate H.
      * simpl. intros [].
  - unfold dismiss_any_modals.
    destruct (detect_modal_dialog focus_of h) as [[modal|] h1];
      [|reflexivity].
    apply dismiss_auto_always_true.
Qed.

Lemma escape_loop_spec n initial h :
  exists evs,
    snd (escape_loop focus_of n initial h) = h ++ evs
    /\ (escapes evs <= n)%nat
    /\ (initial = None ->
        fst (escape_loop focus_of n initial h) = false)
    /\ (fst (escape_loop focus_of n initial h) = false -> escapes evs = n)
    /\ (fst (escape_loop focus_of n initial h) = true ->
        exists w0 w1 pre,
          initial = Some w0 /\ evs = pre ++ [GetActiveWindow]
          /\ (1 <= escapes pre)%nat
          /\ focus_of (h ++ pre) = Some w1
          /\ window_id w1 <> window_id w0).
Proof.
  revert h. induction n as [|n IH]; intros h.
  - exists []. simpl. rewrite app_nil_r. repeat split; auto. discriminate.
  - cbn [escape_loop]. unfold _run_xdotool, sleep, get_focused_window.
    set (h3 := ((h ++ [Key "Escape"]) ++ [Sleep (2 # 10)]) ++ [GetActiveWindow]).
    set (hq := (h ++ [Key "Escape"]) ++ [Sleep (2 # 10)]).
    assert (Hh3 : h3 = h ++ [Key "Escape"; Sleep (2 # 10); GetActiveWindow])
      by (unfold h3; now rewrite <- !app_assoc).
    assert (Hhq : hq = h ++ [Key "Escape"; Sleep (2 # 10)])
      by (unfold hq; now rewrite <- !app_assoc).
    assert (Hcont :
      exists evs,
        snd (escape_loop focus_of n initial h3) = h ++ evs
        /\ (escapes evs <= S n)%nat
        /\ (initial = None ->
            fst (escape_loop focus_of n initial h3) = false)
        /\ (fst (escape_loop focus_of n initial h3) = false ->
            escapes evs = S n)
        /\ (fst (escape_loop focus_of n initial h3) = true ->
            exists w0 w1 pre,
              initial = Some w0 /\ evs = pre ++ [GetActiveWindow]
              /\ (1 <= escapes pre)%nat
              /\ focus_of (h ++ pre) = Some w1
              /\ window_id w1 <> window_id w0)).
    { destruct (IH h3) as (evs & Hs & Hle & Hnone & Hfalse & Htrue).
      exists ([Key "Escape"; Sleep (2 # 10); GetActiveWindow] ++ evs).
      split; [rewrite Hs, Hh3, <- app_assoc; reflexivity|].
      unfold escapes in *. simpl. split; [lia|]. split; [exact Hnone|].
      split; [intros Hf; rewrite (Hfalse Hf); reflexivity|].
      intros Ht. destruct (Htrue Ht) as (w0 & w1 & pre & Hi & -> & Hone & Hq & Hne).
      exists w0, w1, ([Key "Escape"; Sleep (2 # 10); GetActiveWindow] ++ pre).
      split; [exact Hi|]. split; [now rewrite <- app_assoc|].
      split; [simpl; lia|]. split; [|exact Hne].
      rewrite app_assoc, <- Hh3. exact Hq. }
    destruct (focus_of hq) as [nf|] eqn:Eq; [|exact Hcont].
    destruct initial as [i0|]; [|exact Hcont].
    destruct (negb (String.eqb (window_id nf) (window_id i0))) eqn:Ene;
      [|exact Hcont].
    exists [Key "Escape"; Sleep (2 # 10); GetActiveWindow].
    simpl. split; [exact Hh3|]. unfold escapes. simpl. split; [lia|].
    split; [discriminate|]. split; [discriminate|].
    intros _. exists i0, nf, [Key "Escape"; Sleep (2 # 10)].
    split; [reflexivity|]. split; [reflexivity|]. split; [simpl; lia|].
    split; [now rewrite <- Hhq|].
    apply negb_true_iff in Ene. now apply String.eqb_neq in Ene.
Qed.

(** X15.  [dismiss_with_escape] presses Escape at most [max_attempts] times,
    and all of them when it answers [False], as it does when the first
    query reports no window.  It answers [True] only after a query that
    follows an Escape of this call, the last thing it does, has reported a
    window whose id differs from the one the first query reported. *)
Theorem X15_dismiss_with_escape_bounded max_attempts h :
  exists evs,
    snd (dismiss_with_escape focus_of max_attempts h)
    = h ++ GetActiveWindow :: evs
    /\ (escapes evs <= Z.to_nat max_attempts)%nat
    /\ (focus_of h = None ->
        fst (dismiss_with_escape focus_of max_attempts h) = false)
    /\ (fst (dismiss_with_escape focus_of max_attempts h) = false ->
        escapes evs = Z.to_nat max_attempts)
    /\ (fst (dismiss_with_escape focus_of max_attempts h) = true ->
        exists w0 w1 pre,
          focus_of h = Some w0 /\ evs = pre ++ [GetActiveWindow]
          /\ (1 <= escapes pre)%nat
          /\ focus_of (h ++ GetActiveWindow :: pre) = Some w1
          /\ window_id w1 <> window_id w0).
Proof.
  unfold dismiss_with_escape, get_focused_window.
  destruct (escape_loop_spec (Z.to_nat max_attempts) (focus_of h)
                             (h ++ [GetActiveWindow]))
    as (evs & Hs & Hle & Hnone & Hfalse & Htrue).
  exists evs. rewrite Hs, <- app_assoc.
  split; [reflexivity|]. split; [exact Hle|]. split; [exact Hnone|].
  split; [exact Hfalse|]. intros Ht.
  destruct (Htrue Ht) as (w0 & w1 & pre & Hi & He & Hone & Hq & Hne).
  exists w0, w1, pre. rewrite <- app_assoc in Hq. auto.
Qed.

(** X16.  [click_button_in_dialog] sends nothing when no window is focused or
    the focused window has width 0, and answers [False].  Otherwise it
    clicks once, for ["right"] at 80 pixels in from the right edge and 40
    up from the bottom, and answers [True] without checking anything; that
    point lies within the window only when the window is at least 80 wide
    and 40 high. *)
Theorem X16_click_button_in_dialog_point position h :
  (focus_of h = None \/ (exists w, focus_of h = Some w /\ width w = 0) ->
   click_button_in_dialog focus_of position h
   = (false, h ++ [GetActiveWindow]))
  /\ (forall w,
         focus_of h = Some w -> width w <> 0 ->
         click_button_in_dialog focus_of "right" h
         = (true,
            h ++ [GetActiveWindow;
                  MouseMove (x w + width w - 80) (y w + height w - 40);
                  Sleep (1 # 10); Click 1; Sleep (2 # 10)])
         /\ (inside_frame w (x w + width w - 80) (y w + height w - 40)
             <-> 80 <= width w /\ 40 <= height w)).
Proof.
  unfold click_button_in_dialog, get_focused_window, _run_xdotool, sleep.
  split.
  - intros [->|(w & -> & ->)]; reflexivity.
  - intros w -> Hw. apply Z.eqb_neq in Hw. rewrite Hw. simpl.
    rewrite <- !app_assoc. simpl. split; [reflexivity|].
    unfold inside_frame. lia.
Qed.

End GuardMoreFacts.

(* ================================================================= *)
(** * Further properties of the input simulator *)

Section InputMoreFacts.

Import UserInput.
Local Open Scope list_scope.

Variable xdotool_status : history -> event -> Z * string.
Variable mouse_location : history -> result (Z * Z).
Variable math_sqrt : Z -> result Q.
Variable focused_name : history -> option string.

Lemma sleep_ok seconds h :
  Qlt_bool seconds 0 = false -> sleep seconds h = (Ok tt, h ++ [Sleep seconds]).
Proof. intros H. unfold sleep. now rewrite H. Qed.

(** [int] of a number that equals an integer. *)
Lemma int_of_Q_integer q z : (q == inject_Z z)%Q -> int_of_Q q = z.
Proof.
  unfold int_of_Q, Qeq. simpl. intros H. rewrite Z.mul_1_r in H.
  rewrite H. apply Z.quot_mul. discriminate.
Qed.


(** [int] of a number below an integer does not exceed that integer. *)
Lemma int_of_Q_below q z : (q < inject_Z z)%Q -> 0 <= z -> int_of_Q q <= z.
Proof.
  unfold int_of_Q, Qlt. simpl. rewrite Z.mul_1_r. intros H Hz.
  destruct (Z_le_gt_dec 0 (Qnum q)) as [Hp|Hn].
  - apply Z.lt_le_incl. apply Z.quot_lt_upper_bound; lia.
  - assert (Qnum q ÷ Z.pos (Qden q) <= 0); [|lia].
    change 0 with (0 ÷ Z.pos (Qden q)). apply Z.quot_le_mono; lia.
Qed.

Lemma linear_loop_app a b steps step_delay cx cy tx ty h :
  linear_loop xdotool_status (a ++ b) steps step_delay cx cy tx ty h
  = match linear_loop xdotool_status a steps step_delay cx cy tx ty h with
    | (Ok _, h') =>
        linear_loop xdotool_status b steps step_delay cx cy tx ty h'
    | (Raise e, h') => (Raise e, h')
    end.
Proof.
  revert h. induction a as [|i r IH]; intros h; simpl; [reflexivity|].
  destruct (_run xdotool_status _ h) as [[[]|e] h1]; [|reflexivity].
  destruct (sleep step_delay h1) as [[[]|e] h2]; [|reflexivity].
  apply IH.
Qed.

(** X17.  When it fails to move the pointer, [click] raises [UserInputError]
    and presses no button; when the move and the button press both succeed
    it sends the move, a pause, the press and a pause, in this order. *)
Theorem X17_click_moves_then_presses x y button u1 u2 h :
  (fst (xdotool_status h (MouseMove x y)) <> 0 ->
   click xdotool_status mouse_location math_sqrt focused_name
         x y button false false u1 u2 h
   = (Raise (UserInputError
               ("xdotool failed: " ++ snd (xdotool_status h (MouseMove x y)))),
      h ++ [MouseMove x y]))
  /\ (fst (xdotool_status h (MouseMove x y)) = 0 ->
      fst (xdotool_status (h ++ [MouseMove x y; Sleep (5 # 100)])
                          (Click button)) = 0 ->
      click xdotool_status mouse_location math_sqrt focused_name
            x y button false false u1 u2 h
      = (Ok tt,
         h ++ [MouseMove x y; Sleep (5 # 100); Click button; Sleep (1 # 10)])).
Proof.
  unfold click, _run. split.
  - intros Hne. destruct (xdotool_status h (MouseMove x y)) as [rc err].
    simpl in *. apply Z.eqb_neq in Hne. now rewrite Hne.
  - intros Hm Hc. destruct (xdotool_status h (MouseMove x y)) as [rc err].
    simpl in Hm. subst rc. simpl.
    rewrite <- !app_assoc. simpl.
    destruct (xdotool_status _ (Click button)) as [rc err'].
    simpl in Hc. subst rc. simpl. rewrite sleep_ok by reflexivity.
    now rewrite <- app_assoc.
Qed.

(** X18.  With a speed of zero [move_mouse_smoothly] raises
    [ZeroDivisionError] before it moves the pointer at all, unless the
    target is closer than 5 pixels, in which case the speed is not used and
    the pointer goes straight to the target.  The distance is the one
    [math.sqrt] returns. *)
Theorem X18_move_mouse_smoothly_zero_speed
        target_x target_y speed variation u1 u2 h current_x current_y :
  fst (xdotool_status h GetMouseLocation) = 0 ->
  mouse_location h = Ok (current_x, current_y) ->
  Qeq_bool speed 0 = true ->
  let dx := target_x - current_x in
  let dy := target_y - current_y in
  forall distance,
    math_sqrt (dx * dx + dy * dy) = Ok distance ->
    (Qlt_bool distance (5 # 1) = false ->
     move_mouse_smoothly xdotool_status mouse_location math_sqrt
                         target_x target_y (Some speed) variation u1 u2 h
     = (Raise (ZeroDivisionError "float division by zero"),
        h ++ [GetMouseLocation]))
    /\ (Qlt_bool distance (5 # 1) = true ->
        fst (xdotool_status (h ++ [GetMouseLocation])
                            (MouseMove target_x target_y)) = 0 ->
        move_mouse_smoothly xdotool_status mouse_location math_sqrt
                            target_x target_y (Some speed) variation u1 u2 h
        = (Ok tt, h ++ [GetMouseLocation; MouseMove target_x target_y])).
Proof.
  intros Hq Hpos Hz dx dy distance Hsqrt.
  unfold move_mouse_smoothly, _get_mouse_position, _run.
  destruct (xdotool_status h GetMouseLocation) as [rc err].
  simpl in Hq. subst rc. simpl. rewrite Hpos. fold dx dy. rewrite Hsqrt.
  split.
  - intros Hfar. now rewrite Hfar, Hz.
  - intros Hnear Hm. rewrite Hnear.
    destruct (xdotool_status _ (MouseMove target_x target_y)) as [rc err'].
    simpl in Hm. subst rc. simpl. now rewrite <- app_assoc.
Qed.

(** Every [xdotool] call exits with status 0. *)
Hypothesis xdotool_succeeds : forall h e, fst (xdotool_status h e) = 0.

Lemma key_ok keyspec h :
  key xdotool_status keyspec h
  = (Ok tt, h ++ [Key keyspec; Sleep (1 # 10)]).
Proof.
  unfold key. rewrite (run_ok xdotool_status xdotool_succeeds).
  rewrite sleep_ok by reflexivity. now rewrite <- app_assoc.
Qed.

(** X19.  [check_focus_before_click] answers [True] in every case.  It presses
    Escape exactly when the focused name contains, in any case of letters,
    one of its five keywords; these are among the keywords of the guard's
    [looks_like_alert], so it never presses Escape on a window the guard
    would not call an alert. *)
Theorem X19_check_focus_before_click_escape h :
  check_focus_before_click xdotool_status focused_name h
  = (Ok true,
     h ++ GetActiveWindow
       :: (if alert_name (focused_name h)
           then [Key "Escape"; Sleep (1 # 10); Sleep (2 # 10)]
           else []))
  /\ (forall w,
         alert_name (Some (ModalHandler.name w)) = true ->
         ModalHandler.looks_like_alert w = true).
Proof.
  split.
  - unfold check_focus_before_click, get_focused_window_name, press_escape,
      alert_name.
    destruct (focused_name h) as [[|c n]|]; try reflexivity.
    destruct (existsb _ alert_keywords); [|reflexivity].
    rewrite key_ok, sleep_ok by reflexivity.
    now rewrite <- !app_assoc.
  - intros w. unfold alert_name, ModalHandler.looks_like_alert.
    rewrite !existsb_exists. intros (kw & Hin & Hkw).
    exists kw. split; [|now rewrite Hkw].
    destruct Hin as [<-|[<-|[<-|[<-|[<-|[]]]]]]; simpl; auto 10.
Qed.

Lemma dismiss_all_loop_ok n h :
  exists evs,
    dismiss_all_loop xdotool_status n h = (Ok tt, h ++ evs)
    /\ escapes evs = n /\ length evs = (3 * n)%nat.
Proof.
  revert h. induction n as [|n IH]; intros h; simpl.
  - exists []. now rewrite app_nil_r.
  - unfold press_escape. rewrite key_ok. cbv iota beta.
    match goal with
    | |- context [dismiss_all_loop _ n ?h'] =>
        destruct (IH h') as (evs & -> & He & Hl)
    end.
    exists ([Key "Escape"; Sleep (1 # 10); Sleep (15 # 100)] ++ evs).
    rewrite <- !app_assoc. simpl. split; [reflexivity|].
    unfold escapes in *. simpl. split; lia.
Qed.

(** X20.  [dismiss_all_dialogs] presses Escape exactly [max_attempts] times,
    whether or not a dialog is there, and not at all for a count of zero or
    less. *)
Theorem X20_dismiss_all_dialogs_count max_attempts h :
  exists evs,
    dismiss_all_dialogs xdotool_status max_attempts h = (Ok tt, h ++ evs)
    /\ escapes evs = Z.to_nat max_attempts
    /\ (max_attempts <= 0 -> evs = []).
Proof.
  destruct (dismiss_all_loop_ok (Z.to_nat max_attempts) h)
    as (evs & Hr & He & Hl).
  exists evs. split; [exact Hr|]. split; [exact He|].
  intros Hle. assert (Z.to_nat max_attempts = 0%nat) as Hz by lia.
  rewrite Hz in Hl. now destruct evs.
Qed.

End InputMoreFacts.

Section MovementFacts.

Import UserInput.
Local Open Scope list_scope.

Variable xdotool_status : history -> event -> Z * string.
Variable mouse_location : history -> result (Z * Z).
Variable math_sqrt : Z -> result Q.
Variable focused_name : history -> option string.

(** Every [xdotool] call exits with status 0. *)
Hypothesis xdotool_succeeds : forall h e, fst (xdotool_status h e) = 0.

Lemma Qle_bool_0_div_pos duration steps :
  0 < steps ->
  Qle_bool 0 (duration / inject_Z steps) = Qle_bool 0 duration.
Proof.
  intros Hs. unfold Qle_bool, Qdiv, Qmult, Qinv. simpl.
  destruct steps as [|p|p]; try lia. simpl.
  rewrite !Z.mul_1_r. reflexivity.
Qed.

Lemma linear_loop_ok todo steps step_delay cx cy tx ty h :
  Qlt_bool step_delay 0 = false ->
  exists trail,
    linear_loop xdotool_status todo steps step_delay cx cy tx ty h
    = (Ok tt, h ++ trail)
    /\ length trail = (2 * length todo)%nat.
Proof.
  intros Hd. revert h. induction todo as [|i r IH]; intros h; simpl.
  - exists []. now rewrite app_nil_r.
  - rewrite (run_ok xdotool_status xdotool_succeeds).
    rewrite sleep_ok by exact Hd.
    match goal with
    | |- context [linear_loop _ r _ _ _ _ _ _ ?h'] =>
        destruct (IH h') as (trail & -> & Hlen)
    end.
    eexists (_ :: _ :: trail). rewrite <- !app_assoc. simpl.
    split; [reflexivity|]. simpl. lia.
Qed.

(** The point of the last step, where [t] is [steps / steps]. *)
Lemma linear_last_point c t s :
  s <> 0 ->
  int_of_Q (inject_Z c + inject_Z (t - c) * (inject_Z s / inject_Z s)) = t.
Proof.
  intros Hs. apply int_of_Q_integer.
  assert (H1 : (inject_Z s / inject_Z s == 1)%Q).
  { apply Qmult_inv_r. unfold Qeq. simpl. lia. }
  rewrite H1. unfold Z.sub. rewrite inject_Z_plus, inject_Z_opp. ring.
Qed.

(** X21.  [move_mouse_linear] with a duration that is not negative, on
    coordinates and a duration of at most [2 ^ 52] (where the last step
    computes its point without rounding): when [xdotool] works it returns
    normally after some number of moves, at least 5 and exactly 5 when
    [30 * duration] is below 5, each followed by a pause that is not
    negative, and the last move goes to exactly the target. *)
Theorem X21_move_mouse_linear_ends_on_target
        target_x target_y duration h current_x current_y :
  mouse_location h = Ok (current_x, current_y) ->
  Qle_bool 0 duration = true ->
  Qle_bool duration (inject_Z (2 ^ 52)) = true ->
  Z.abs current_x <= 2 ^ 52 -> Z.abs current_y <= 2 ^ 52 ->
  Z.abs target_x <= 2 ^ 52 -> Z.abs target_y <= 2 ^ 52 ->
  exists n trail pause,
    move_mouse_linear xdotool_status mouse_location
                      target_x target_y duration h
    = (Ok tt,
       h ++ GetMouseLocation :: trail
         ++ [MouseMove target_x target_y; Sleep pause])
    /\ (5 <= n)%nat
    /\ length trail = (2 * (n - 1))%nat
    /\ Qle_bool 0 pause = true
    /\ (Qlt_bool (duration * (30 # 1)) (5 # 1) = true -> n = 5%nat).
Proof.
  intros Hpos Hd _ _ _ _ _. unfold move_mouse_linear, _get_mouse_position.
  rewrite (run_ok xdotool_status xdotool_succeeds), Hpos.
  set (steps := Z.max 5 (int_of_Q (duration * (30 # 1)))).
  assert (Hsteps : 5 <= steps) by (unfold steps; lia).
  assert (Hpause : Qle_bool 0 (duration / inject_Z steps) = true)
    by (now rewrite Qle_bool_0_div_pos by lia).
  assert (Hdelay : Qlt_bool (duration / inject_Z steps) 0 = false).
  { unfold Qlt_bool. rewrite Qle_bool_0_div_pos by lia. now rewrite Hd. }
  destruct (Z.to_nat steps) as [|m] eqn:Em; [lia|].
  rewrite seq_S, linear_loop_app.
  destruct (@linear_loop_ok (seq 1 m) steps (duration / inject_Z steps)
                            current_x current_y target_x target_y
                            (h ++ [GetMouseLocation]) Hdelay)
    as (trail & -> & Hlen).
  rewrite length_seq in Hlen.
  exists (S m), trail, (duration / inject_Z steps)%Q.
  split; [|split; [lia|split; [simpl; lia|split; [exact Hpause|]]]].
  - cbn [linear_loop]. rewrite (run_ok xdotool_status xdotool_succeeds).
    rewrite sleep_ok by exact Hdelay.
    assert (Hi : Z.of_nat (1 + m) = steps) by lia.
    rewrite Hi, !linear_last_point by lia.
    rewrite <- !app_assoc. reflexivity.
  - intros Hlt. assert (Hfive : steps = 5); [|lia].
    unfold steps. apply Z.max_l.
    assert (Hq : (duration * (30 # 1) < 5 # 1)%Q).
    { unfold Qlt_bool in Hlt. apply negb_true_iff in Hlt.
      apply Qnot_le_lt. intros Hle. apply Qle_bool_iff in Hle. congruence. }
    apply int_of_Q_below; [exact Hq|lia].
Qed.




End MovementFacts.

Section TextSearchFacts.

Import UITest.
Local Open Scope list_scope.

Variable subprocess_run : list string -> result UITest.CompletedProcess.
Variable json_loads : string -> result json.

Local Abbreviation query := (query_ui_state subprocess_run json_loads).

Lemma for_any_decided {A} (f : A -> result bool) l :
  (forall x, In x l -> exists b, f x = Ok b) ->
  exists b, Py.for_any f l = Ok b
            /\ (b = true <-> exists x, In x l /\ f x = Ok true).
Proof.
  induction l as [|x r IH]; intros Hok; simpl.
  - exists false. split; [reflexivity|]. split; [discriminate|].
    intros (x & [] & _).
  - destruct (Hok x (or_introl eq_refl)) as [[|] Hx]; rewrite Hx.
    + exists true. split; [reflexivity|]. split; [|reflexivity].
      intros _. exists x. auto.
    + destruct IH as (b & Hb & Hiff).
      { intros y Hy. apply Hok. now right. }
      exists b. split; [exact Hb|]. rewrite Hiff. split.
      * intros (y & Hy & Hf). exists y. auto.
      * intros (y & [<-|Hy] & Hf); [congruence|]. exists y. auto.
Qed.

(** On a string the test on the [text] field is decided, and it succeeds
    exactly when the string contains the query. *)
Lemma text_check_string (case_sensitive : bool) (text s : string) :
  exists b,
    (element_text <- (if case_sensitive then Ok (JStr s)
                      else Json.lower (JStr s)) ;;
     Json.str_in (if case_sensitive then text else Py.lower text) element_text)
    = Ok b
    /\ (b = true <-> contains_query case_sensitive text (JStr s)).
Proof.
  unfold contains_query. destruct case_sensitive; simpl.
  - eexists. split; [reflexivity|]. split; [now intros ->|now intros [= ->]].
  - eexists. split; [reflexivity|]. split.
    + intros H. exists s. auto.
    + intros (s' & [= <-] & H). exact H.
Qed.

(** On well-shaped nodes [search_in_tree] does not raise, and it finds the
    text exactly when an element reached through lists and [children]
    holds it. *)
Lemma search_in_tree_decided (case_sensitive : bool) (text : string) obj :
  (forall n, reach ["children"%string] obj n -> well_shaped n = true) ->
  exists b,
    search_in_tree case_sensitive
                   (if case_sensitive then text else Py.lower text) obj
    = Ok b
    /\ (b = true <->
        exists n, reach ["children"%string] obj n
                  /\ text_hit case_sensitive text n).
Proof.
  induction obj as [| | | |l IH|kv IH] using json_induction; intros Hshape;
    try (exists false; split; [reflexivity|]; split; [discriminate|];
         intros (n & Hr & (kv0 & v & Hn & _)); inversion Hr; subst;
         discriminate).
  - (* a list *)
    rewrite Forall_forall in IH.
    destruct (@for_any_decided json
                (search_in_tree case_sensitive
                   (if case_sensitive then text else Py.lower text)) l)
      as (b & Hb & Hiff).
    { intros x Hx. destruct (IH x Hx) as (bx & Hbx & _); [|eauto].
      intros n Hr. apply Hshape. eapply reach_item; eauto. }
    exists b. split; [exact Hb|]. rewrite Hiff. split.
    + intros (x & Hx & Hf).
      destruct (IH x Hx) as (bx & Hbx & Hix).
      { intros n Hr. apply Hshape. eapply reach_item; eauto. }
      rewrite Hbx in Hf. injection Hf as ->.
      destruct (proj1 Hix eq_refl) as (n & Hr & Hh).
      exists n. split; [eapply reach_item; eauto|exact Hh].
    + intros (n & Hr & Hh). inversion Hr as [m|?|l0 v m Hin Hrv]; subst.
      { destruct Hh as (kv0 & v & Hn & _). discriminate. }
      exists v. split; [exact Hin|].
      destruct (IH v Hin) as (bv & Hbv & Hiv).
      { intros n0 Hr0. apply Hshape. eapply reach_item; eauto. }
      rewrite Hbv. f_equal. apply Hiv. eauto.
  - (* a dict *)
    pose proof (Hshape _ (reach_here _ (JObj kv))) as Hself.
    simpl in Hself. apply andb_true_iff in Hself.
    destruct Hself as [Htext Hchildren].
    rewrite Forall_forall in IH.
    (* what the children contribute *)
    assert (Hsub :
      exists b,
        match dict_get "children" kv with
        | Some (JArr l) =>
            Py.for_any (search_in_tree case_sensitive
                          (if case_sensitive then text else Py.lower text)) l
        | Some other =>
            items <- Json.iter other ;;
            Py.for_any (fun _ : json => Ok false) items
        | None => Ok false
        end = Ok b
        /\ (b = true <->
            exists c n, dict_get "children" kv = Some c
                        /\ reach ["children"%string] c n
                        /\ text_hit case_sensitive text n)).
    { destruct (dict_get "children" kv) as [c|] eqn:Ec.
      - destruct c as [| | | |l|]; try discriminate.
        destruct (IH _ (JsonFacts.dict_get_In _ _ Ec)) as (b & Hb & Hiff).
        { intros n Hr. apply Hshape.
          eapply reach_key; [now left|exact Ec|exact Hr]. }
        simpl in Hb. exists b. split; [exact Hb|]. rewrite Hiff. split.
        + intros (n & Hr & Hh). exists (JArr l), n. auto.
        + intros (c & n & [= <-] & Hr & Hh). eauto.
      - exists false. split; [reflexivity|]. split; [discriminate|].
        intros (c & n & Hc & _). discriminate. }
    destruct Hsub as (bs & Hbs & Hsiff).
    simpl. rewrite JsonFacts.with_key_get.
    destruct (dict_get "text" kv) as [v|] eqn:Et.
    + destruct v as [| | |s| |]; try discriminate.
      destruct (text_check_string case_sensitive text s) as (bt & Hbt & Htiff).
      rewrite Hbt. destruct bt.
      * exists true. split; [reflexivity|]. split; [|reflexivity].
        intros _. exists (JObj kv). split; [constructor|].
        exists kv, (JStr s). repeat split; auto. now apply Htiff.
      * exists bs. split; [exact Hbs|]. rewrite Hsiff. split.
        -- intros (c & n & Hc & Hr & Hh). exists n. split; [|exact Hh].
           eapply reach_key; [now left|exact Hc|exact Hr].
        -- intros (n & Hr & Hh).
           inversion Hr as [m|kv0 k c m Hk Hc Hrc|]; subst.
           ++ exfalso. destruct Hh as (kv0 & v & [= <-] & Hv & Hq).
              rewrite Et in Hv. injection Hv as <-.
              apply Htiff in Hq. discriminate.
           ++ destruct Hk as [<-|[]]. eauto.
    + exists bs. split; [exact Hbs|]. rewrite Hsiff. split.
      * intros (c & n & Hc & Hr & Hh). exists n. split; [|exact Hh].
        eapply reach_key; [now left|exact Hc|exact Hr].
      * intros (n & Hr & Hh).
        inversion Hr as [m|kv0 k c m Hk Hc Hrc|]; subst.
        -- exfalso. destruct Hh as (kv0 & v & [= <-] & Hv & _). congruence.
        -- destruct Hk as [<-|[]]. eauto.
Qed.

(** X11.  On a snapshot whose nodes are well shaped, [text_visible] returns
    [True] exactly when some element reached from a window through lists
    and [children] has a text that contains the query; with
    [case_sensitive=False] both are compared in lower case. *)
Theorem X11_text_visible_finds_children_text text case_sensitive self state ws :
  fst (query self) = Ok state ->
  windows_of state = Ok ws ->
  (forall w n, In w ws -> reach ["children"%string] w n ->
               well_shaped n = true) ->
  (fst (text_visible subprocess_run json_loads text case_sensitive self)
   = Ok true
   <-> exists w n, In w ws /\ reach ["children"%string] w n
                   /\ text_hit case_sensitive text n).
Proof.
  intros Hq Hws Hshape.
  assert (Heq :
    fst (text_visible subprocess_run json_loads text case_sensitive self)
    = Ok match Py.for_any
                 (search_in_tree case_sensitive
                    (if case_sensitive then text else Py.lower text)) ws with
         | Ok b => b
         | Raise _ => false
         end).
  { unfold text_visible, except_return, mbind, lift.
    destruct (query self) as [r s']. simpl in Hq. subst r. simpl.
    unfold windows_of in Hws.
    destruct (Json.get state "windows" (JArr [])) as [windows|e];
      [|discriminate].
    simpl in Hws |- *. rewrite Hws. simpl.
    now destruct (Py.for_any _ ws). }
  rewrite Heq.
  destruct (@for_any_decided json
              (search_in_tree case_sensitive
                 (if case_sensitive then text else Py.lower text)) ws)
    as (b & Hb & Hiff).
  { intros w Hw.
    destruct (@search_in_tree_decided case_sensitive text w) as (bw & Hbw & _);
      [|eauto].
    intros n Hr. eapply Hshape; eauto. }
  rewrite Hb. split.
  - intros [= ->]. destruct (proj1 Hiff eq_refl) as (w & Hw & Hf).
    destruct (@search_in_tree_decided case_sensitive text w)
      as (bw & Hbw & Hiw).
    { intros n Hr. eapply Hshape; eauto. }
    rewrite Hbw in Hf. injection Hf as ->.
    destruct (proj1 Hiw eq_refl) as (n & Hr & Hh). eauto.
  - intros (w & n & Hw & Hr & Hh). f_equal. apply Hiff.
    exists w. split; [exact Hw|].
    destruct (@search_in_tree_decided case_sensitive text w)
      as (bw & Hbw & Hiw).
    { intros n0 Hr0. eapply Hshape; eauto. }
    rewrite Hbw. f_equal. apply Hiw. eauto.
Qed.

End TextSearchFacts.

(* ================================================================= *)
(** * The further properties on sample environments *)

Lemma X1_last_response_follows_extraction_witness :
  UITest.get_last_json_response (UITest.Client "uitest" (Some (JObj [])))
  = (Ok (JObj []), UITest.Client "uitest" (Some (JObj []))).
Proof.
  apply (proj1 (@X1_last_response_follows_extraction toy_loads "{}" client0
                  (Ok (JObj [])) (UITest.Client "uitest" (Some (JObj [])))
                  eq_refl)).
  discriminate.
Defined.

Lemma X2_exit_status_query_vs_menu_witness :
  UITest.query_ui_state failing_bridge toy_loads client0
  = (Raise (CommandFailedError "Failed to query UI state: internal error"),
     client0)
  /\ UITest.menu failing_bridge toy_loads "Info > About" client0
     = (Ok (JObj []), UITest.Client "uitest" (Some (JObj []))).
Proof.
  apply (@X2_exit_status_query_vs_menu failing_bridge toy_loads client0
           (UITest.Completed "{}" "internal error" 1) "Info > About").
  - reflexivity.
  - reflexivity.
  - discriminate.
Defined.

Lemma X3_query_ui_state_error_classes_witness :
  fst (UITest.query_ui_state (answering long_number_output) limited_loads
                             client0)
  = Raise digit_limit
  /\ exists text, limited_loads text = Raise digit_limit.
Proof.
  assert (Hq : fst (UITest.query_ui_state (answering long_number_output)
                                          limited_loads client0)
               = Raise digit_limit)
    by (vm_compute; reflexivity).
  split; [exact Hq|].
  destruct (@X3_query_ui_state_error_classes
              (answering long_number_output) limited_loads client0 _ Hq)
    as [(msg & H)|[(msg & H)|(text & H & _)]];
    [discriminate H|discriminate H|].
  exists text. exact H.
Defined.

Lemma X5_assert_element_exists_children_only_witness :
  (exists m,
      fst (UITest.assert_element_exists (answering "{}") (yielding info_state)
                                        "NSTextField" "" client0)
      = Raise (AssertionFailedError m))
  /\ UITest.count_class "NSTextField" info_window = 1%nat.
Proof.
  split; [|reflexivity].
  destruct (proj1 (X5_assert_element_exists_children_only
                     (answering "{}") (yielding info_state)
                     "NSTextField" "" client0) _ eq_refl) as [m Hm].
  exists m. now rewrite <- Hm.
Defined.

Lemma X6_get_element_by_text_exact_witness :
  exists e,
    fst (UITest.get_element_by_text (answering "{}") (yielding info_state)
                                    "Version 1.0" client0) = Ok (Some e)
    /\ has_str "text" "Version 1.0" e = true.
Proof.
  apply (proj2 (proj2 (X6_get_element_by_text_exact
                         (answering "{}") (yielding info_state)
                         "Version 1.0" client0))
           info_state [info_window] info_window
           (JObj [("class", JStr "NSTextField");
                  ("text", JStr "Version 1.0")]%string)).
  - reflexivity.
  - reflexivity.
  - now left.
  - eapply reach_key; [right; now left|reflexivity|].
    eapply reach_key; [right; right; now left|reflexivity|].
    eapply reach_item; [now left|constructor].
  - reflexivity.
Defined.

Lemma X7_get_window_elements_skips_bare_window_witness :
  fst (UITest.get_window_elements (answering "{}") (yielding bare_state)
                                  "Console" client0)
  = Raise (AssertionFailedError "Window not found: Console")
  /\ fst (UITest.window_exists (answering "{}") (yielding bare_state)
                               "Console" client0) = Ok true.
Proof.
  apply (@X7_get_window_elements_skips_bare_window
           (answering "{}") (yielding bare_state) "Console" client0
           [("windows", JArr [JObj [("title", JStr "Console")]])]%string
           [JObj [("title", JStr "Console")]]%string
           (JObj [("title", JStr "Console")]%string)).
  - reflexivity.
  - reflexivity.
  - repeat constructor.
  - now left.
  - reflexivity.
Defined.

Lemma X8_get_menu_items_not_found_witness :
  fst (UITest.get_menu_items (answering "{}") (yielding file_menu_state)
                             "Edit" client0)
  = Raise (UITestException "Menu not found: Edit").
Proof.
  apply (proj1 (@X8_get_menu_items_not_found
                  (answering "{}") (yielding file_menu_state)
                  "Edit" client0 _ _ eq_refl eq_refl)).
  repeat constructor.
Defined.

Lemma X9_menu_items_partition_witness :
  fst (UITest.get_enabled_menu_items (answering "{}")
         (yielding file_menu_state) None client0)
  = Ok [JObj [("title", JStr "Find"); ("enabled", JBool true);
              ("menu", JStr "File")]]%string
  /\ fst (UITest.get_disabled_menu_items (answering "{}")
            (yielding file_menu_state) None client0)
     = Ok [JObj [("title", JStr "New Folder"); ("enabled", JBool false);
                 ("menu", JStr "File")]]%string.
Proof.
  destruct (proj2 (X9_menu_items_partition (answering "{}")
                     (yielding file_menu_state) None client0)
              _ _ eq_refl eq_refl
              ltac:(repeat constructor))
    as (He & Hd & _).
  split; [exact He|exact Hd].
Defined.

Lemma X13_run_interactive_tests_negative_pause_witness :
  fst (fst (UITest.run_interactive_tests (fun _ (w : nat) => w)
              [("a", passing); ("b", passing)]%string None (- 1 # 2)
              None None None 0%nat)) = Finished 1
  /\ snd (UITest.run_interactive_tests (fun _ (w : nat) => w)
            [("a", passing); ("b", passing)]%string None (- 1 # 2)
            None None None 0%nat) = 1%nat
  /\ In (UITest.LResults 0 1 2)
        (snd (fst (UITest.run_interactive_tests (fun _ (w : nat) => w)
                     [("a", passing); ("b", passing)]%string None (- 1 # 2)
                     None None None 0%nat))).
Proof.
  destruct (proj2 (@X13_run_interactive_tests_negative_pause nat
                     (fun _ w => w) ("a"%string, passing)
                     [("b"%string, passing)] None (- 1 # 2)
                     None None None 0%nat eq_refl) eq_refl eq_refl)
    as (Hstatus & Hworld & Hline).
  split; [exact Hstatus|]. split; [exact Hworld|]. exact (Hline eq_refl).
Defined.

Lemma X18_move_mouse_smoothly_zero_speed_witness :
  UserInput.move_mouse_smoothly xdotool_fine pointer_at_origin sqrt_down
    300 400 (Some 0%Q) (1 # 10) (1 # 2) (- 1 # 3) []
  = (Raise (ZeroDivisionError "float division by zero"), [GetMouseLocation]).
Proof.
  apply (proj1 (@X18_move_mouse_smoothly_zero_speed
                  xdotool_fine pointer_at_origin sqrt_down
                  300 400 0%Q (1 # 10) (1 # 2) (- 1 # 3) [] 0 0
                  eq_refl eq_refl eq_refl (inject_Z 500) eq_refl)).
  reflexivity.
Defined.

Lemma X19_check_focus_before_click_escape_witness :
  UserInput.check_focus_before_click xdotool_fine alert_focused []
  = (Ok true,
     [GetActiveWindow; Key "Escape"; Sleep (1 # 10); Sleep (2 # 10)]).
Proof.
  exact (proj1 (@X19_check_focus_before_click_escape
                  xdotool_fine alert_focused (fun _ _ => eq_refl) [])).
Defined.

Lemma X20_dismiss_all_dialogs_count_witness :
  exists evs,
    UserInput.dismiss_all_dialogs xdotool_fine 3 [] = (Ok tt, evs)
    /\ escapes evs = 3%nat.
Proof.
  destruct (@X20_dismiss_all_dialogs_count xdotool_fine (fun _ _ => eq_refl) 3 [])
    as (evs & Hr & He & _).
  exists evs. split; [exact Hr|exact He].
Defined.

Lemma X21_move_mouse_linear_ends_on_target_witness :
  exists n trail pause,
    UserInput.move_mouse_linear xdotool_fine pointer_at_origin
                                300 400 (1 # 10) []
    = (Ok tt,
       GetMouseLocation :: trail ++ [MouseMove 300 400; Sleep pause])
    /\ n = 5%nat /\ length trail = 8%nat.
Proof.
  destruct (@X21_move_mouse_linear_ends_on_target
              xdotool_fine pointer_at_origin (fun _ _ => eq_refl)
              300 400 (1 # 10) [] 0 0 eq_refl eq_refl eq_refl
              ltac:(simpl; lia) ltac:(simpl; lia)
              ltac:(simpl; lia) ltac:(simpl; lia))
    as (n & trail & pause & Hr & _ & Hlen & _ & Hfive).
  exists n, trail, pause. rewrite (Hfive eq_refl) in Hlen |- *.
  split; [exact Hr|]. split; [reflexivity|exact Hlen].
Defined.



Lemma X11_text_visible_finds_children_text_witness :
  fst (UITest.text_visible (answering "{}") (yielding about_state)
                           editeur_lower false client0) = Ok true.
Proof.
  assert (Hshape : forall w n,
             In w [about_window] -> reach ["children"%string] w n ->
             well_shaped n = true).
  { intros w n [<-|[]] Hr. unfold about_window in Hr.
    inversion Hr as [|kv k v m Hk Hget Hr1|]; subst; [reflexivity|].
    destruct Hk as [<-|[]]. injection Hget as <-.
    inversion Hr1 as [| |l v m Hin Hr2]; subst; [reflexivity|].
    destruct Hin as [<-|[]].
    inversion Hr2 as [|kv k v m Hk Hget Hr3|]; subst; [reflexivity|].
    destruct Hk as [<-|[]]. discriminate Hget. }
  apply (proj2 (@X11_text_visible_finds_children_text
                  (answering "{}") (yielding about_state)
                  editeur_lower false client0 about_state [about_window]
                  eq_refl eq_refl Hshape)).
  exists about_window,
    (JObj [("class", JStr "NSTextField"); ("text", JStr editeur_upper)]%string).
  split; [now left|]. split.
  - eapply reach_key; [now left|reflexivity|].
    eapply reach_item; [now left|constructor].
  - eexists _, _. split; [reflexivity|]. split; [reflexivity|].
    exists editeur_upper. split; reflexivity.
Defined.

(* ================================================================= *)
(** * Assertions on a text and guarded clicks *)

Section TextAssertionFacts.

Import UITest.
Local Open Scope list_scope.

Variable subprocess_run : list string -> result UITest.CompletedProcess.
Variable json_loads : string -> result json.

(** X24.  [assert_text_contains] on a text the caller supplies: it passes
    without running any command when the text contains the expected one.
    Otherwise it raises [AssertionFailedError], directly when highlighting
    is off; when highlighting is on, the highlight command runs first and
    is not guarded, so an exception of that command is what the caller
    gets, in place of the assertion error. *)
Theorem X24_assert_text_contains_highlight_first
        window_title expected_text actual_text self :
  let failure :=
    AssertionFailedError (text_mismatch_msg expected_text actual_text) in
  let highlighted :=
    highlight_failure subprocess_run json_loads window_title actual_text 0
                      self in
  (Py.contains expected_text actual_text = true ->
   forall highlight_on_fail,
     assert_text_contains subprocess_run json_loads window_title
                          expected_text (Some actual_text) highlight_on_fail
                          self
     = (Ok true, self))
  /\ (Py.contains expected_text actual_text = false ->
      assert_text_contains subprocess_run json_loads window_title
                           expected_text (Some actual_text) false self
      = (Raise failure, self)
      /\ (forall e, fst highlighted = Raise e ->
            fst (assert_text_contains subprocess_run json_loads window_title
                   expected_text (Some actual_text) true self)
            = Raise e)
      /\ (forall j, fst highlighted = Ok j ->
            fst (assert_text_contains subprocess_run json_loads window_title
                   expected_text (Some actual_text) true self)
            = Raise failure)).
Proof.
  intros failure highlighted. unfold assert_text_contains. split.
  - intros ->. reflexivity.
  - intros ->. simpl. split; [reflexivity|].
    unfold mbind, lift. subst highlighted.
    destruct (highlight_failure subprocess_run json_loads window_title
                                actual_text 0 self) as [[j|e] s']; simpl.
    + split; [discriminate|reflexivity].
    + split; [now intros e' [= <-]|discriminate].
Qed.

End TextAssertionFacts.

Lemma X24_assert_text_contains_highlight_first_witness :
  fst (UITest.assert_text_contains unreachable_bridge toy_loads
         "Info" "Version 2" (Some "Version 1.0"%string) true client0)
  = Raise (CommandFailedError
             ("Failed to run uitest: " ++ UITest.not_running_msg))
  /\ fst (UITest.assert_text_contains unreachable_bridge toy_loads
            "Info" "Version 2" (Some "Version 1.0"%string) false client0)
     = Raise (AssertionFailedError
                "Expected text 'Version 2' not found in 'Version 1.0'").
Proof.
  pose proof (proj2 (X24_assert_text_contains_highlight_first
                       unreachable_bridge toy_loads
                       "Info" "Version 2" "Version 1.0" client0) eq_refl)
    as (Hoff & Hraise & _).
  split.
  - apply Hraise. reflexivity.
  - now rewrite Hoff.
Defined.

Section SafeClickFacts.

Import UserInput.
Local Open Scope list_scope.

Variable xdotool_status : history -> event -> Z * string.
Variable mouse_location : history -> result (Z * Z).
Variable math_sqrt : Z -> result Q.
Variable focused_name : history -> option string.

(** Every [xdotool] call exits with status 0. *)
Hypothesis xdotool_succeeds : forall h e, fst (xdotool_status h e) = 0.

Lemma check_focus_trace h :
  check_focus_before_click xdotool_status focused_name h
  = (Ok true,
     h ++ GetActiveWindow
       :: (if alert_name (focused_name h)
           then [Key "Escape"; Sleep (1 # 10); Sleep (2 # 10)]
           else [])).
Proof.
  unfold check_focus_before_click, get_focused_window_name, press_escape,
    alert_name.
  destruct (focused_name h) as [[|c n]|]; try reflexivity.
  destruct (existsb _ alert_keywords); [|reflexivity].
  rewrite (key_ok xdotool_status xdotool_succeeds).
  rewrite sleep_ok by reflexivity. now rewrite <- !app_assoc.
Qed.

(** X25.  [click_safe] checks the focus once and then clicks in any case: when
    an alert is focused it presses Escape, does not look at the focus
    again, and still moves and presses the button. *)
Theorem X25_click_safe_clicks_after_escape x y button u1 u2 h :
  click_safe xdotool_status mouse_location math_sqrt focused_name
             x y button false u1 u2 h
  = (Ok tt,
     h ++ GetActiveWindow
       :: (if alert_name (focused_name h)
           then [Key "Escape"; Sleep (1 # 10); Sleep (2 # 10)]
           else [])
       ++ [MouseMove x y; Sleep (5 # 100); Click button; Sleep (1 # 10)]).
Proof.
  unfold click_safe, click. rewrite check_focus_trace.
  rewrite (run_ok xdotool_status xdotool_succeeds).
  rewrite sleep_ok by reflexivity.
  rewrite (run_ok xdotool_status xdotool_succeeds).
  rewrite sleep_ok by reflexivity.
  rewrite <- !app_assoc. reflexivity.
Qed.

End SafeClickFacts.

Lemma X25_click_safe_clicks_after_escape_witness :
  UserInput.click_safe xdotool_fine pointer_at_origin sqrt_down alert_focused
                       300 400 1 false (1 # 2) (- 1 # 3) []
  = (Ok tt,
     [GetActiveWindow; Key "Escape"; Sleep (1 # 10); Sleep (2 # 10);
      MouseMove 300 400; Sleep (5 # 100); Click 1; Sleep (1 # 10)]).
Proof.
  exact (@X25_click_safe_clicks_after_escape
           xdotool_fine pointer_at_origin sqrt_down alert_focused
           (fun _ _ => eq_refl) 300 400 1 (1 # 2) (- 1 # 3) []).
Defined.
